(** * Workspace core of coc.nvim: document registry, root resolution,
      configuration reload and the workspace-edit engine.

    The development follows [src/workspace.ts].  The [Workspace] class is a
    record of its private fields, extended with the parts of the outside
    world its methods touch (the file system, the messages echoed in the
    editor, the notifications fired on its emitters).  Methods are
    computations in a state-and-exception monad: a method either returns a
    value or throws, and in both cases leaves a new workspace behind.  A
    rejected promise of an [async] method is a thrown exception.

    A method as a computation runs from its call to its end: an [await]
    is sequencing in the monad.  That is a method called when no other
    is under way.  [onBufCreate] is also given cut at its awaits, with a
    scheduler over the pieces, for the creations that [attach] starts at
    once and for the calls that overlap one another; run alone, the pieces
    compose to the method.  Timers ([debounce], [wait]), the logger and the
    listeners a document registers on its buffer are left out; they do not
    touch the fields. *)

From Stdlib Require Import ZArith Ascii String.
From stdpp Require Import gmap strings list pretty.

Local Open Scope string_scope.
Local Open Scope list_scope.

(** ** Strings, as the JavaScript string methods used by the source *)

Definition startsWith (s p : string) : bool := String.prefix p s.

Definition endsWith (s p : string) : bool :=
  String.prefix (String.rev p) (String.rev s).

(** [s.replace(/\/$/, '')] : drops one trailing slash. *)
Fixpoint strip_slash (s : string) : string :=
  match s with
  | "" => ""
  | String c "" => if Ascii.eqb c "/"%char  then "" else s
  | String c r => String c (strip_slash r)
  end.

(** Truthiness of a JavaScript string: only the empty string is falsy. *)
Definition truthy_string (s : string) : bool :=
  match s with "" => false | _ => true end.

(** ** Protocol data (vscode-languageserver-protocol) *)

Record Position := { line : nat; character : nat }.
Record Range := { range_start : Position; range_end : Position }.
Record TextEdit := { range : Range; newText : string }.

(** Option bags of the file operations.  A field that is not set is
    [undefined], which every test in the source treats as false. *)
Record CreateFileOptions :=
  { cf_overwrite : bool; cf_ignoreIfExists : bool }.
Record RenameFileOptions :=
  { rf_overwrite : bool; rf_ignoreIfExists : bool }.
Record DeleteFileOptions :=
  { df_recursive : bool; df_ignoreIfNotExists : bool }.

Definition no_create_options : CreateFileOptions :=
  {| cf_overwrite := false; cf_ignoreIfExists := false |}.
Definition no_rename_options : RenameFileOptions :=
  {| rf_overwrite := false; rf_ignoreIfExists := false |}.
Definition no_delete_options : DeleteFileOptions :=
  {| df_recursive := false; df_ignoreIfNotExists := false |}.

(** One entry of [documentChanges], by the [.is] guard that accepts it.
    [version] is [number | null]; [options] may be absent. *)
Inductive DocumentChange :=
| TextDocumentEdit (uri : string) (version : option Z) (edits : list TextEdit)
| CreateFile (uri : string) (options : option CreateFileOptions)
| RenameFile (oldUri newUri : string) (options : option RenameFileOptions)
| DeleteFile (uri : string) (options : option DeleteFileOptions)
| UnknownChange (json : string).

(** The [documentChanges] member: missing, present but not an array, or a
    list of operations. *)
Inductive DocumentChanges :=
| NoDocumentChanges
| NotAnArray
| ChangeList (cs : list DocumentChange).

(** [changes] is an object from URI to edits; [Object.keys] lists it in
    insertion order. *)
Record WorkspaceEdit := {
  documentChanges : DocumentChanges;
  changes : option (list (string * list TextEdit))
}.

(** ** Configuration data

    A layer is a JSON-like tree.  Object members are kept in the order of
    the file they were read from. *)
#[local] Unset Elimination Schemes.
Inductive JValue :=
| JNull
| JBool (b : bool)
| JNum (z : Z)
| JStr (s : string)
| JArr (items : list JValue)
| JObj (members : list (string * JValue)).

#[local] Set Elimination Schemes.

Record IConfigurationData := {
  cd_defaults : JValue;
  cd_user : JValue;
  cd_workspace : JValue
}.

(** [Configurations]: the three layers plus the folder fragments attached
    by [addFolderFile], each under the path of its file. *)
Record Configurations := {
  defaults : JValue;
  user : JValue;
  workspace : JValue;
  foldConfigurations : list (string * JValue)
}.

(** ** The world outside the class *)

Inductive Node :=
| File (content : string)
| Dir.

Record Uri := { scheme : string; fsPath : string }.

Inductive MsgTypes := more | warning | error.

(** A [Document] instance.  [doc_serial] is the identity of the object
    made by [new Document]: two instances for the same buffer differ in it. *)
Record Document := {
  doc_serial : nat;
  doc_bufnr : nat;
  doc_uri : string;
  doc_version : Z;
  doc_content : string;
  doc_buftype : string;
  doc_schema : string
}.

(** Notifications fired on the emitters of the class.  The configuration
    event carries the closure [affectsConfiguration], which captures the
    previous [Configurations]. *)
Inductive Event :=
| DidOpenTextDocument (d : Document)
| DidCloseTextDocument (d : Document)
| DidChangeConfiguration (previous : Configurations)
| DidChangeWorkspaceFolder (rootPath : string).

(** Requests sent to the editor that change it. *)
Inductive EditorCall :=
| Argadd (names : list string)
| Bdelete (n : nat)
| SetName (n : nat) (name : string)
| Setpos (curpos : list Z).

(** Calls into Node's [fs], in the order they were made. *)
Inductive FsCall :=
| FsStat (p : string)
| FsExists (p : string)
| FsRead (p : string)
| FsWrite (p : string) (content : string)
| FsMkdir (p : string)
| FsRename (a b : string)
| FsRmdir (p : string)
| FsUnlink (p : string).

Inductive Exn :=
| TypeError (msg : string)
| SystemError (code path : string).

(** Libraries and helpers the class calls but does not define: vscode-uri,
    the protocol's [TextDocument.applyEdits], Node's [path] and [os],
    [find-up], and the helpers of [util/] and [model/configurations].  They
    are an interface; every theorem holds for any implementation of it.
    [editor_refuses c] is the error with which the editor rejects the
    request [c], when it does ([:bdelete] on a modified buffer, a buffer
    name that is in use). *)
Class Platform := {
  Uri_parse : string → Uri;
  Uri_file : string → string;
  TextDocument_applyEdits : string → list TextEdit → string;
  isSupportedScheme : string → bool;
  path_relative : string → string → string;
  path_dirname : string → string;
  path_join : string → string → string;
  fnameescape : string → string;
  os_homedir : string;
  plugin_root : string;
  vim_config_home : string;
  findUp : gmap string Node → string → string → option string;
  util_resolveRoot : gmap string Node → string → list string → string → option string;
  parseContentFromFile : gmap string Node → string → JValue;
  folderApplies : string → option string → bool;
  editor_refuses : EditorCall → option Exn
}.

(** A small platform to run the model on concrete inputs: the scheme is
    the text before the first colon, a file URI is [file://] followed by
    the path, and edits replace the text by their [newText]s. *)
Fixpoint before_colon (s : string) : option string :=
  match s with
  | "" => None
  | String c r =>
      if Ascii.eqb c ":"%char then Some ""
      else String c <$> before_colon r
  end.

Fixpoint drop_string (n : nat) (s : string) : string :=
  match n, s with
  | O, _ => s
  | S n', String _ r => drop_string n' r
  | S _, "" => ""
  end.

(** The path up to its last slash. *)
Fixpoint dirname_go (s : string) : option string :=
  match s with
  | "" => None
  | String c r =>
      match dirname_go r with
      | Some d => Some (String c d)
      | None => if Ascii.eqb c "/"%char then Some "" else None
      end
  end.

Definition sample_dirname (s : string) : string :=
  match dirname_go s with
  | Some "" => "/"
  | Some d => d
  | None => "."
  end.

Definition sample_parse (s : string) : Uri :=
  match before_colon s with
  | None => {| scheme := ""; fsPath := s |}
  | Some sch =>
      {| scheme := sch;
         fsPath := if startsWith s (sch +:+ "://")
                   then drop_string (String.length sch + 3) s
                   else drop_string (String.length sch + 1) s |}
  end.

Definition sample_platform : Platform := {|
  Uri_parse := sample_parse;
  Uri_file := λ p, "file://" +:+ p;
  TextDocument_applyEdits := λ text edits,
    match edits with
    | [] => text
    | _ => foldr (λ e acc, newText e +:+ acc) "" edits
    end;
  isSupportedScheme := λ s, bool_decide (s = "file") || bool_decide (s = "untitled");
  path_relative := λ from to,
    if startsWith to (from +:+ "/")
    then drop_string (String.length from + 1) to else to;
  path_dirname := sample_dirname;
  path_join := λ a b, a +:+ "/" +:+ b;
  fnameescape := λ s, s;
  os_homedir := "/home/user";
  plugin_root := "/opt/coc";
  vim_config_home := "/home/user/.vim";
  findUp := λ _ _ _, None;
  util_resolveRoot := λ _ dir _ _, Some dir;
  parseContentFromFile := λ _ _, JObj [];
  folderApplies := λ _ _, true;
  editor_refuses := λ _, None
|}.

(** ** The workspace *)

Record Workspace := {
  (* fields of the class *)
  bufnr : option nat;
  _cwd : string;
  _root : string;
  _blocking : bool;
  _initialized : bool;
  buffers : gmap nat Document;
  creating : gset nat;
  _configurations : Configurations;
  configFiles : list string;
  env_roots : list string;
  (* the world *)
  files : gmap string Node;
  fs_trace : list FsCall;
  messages : list (MsgTypes * string);
  emitted : list Event;
  editor : list EditorCall;
  serial : nat
}.

(** Field updates ([this.f = v]). *)

Definition set_bufnr (v : option nat) (w : Workspace) : Workspace :=
  {| bufnr := v; _cwd := _cwd w; _root := _root w; _blocking := _blocking w;
     _initialized := _initialized w; buffers := buffers w;
     creating := creating w; _configurations := _configurations w;
     configFiles := configFiles w; env_roots := env_roots w;
     files := files w; fs_trace := fs_trace w; messages := messages w;
     emitted := emitted w; editor := editor w; serial := serial w |}.

Definition set_root (v : string) (w : Workspace) : Workspace :=
  {| bufnr := bufnr w; _cwd := _cwd w; _root := v; _blocking := _blocking w;
     _initialized := _initialized w; buffers := buffers w;
     creating := creating w; _configurations := _configurations w;
     configFiles := configFiles w; env_roots := env_roots w;
     files := files w; fs_trace := fs_trace w; messages := messages w;
     emitted := emitted w; editor := editor w; serial := serial w |}.

Definition set_blocking (v : bool) (w : Workspace) : Workspace :=
  {| bufnr := bufnr w; _cwd := _cwd w; _root := _root w; _blocking := v;
     _initialized := _initialized w; buffers := buffers w;
     creating := creating w; _configurations := _configurations w;
     configFiles := configFiles w; env_roots := env_roots w;
     files := files w; fs_trace := fs_trace w; messages := messages w;
     emitted := emitted w; editor := editor w; serial := serial w |}.

Definition set_buffers (v : gmap nat Document) (w : Workspace) : Workspace :=
  {| bufnr := bufnr w; _cwd := _cwd w; _root := _root w;
     _blocking := _blocking w; _initialized := _initialized w; buffers := v;
     creating := creating w; _configurations := _configurations w;
     configFiles := configFiles w; env_roots := env_roots w;
     files := files w; fs_trace := fs_trace w; messages := messages w;
     emitted := emitted w; editor := editor w; serial := serial w |}.

Definition set_creating (v : gset nat) (w : Workspace) : Workspace :=
  {| bufnr := bufnr w; _cwd := _cwd w; _root := _root w;
     _blocking := _blocking w; _initialized := _initialized w;
     buffers := buffers w; creating := v;
     _configurations := _configurations w; configFiles := configFiles w;
     env_roots := env_roots w; files := files w; fs_trace := fs_trace w;
     messages := messages w; emitted := emitted w; editor := editor w;
     serial := serial w |}.

Definition set_configurations (v : Configurations) (w : Workspace) : Workspace :=
  {| bufnr := bufnr w; _cwd := _cwd w; _root := _root w;
     _blocking := _blocking w; _initialized := _initialized w;
     buffers := buffers w; creating := creating w; _configurations := v;
     configFiles := configFiles w; env_roots := env_roots w;
     files := files w; fs_trace := fs_trace w; messages := messages w;
     emitted := emitted w; editor := editor w; serial := serial w |}.

Definition set_configFiles (v : list string) (w : Workspace) : Workspace :=
  {| bufnr := bufnr w; _cwd := _cwd w; _root := _root w;
     _blocking := _blocking w; _initialized := _initialized w;
     buffers := buffers w; creating := creating w;
     _configurations := _configurations w; configFiles := v;
     env_roots := env_roots w; files := files w; fs_trace := fs_trace w;
     messages := messages w; emitted := emitted w; editor := editor w;
     serial := serial w |}.

Definition set_files (v : gmap string Node) (w : Workspace) : Workspace :=
  {| bufnr := bufnr w; _cwd := _cwd w; _root := _root w;
     _blocking := _blocking w; _initialized := _initialized w;
     buffers := buffers w; creating := creating w;
     _configurations := _configurations w; configFiles := configFiles w;
     env_roots := env_roots w; files := v; fs_trace := fs_trace w;
     messages := messages w; emitted := emitted w; editor := editor w;
     serial := serial w |}.

Definition set_fs_trace (v : list FsCall) (w : Workspace) : Workspace :=
  {| bufnr := bufnr w; _cwd := _cwd w; _root := _root w;
     _blocking := _blocking w; _initialized := _initialized w;
     buffers := buffers w; creating := creating w;
     _configurations := _configurations w; configFiles := configFiles w;
     env_roots := env_roots w; files := files w; fs_trace := v;
     messages := messages w; emitted := emitted w; editor := editor w;
     serial := serial w |}.

Definition set_messages (v : list (MsgTypes * string)) (w : Workspace) : Workspace :=
  {| bufnr := bufnr w; _cwd := _cwd w; _root := _root w;
     _blocking := _blocking w; _initialized := _initialized w;
     buffers := buffers w; creating := creating w;
     _configurations := _configurations w; configFiles := configFiles w;
     env_roots := env_roots w; files := files w; fs_trace := fs_trace w;
     messages := v; emitted := emitted w; editor := editor w;
     serial := serial w |}.

Definition set_emitted (v : list Event) (w : Workspace) : Workspace :=
  {| bufnr := bufnr w; _cwd := _cwd w; _root := _root w;
     _blocking := _blocking w; _initialized := _initialized w;
     buffers := buffers w; creating := creating w;
     _configurations := _configurations w; configFiles := configFiles w;
     env_roots := env_roots w; files := files w; fs_trace := fs_trace w;
     messages := messages w; emitted := v; editor := editor w;
     serial := serial w |}.

Definition set_editor (v : list EditorCall) (w : Workspace) : Workspace :=
  {| bufnr := bufnr w; _cwd := _cwd w; _root := _root w;
     _blocking := _blocking w; _initialized := _initialized w;
     buffers := buffers w; creating := creating w;
     _configurations := _configurations w; configFiles := configFiles w;
     env_roots := env_roots w; files := files w; fs_trace := fs_trace w;
     messages := messages w; emitted := emitted w; editor := v;
     serial := serial w |}.

Definition set_serial (v : nat) (w : Workspace) : Workspace :=
  {| bufnr := bufnr w; _cwd := _cwd w; _root := _root w;
     _blocking := _blocking w; _initialized := _initialized w;
     buffers := buffers w; creating := creating w;
     _configurations := _configurations w; configFiles := configFiles w;
     env_roots := env_roots w; files := files w; fs_trace := fs_trace w;
     messages := messages w; emitted := emitted w; editor := editor w;
     serial := v |}.

(** ** Computations: state plus exceptions *)

Inductive Outcome (A : Type) :=
| Returned (a : A)
| Thrown (e : Exn).
Arguments Returned {A} a.
Arguments Thrown {A} e.

Definition Async (A : Type) : Type := Workspace → Outcome A * Workspace.

Definition ret {A} (a : A) : Async A := λ w, (Returned a, w).

Definition bind {A B} (m : Async A) (k : A → Async B) : Async B :=
  λ w, match m w with
       | (Returned a, w') => k a w'
       | (Thrown e, w') => (Thrown e, w')
       end.

Definition throw {A} (e : Exn) : Async A := λ w, (Thrown e, w).

(** [try { m } catch (e) { h e }] *)
Definition try_catch {A} (m : Async A) (h : Exn → Async A) : Async A :=
  λ w, match m w with
       | (Returned a, w') => (Returned a, w')
       | (Thrown e, w') => h e w'
       end.

Definition get {A} (f : Workspace → A) : Async A := λ w, (Returned (f w), w).

Definition update (f : Workspace → Workspace) : Async unit :=
  λ w, (Returned tt, f w).

Notation "'let*' x := m 'in' k" := (bind m (λ x, k))
  (at level 10, x binder, k at level 200).
Notation "'do' m 'then' k" := (bind m (λ _, k))
  (at level 10, m at level 200, k at level 200).

(** [e.message] *)
Definition exn_message (e : Exn) : string :=
  match e with
  | TypeError msg => msg
  | SystemError code path => code +:+ ": " +:+ path
  end.

(** ** Messages

    [showMessage] echoes through [echoErr], [echoWarning] or [echoMessage]
    unless a prompt is blocking the command line. *)
Definition showMessage (msg : string) (identify : MsgTypes) : Async unit :=
  let* blocking := get _blocking in
  if blocking then ret tt
  else update (λ w, set_messages (messages w ++ [(identify, msg)]) w).

(** ** The registry lookup

    [getDocument] with a number reads the map; with a string it returns
    the first tracked document of that URI.  The source walks the map in
    insertion order and the model in key order; the two agree on whether a
    URI is open, and on the document found unless two buffers share a URI. *)
Definition getDocument_bufnr (n : nat) (w : Workspace) : option Document :=
  buffers w !! n.

Definition getDocument (uri : string) (w : Workspace) : option Document :=
  snd <$> List.find (λ kd, String.eqb (doc_uri kd.2) uri)
                    (map_to_list (buffers w)).

(** ** Node's [fs] on the in-memory tree

    A path names the entry stored under it without its trailing slash; a
    path with a trailing slash names directories only. *)
Definition lookup_path (fs : gmap string Node) (p : string) : option Node :=
  match fs !! strip_slash p with
  | Some Dir => Some Dir
  | Some (File c) => if endsWith p "/" then None else Some (File c)
  | None => None
  end.

Definition isDirectory (n : Node) : bool :=
  match n with Dir => true | File _ => false end.

Definition isFile (n : Node) : bool :=
  match n with File _ => true | Dir => false end.

Definition has_entries (fs : gmap string Node) (dir : string) : bool :=
  existsb (λ kn, startsWith kn.1 (strip_slash dir +:+ "/")) (map_to_list fs).

Definition rekey (a b k : string) : string :=
  if String.eqb k a then b
  else if startsWith k (a +:+ "/") then b +:+ drop_string (String.length a) k
  else k.

(** The directory part of a path: what stands before its last slash. *)
Fixpoint after_slash (s : string) : string :=
  match s with
  | "" => ""
  | String c r => if Ascii.eqb c "/"%char then r else after_slash r
  end.

Definition parent_path (p : string) : string :=
  String.rev (after_slash (String.rev p)).

(** The entry of the directory a path lies in.  The root and the working
    directory (the parent of a name without slash) are always there. *)
Definition parent_node (fs : gmap string Node) (p : string) : option Node :=
  let dir := parent_path (strip_slash p) in
  if String.eqb dir "" then Some Dir else fs !! dir.

Definition fs_call (c : FsCall) : Async unit :=
  update (λ w, set_fs_trace (fs_trace w ++ [c]) w).

(** [statAsync] of [util/fs]: the stats, or [null] when [fs.stat] fails
    (every caller tests its result with [!stat] or [stat == null]). *)
Definition statAsync (p : string) : Async (option Node) :=
  do fs_call (FsStat p) then
  get (λ w, lookup_path (files w) p).

Definition existsSync (p : string) : Async bool :=
  do fs_call (FsExists p) then
  get (λ w, bool_decide (is_Some (lookup_path (files w) p))).

Definition readFileSync (p : string) : Async string :=
  do fs_call (FsRead p) then
  let* node := get (λ w, lookup_path (files w) p) in
  match node with
  | Some (File c) => ret c
  | Some Dir => throw (SystemError "EISDIR" p)
  | None => throw (SystemError "ENOENT" p)
  end.

Definition writeFile (p content : string) : Async unit :=
  do fs_call (FsWrite p content) then
  let* node := get (λ w, files w !! strip_slash p) in
  match node with
  | Some Dir => throw (SystemError "EISDIR" p)
  | _ =>
      if endsWith p "/" then throw (SystemError "ENOENT" p)
      else
        let* parent := get (λ w, parent_node (files w) p) in
        match parent with
        | Some Dir => update (λ w, set_files (<[p := File content]> (files w)) w)
        | Some (File _) => throw (SystemError "ENOTDIR" p)
        | None => throw (SystemError "ENOENT" p)
        end
  end.

Definition mkdirAsync (p : string) : Async unit :=
  do fs_call (FsMkdir p) then
  let* node := get (λ w, files w !! strip_slash p) in
  match node with
  | Some _ => throw (SystemError "EEXIST" p)
  | None =>
      let* parent := get (λ w, parent_node (files w) p) in
      match parent with
      | Some Dir =>
          update (λ w, set_files (<[strip_slash p := Dir]> (files w)) w)
      | Some (File _) => throw (SystemError "ENOTDIR" p)
      | None => throw (SystemError "ENOENT" p)
      end
  end.

Definition renameAsync (a b : string) : Async unit :=
  do fs_call (FsRename a b) then
  let* node := get (λ w, lookup_path (files w) a) in
  match node with
  | None => throw (SystemError "ENOENT" a)
  | Some _ =>
      update (λ w, set_files
        (list_to_map
           (prod_map (rekey (strip_slash a) (strip_slash b)) id
              <$> map_to_list (delete (strip_slash b) (files w)))) w)
  end.

Definition rmdir (p : string) : Async unit :=
  do fs_call (FsRmdir p) then
  let* node := get (λ w, files w !! strip_slash p) in
  match node with
  | None => throw (SystemError "ENOENT" p)
  | Some (File _) => throw (SystemError "ENOTDIR" p)
  | Some Dir =>
      let* nonempty := get (λ w, has_entries (files w) p) in
      if nonempty then throw (SystemError "ENOTEMPTY" p)
      else update (λ w, set_files (delete (strip_slash p) (files w)) w)
  end.

Definition unlink (p : string) : Async unit :=
  do fs_call (FsUnlink p) then
  let* node := get (λ w, lookup_path (files w) p) in
  match node with
  | None => throw (SystemError "ENOENT" p)
  | Some Dir => throw (SystemError "EISDIR" p)
  | Some (File _) => update (λ w, set_files (delete p (files w)) w)
  end.

(** ** What the editor answers

    The replies of the RPC calls a method makes.  [buffer_init n] is what
    [Document.init] finds for buffer [n].  File contents are decoded text:
    the [filetype] and [fileencoding] options, which the source only hands
    on to [fs] and to [TextDocument.create], are not represented. *)
Inductive InitResult :=
| InitCreated (uri buftype schema content : string) (version : Z)
| InitRefused
| InitThrows (e : Exn).

Record Nvim := {
  getcurpos : list Z;
  prompt_change : Z;
  current_bufnr : nat;
  bufloaded : nat → bool;
  buffer_init : nat → InitResult
}.

(** ** Configuration store *)

Fixpoint split_dots_go (cur : string) (s : string) : list string :=
  match s with
  | "" => [String.rev cur]
  | String c r =>
      if Ascii.eqb c "."%char then String.rev cur :: split_dots_go "" r
      else split_dots_go (String c cur) r
  end.

(** [section.split('.')] *)
Definition split_dots (s : string) : list string := split_dots_go "" s.

Fixpoint member (k : string) (ms : list (string * JValue)) : option JValue :=
  match ms with
  | [] => None
  | (k', v) :: rest => if String.eqb k k' then Some v else member k rest
  end.

Fixpoint lookUp_keys (tree : JValue) (keys : list string) : option JValue :=
  match keys with
  | [] => Some tree
  | k :: rest =>
      match tree with
      | JObj ms =>
          match member k ms with
          | Some v => lookUp_keys v rest
          | None => None
          end
      | _ => None
      end
  end.

(** Modelled from the spec: [lookUp] of [model/configurations] is not in
    the sources at hand; the spec asks for dotted-key lookup in a layer,
    the whole layer when no section is given. *)
Definition lookUp (tree : JValue) (section : option string) : option JValue :=
  match section with
  | None => Some tree
  | Some s => lookUp_keys tree (split_dots s)
  end.

Definition has_member (k : string) (ms : list (string * JValue)) : bool :=
  match member k ms with Some _ => true | None => false end.

(** The members [ss] with the members [ts] laid over them: a key of [ts]
    replaces the value under the same key of [ss], through [lay]. *)
Section LayOver.
Context {A : Type}.
Variable lay : A → JValue → A.
Variable ts : list (string * JValue).

Fixpoint lay_over (ss : list (string * A)) : list (string * A) :=
  match ss with
  | [] => []
  | (k, s) :: rest =>
      (k, match member k ts with
          | Some t => lay s t
          | None => s
          end) :: lay_over rest
  end.
End LayOver.

(** Modelled from the spec: the merge of [model/configurations] is not in
    the sources at hand.  The spec stacks the layers by specificity and
    reads through a merged view of the stack: a key set in a more specific
    layer overrides the same key of a less specific one, and two objects
    under one key are merged key by key.  [merge source target] is
    [source] with [target] laid over it. *)
Fixpoint merge (source target : JValue) : JValue :=
  match source with
  | JObj ss =>
      match target with
      | JObj ts =>
          JObj (lay_over (λ s t, merge s t) ts ss
                ++ List.filter (λ kt, negb (has_member kt.1 ss)) ts)
      | _ => target
      end
  | _ => target
  end.

(** The members of one object against those of another: every key of
    [xs] is a key of [ys], with values that [cmp] accepts.  A key that
    occurs again further down a member list is shadowed by its first
    occurrence and not compared twice. *)
Section MatchMembers.
Context {A : Type}.
Variable cmp : A → JValue → bool.
Variable ys : list (string * JValue).

Fixpoint match_members (seen : list string) (xs : list (string * A)) : bool :=
  match xs with
  | [] => true
  | (k, x) :: rest =>
      (if existsb (String.eqb k) seen then true
       else match member k ys with
            | Some y => cmp x y
            | None => false
            end)
      && match_members (k :: seen) rest
  end.
End MatchMembers.

(** Modelled from the spec: [equals] of [util/object] is not in the sources
    at hand; the spec asks for a structural comparison.  Leaves are
    compared by value, arrays item by item, and objects key by key,
    whatever the order in which their members were written. *)
Fixpoint equals (a b : JValue) : bool :=
  match a, b with
  | JNull, JNull => true
  | JBool x, JBool y => Bool.eqb x y
  | JNum x, JNum y => Z.eqb x y
  | JStr x, JStr y => String.eqb x y
  | JArr xs, JArr ys =>
      (fix items xs ys :=
         match xs, ys with
         | [], [] => true
         | x :: xs', y :: ys' => equals x y && items xs' ys'
         | _, _ => false
         end) xs ys
  | JObj xs, JObj ys =>
      match_members (λ x y, equals x y) ys [] xs
      && forallb (λ ky, has_member ky.1 xs) ys
  | _, _ => false
  end.

(** [equals] on values that may be [undefined]. *)
Definition equals_value (a b : option JValue) : bool :=
  match a, b with
  | None, None => true
  | Some x, Some y => equals x y
  | _, _ => false
  end.

(** What the spec calls structurally the same: equal leaves, arrays alike
    item by item, objects with the same keys and alike values under each
    key. *)
#[local] Unset Elimination Schemes.
#[local] Set Elimination Schemes.

Section Methods.
Context `{!Platform}.

(** The layer stack seen from [resource], most specific layer first. *)
Definition layer_stack (c : Configurations) (resource : option string)
  : list JValue :=
  (snd <$> List.filter (λ f, folderApplies f.1 resource) (foldConfigurations c))
  ++ [workspace c; user c; defaults c].

(** The stack merged into one tree: the defaults at the bottom, each more
    specific layer laid over what is below it. *)
Definition merged (c : Configurations) (resource : option string) : JValue :=
  foldr (λ layer below, merge below layer) (JObj []) (layer_stack c resource).

(** Modelled from the spec: [Configurations.getConfiguration] is not in the
    sources at hand.  The spec has it return a view over the merged layer
    stack scoped to [section], with dotted-key lookup: the value found
    under the section in the merged tree, [undefined] when there is
    none. *)
Definition getConfiguration (c : Configurations) (section : option string)
    (resource : option string) : option JValue :=
  lookUp (merged c resource) section.

(** Modelled from the spec: [Configurations.addFolderFile] is not in the
    sources at hand; the spec has folder fragments attached to the store
    and kept across reloads. *)
Definition addFolderFile (file : string) (fs : gmap string Node)
    (c : Configurations) : Configurations :=
  {| defaults := defaults c; user := user c; workspace := workspace c;
     foldConfigurations :=
       foldConfigurations c ++ [(file, parseContentFromFile fs file)] |}.

Definition CONFIG_FILE_NAME : string := "coc-settings.json".

(** [loadConfigurations]: the three layers read from disk.  The defaults
    are parsed by the constructor only ([current = None]); the user file
    is the one under the configuration home (the branch for the test
    harness is left out). *)
Definition loadConfigurations (current : option Configurations)
  : Async IConfigurationData :=
  let file := path_join plugin_root "settings.json" in
  do update (λ w, set_configFiles (configFiles w ++ [file]) w) then
  let* defaultConfig := get (λ w,
    match current with
    | Some c => defaults c
    | None => parseContentFromFile (files w) file
    end) in
  let home := vim_config_home in
  let file := path_join home CONFIG_FILE_NAME in
  do update (λ w, set_configFiles (configFiles w ++ [file]) w) then
  let* userConfig := get (λ w, parseContentFromFile (files w) file) in
  let* folder := get (λ w, findUp (files w) ".vim" (_root w)) in
  let* workspaceConfig :=
    match folder with
    | Some folder =>
        if truthy_string folder && negb (String.eqb folder home) then
          let file := path_join folder CONFIG_FILE_NAME in
          let* parsed := get (λ w, parseContentFromFile (files w) file) in
          do update (λ w, set_configFiles (configFiles w ++ [file]) w) then
          ret parsed
        else ret (JObj [])
    | None => ret (JObj [])
    end in
  ret {| cd_defaults := defaultConfig; cd_user := userConfig;
         cd_workspace := workspaceConfig |}.

Definition fire (e : Event) : Async unit :=
  update (λ w, set_emitted (emitted w ++ [e]) w).

(** [onConfigurationChange]: replace the store, keep the folder fragments
    of the previous one, fire the change event with its predicate. *)
Definition onConfigurationChange : Async unit :=
  let* previous := get _configurations in
  let* config := loadConfigurations (Some previous) in
  do update (set_configurations
       {| defaults := cd_defaults config; user := cd_user config;
          workspace := cd_workspace config;
          foldConfigurations := foldConfigurations previous |}) then
  fire (DidChangeConfiguration previous).


(** The predicate carried by a [DidChangeConfiguration previous] event.
    It reads [this._configurations] when it is called, in workspace [w]. *)
Definition affectsConfiguration (previous : Configurations) (w : Workspace)
    (section : string) (resource : option string) : bool :=
  let a := getConfiguration previous (Some section) resource in
  let b := getConfiguration (_configurations w) (Some section) resource in
  negb (equals_value a b).

(** ** Root resolver *)

Definition default_root_markers : list string :=
  [".vim"; ".git"; ".hg"; ".projections.json"].

(** [resolveRoot]: [None] is the [undefined] the method returns when the
    directory lies under the current root of an initialized workspace. *)
Definition resolveRoot (uri : string) (w : Workspace) : option string :=
  let u := Uri_parse uri in
  let dir := path_dirname (fsPath u) in
  if negb (_initialized w) || negb (startsWith dir (_root w))
     || String.eqb (_root w) os_homedir
  then
    let markers :=
      match env_roots w with
      | [] => default_root_markers
      | roots => strip_slash <$> roots
      end in
    match util_resolveRoot (files w) dir markers os_homedir with
    | Some r => Some (if truthy_string r then r else _cwd w)
    | None => Some (_cwd w)
    end
  else None.

(** ** Document lifecycle *)

Definition defined {A} (o : option A) : bool :=
  match o with Some _ => true | None => false end.

(** A request that changes the editor, awaited by the caller.  A request
    the editor rejects is thrown at the [await] and changed nothing. *)
Definition editor_call (c : EditorCall) : Async unit :=
  match editor_refuses c with
  | Some e => throw e
  | None => update (λ w, set_editor (editor w ++ [c]) w)
  end.

(** Modelled from the spec: [Document.detach] of [model/document] is not in
    the sources at hand; the spec has it detach the editor-side listeners
    of the document, which leaves the workspace as it is. *)
Definition Document_detach (d : Document) : Async unit := ret tt.

(** [new Document(buffer, ...)] followed by [document.init(nvim)].
    Modelled from the spec: [Document.init] is not in the sources at hand;
    the spec has creation succeed, be refused (reported as not created) or
    fail.  [None] is the refusal. *)
Definition Document_init (nvim : Nvim) (id : nat) : Async (option Document) :=
  let* n := get serial in
  do update (set_serial (S n)) then
  match buffer_init nvim id with
  | InitCreated uri buftype schema content version =>
      ret (Some {| doc_serial := n; doc_bufnr := id; doc_uri := uri;
                   doc_version := version; doc_content := content;
                   doc_buftype := buftype; doc_schema := schema |})
  | InitRefused => ret None
  | InitThrows e => throw e
  end.

Definition onBufUnload (n : nat) : Async unit :=
  let* doc := get (getDocument_bufnr n) in
  match doc with
  | Some d =>
      do update (λ w, set_buffers (delete n (buffers w)) w) then
      do Document_detach d then
      fire (DidCloseTextDocument d)
  | None => ret tt
  end.

(** The first lines of the root block of [onBufCreate]: attach the
    settings file of the [.vim] folder found above the new root, when
    there is one outside the home directory. *)
Definition attach_folder_settings (root : string) : Async unit :=
  let* folder := get (λ w, findUp (files w) ".vim" root) in
  match folder with
  | Some folder =>
      if truthy_string folder && negb (String.eqb folder os_homedir) then
        let file := path_join folder CONFIG_FILE_NAME in
        let* stat := statAsync file in
        match stat with
        | Some s =>
            if isFile s then
              update (λ w, set_configurations
                (addFolderFile file (files w) (_configurations w)) w)
            else ret tt
        | None => ret tt
        end
      else ret tt
  | None => ret tt
  end.

(** The root block of [onBufCreate] (the [if] on [buftype] and [schema]).
    The folder-changed event carries [this.workspaceFolder], a view of the
    root just stored; the root stands for it here. *)
Definition onBufCreate_root (document : Document) : Async unit :=
  if String.eqb (doc_buftype document) "" && String.eqb (doc_schema document) "file"
  then
    let* root := get (resolveRoot (doc_uri document)) in
    let* current := get _root in
    match root with
    | Some root =>
        if truthy_string root && negb (String.eqb current root) then
          do attach_folder_settings root then
          do update (set_root root) then
          do onConfigurationChange then
          let* stored := get _root in
          fire (DidChangeWorkspaceFolder stored)
        else ret tt
    | None => ret tt
    end
  else ret tt.

(** [onBufCreate].  [events.fire('BufUnload', [id])] runs the handler
    registered by [init], [onBufUnload]. *)
Definition onBufCreate (nvim : Nvim) (id : nat) : Async unit :=
  let* busy := get (λ w, bool_decide (id ∈ creating w)) in
  if busy then ret tt else
  if negb (bufloaded nvim id) then ret tt else
  do update (set_bufnr (Some id)) then
  do update (λ w, set_creating ({[id]} ∪ creating w) w) then
  let* existing := get (getDocument_bufnr id) in
  let* created :=
    try_catch
      (do (if defined existing then onBufUnload id else ret tt) then
       let* document := Document_init nvim id in
       match document with
       | Some d => ret (Some d)
       | None =>
           do update (λ w, set_creating (creating w ∖ {[id]}) w) then
           ret None
       end)
      (λ e,
         do update (λ w, set_creating (creating w ∖ {[id]}) w) then
         ret None) in
  match created with
  | None => ret tt
  | Some document =>
      do update (λ w, set_buffers (<[id := document]> (buffers w)) w) then
      do update (λ w, set_creating (creating w ∖ {[id]}) w) then
      do onBufCreate_root document then
      fire (DidOpenTextDocument document)
  end.

Definition _checkBuffer (nvim : Nvim) : Async unit :=
  let n := current_bufnr nvim in
  do update (set_bufnr (Some n)) then
  let* doc := get (getDocument_bufnr n) in
  if defined doc then ret tt else onBufCreate nvim n.

(** ** File operations *)

Definition createFile (filepath : string) (opts : CreateFileOptions)
  : Async unit :=
  let* stat := statAsync filepath in
  if defined stat && negb (cf_overwrite opts) && negb (cf_ignoreIfExists opts)
  then showMessage (filepath +:+ " already exists!") error
  else if negb (defined stat) || cf_overwrite opts then
    if endsWith filepath "/" then
      try_catch (mkdirAsync filepath)
        (λ e, showMessage
                ("Can't create " +:+ filepath +:+ ": " +:+ exn_message e) error)
    else
      let uri := Uri_file filepath in
      let* doc := get (getDocument uri) in
      match doc with
      | Some _ => ret tt
      | None =>
          do writeFile filepath "" then
          let* cwd := get _cwd in
          let bufname :=
            if startsWith filepath cwd then path_relative cwd filepath
            else filepath in
          editor_call (Argadd [bufname])
      end
  else ret tt.

Definition renameFile (nvim : Nvim) (oldPath newPath : string)
    (opts : RenameFileOptions) : Async unit :=
  let* stat := statAsync newPath in
  if defined stat && negb (rf_overwrite opts) && negb (rf_ignoreIfExists opts)
  then showMessage (newPath +:+ " already exists") error
  else if negb (defined stat) || rf_overwrite opts then
    try_catch
      (do renameAsync oldPath newPath then
       let uri := Uri_file oldPath in
       let* doc := get (getDocument uri) in
       match doc with
       | Some d =>
           let* cwd := get _cwd in
           let name :=
             if startsWith newPath cwd then path_relative cwd newPath
             else newPath in
           do editor_call (SetName (doc_bufnr d) name) then
           onBufCreate nvim (doc_bufnr d)
       | None => ret tt
       end)
      (λ e, showMessage ("Rename error " +:+ exn_message e) error)
  else ret tt.

Definition deleteFile (filepath : string) (opts : DeleteFileOptions)
  : Async unit :=
  let* stat := statAsync (strip_slash filepath) in
  let* isDir :=
    match stat with
    | Some s => ret (isDirectory s || endsWith filepath "/")
    | None => throw (TypeError "Cannot read property 'isDirectory' of null")
    end in
  if negb (defined stat) && negb (df_ignoreIfNotExists opts)
  then showMessage (filepath +:+ " not exists") error
  else if negb (defined stat) then ret tt
  else if isDir && negb (df_recursive opts)
  then showMessage "Can't remove directory, recursive not set" error
  else
    try_catch
      (do (if isDir then rmdir filepath else unlink filepath) then
       if negb isDir then
         let uri := Uri_file filepath in
         let* doc := get (getDocument uri) in
         match doc with
         | Some d => editor_call (Bdelete (doc_bufnr d))
         | None => ret tt
         end
       else ret tt)
      (λ e, showMessage
              ("Error on delete " +:+ filepath +:+ ": " +:+ exn_message e) error).

(** ** Workspace edits: validation *)

(** [version] as a condition: [null] and [0] are falsy. *)
Definition truthy_version (version : option Z) : bool :=
  match version with
  | Some v => negb (v =? 0)%Z
  | None => false
  end.

(** [doc.version != version], a number against [number | null]. *)
Definition version_differs (docVersion : Z) (version : option Z) : bool :=
  match version with
  | Some v => negb (docVersion =? v)%Z
  | None => true
  end.

(** The body of the loop of [validteDocumentChanges] for one entry:
    [false] where the source returns false, [true] where it goes on. *)
Definition validate_change (change : DocumentChange) : Async bool :=
  match change with
  | TextDocumentEdit uri version _ =>
      let* doc := get (getDocument uri) in
      if truthy_version version && negb (defined doc) then
        do showMessage (uri +:+ " not opened.") error then
        ret false
      else
        let* docVersion :=
          match doc with
          | Some d => ret (doc_version d)
          | None => throw (TypeError "Cannot read property 'version' of null")
          end in
        if version_differs docVersion version then
          do showMessage (uri +:+ " changed before apply edit") error then
          ret false
        else
          match version with
          | None =>
              if negb (startsWith uri "file") then
                do showMessage ("Can't apply edits to " +:+ uri +:+ ".") error then
                ret false
              else
                let* exists_ := existsSync (fsPath (Uri_parse uri)) in
                if negb exists_ then
                  do showMessage ("File " +:+ uri +:+ " not exists.") error then
                  ret false
                else ret true
          | Some _ => ret true
          end
  | CreateFile uri options =>
      let u := Uri_parse uri in
      if String.eqb (scheme u) "file" then
        do showMessage ("scheme of " +:+ uri +:+ " should be file") error then
        ret false
      else
        let* exists_ := existsSync (fsPath u) in
        let opts := default no_create_options options in
        if negb (cf_ignoreIfExists opts) && negb (cf_overwrite opts) && exists_
        then
          do showMessage (uri +:+ " already exists.") more then
          ret false
        else ret true
  | RenameFile _ newUri options =>
      let options := default no_rename_options options in
      let* exists_ := existsSync (fsPath (Uri_parse newUri)) in
      if negb (rf_overwrite options) && negb (rf_ignoreIfExists options) && exists_
      then
        do showMessage (newUri +:+ " already exists.") more then
        ret false
      else ret true
  | DeleteFile uri options =>
      let options := default no_delete_options options in
      let* exists_ := existsSync (fsPath (Uri_parse uri)) in
      if negb exists_ && negb (df_ignoreIfNotExists options) then
        do showMessage (uri +:+ " not exists.") more then
        ret false
      else ret true
  | UnknownChange json =>
      do showMessage ("document change " +:+ json +:+ " not supported") error then
      ret false
  end.

Fixpoint validate_change_list (cs : list DocumentChange) : Async bool :=
  match cs with
  | [] => ret true
  | change :: rest =>
      let* ok := validate_change change in
      if ok then validate_change_list rest else ret false
  end.

Definition validteDocumentChanges (dc : DocumentChanges) : Async bool :=
  match dc with
  | NoDocumentChanges => ret true
  | NotAnArray =>
      do showMessage "Invalid documentChanges of WorkspaceEdit" error then
      ret false
  | ChangeList cs => validate_change_list cs
  end.

Fixpoint validate_uris (uris : list string) : Async bool :=
  match uris with
  | [] => ret true
  | uri :: rest =>
      if negb (isSupportedScheme (scheme (Uri_parse uri))) then
        do showMessage ("Schema of " +:+ uri +:+ " not supported.") error then
        ret false
      else
        let filepath := fsPath (Uri_parse uri) in
        let* doc := get (getDocument uri) in
        let* missing :=
          if defined doc then ret false
          else (let* exists_ := existsSync filepath in ret (negb exists_)) in
        if missing then
          do showMessage ("File " +:+ filepath +:+ " not exists") error then
          ret false
        else validate_uris rest
  end.

Definition validateChanges (changes : option (list (string * list TextEdit)))
  : Async bool :=
  match changes with
  | None => ret true
  | Some entries => validate_uris (fst <$> entries)
  end.

(** ** Workspace edits: application *)

Definition getChangedFiles (edit : WorkspaceEdit) (w : Workspace) : list string :=
  (match changes edit with
   | Some entries =>
       List.filter (λ uri, startsWith uri "file" && negb (defined (getDocument uri w)))
                   (fst <$> entries)
   | None => []
   end)
  ++
  (match documentChanges edit with
   | ChangeList cs =>
       omap (λ change,
               match change with
               | TextDocumentEdit uri None _ => Some uri
               | _ => None
               end) cs
   | _ => []
   end).

(** Modelled from the spec: [Document.applyEdits] of [model/document] is
    not in the sources at hand; the spec has edits to an open document
    applied in memory, with the version incremented. *)
Definition Document_applyEdits (d : Document) (edits : list TextEdit)
  : Async unit :=
  update (λ w, set_buffers
    (<[doc_bufnr d :=
         {| doc_serial := doc_serial d; doc_bufnr := doc_bufnr d;
            doc_uri := doc_uri d; doc_version := (doc_version d + 1)%Z;
            doc_content := TextDocument_applyEdits (doc_content d) edits;
            doc_buftype := doc_buftype d; doc_schema := doc_schema d |}]>
       (buffers w)) w).

(** Edits to a file that is not open: read, edit, write back. *)
Definition edit_file (uri : string) (edits : list TextEdit) : Async unit :=
  let filepath := fsPath (Uri_parse uri) in
  let* content := readFileSync filepath in
  let res := TextDocument_applyEdits content edits in
  writeFile filepath res.

Fixpoint apply_changes (entries : list (string * list TextEdit)) : Async unit :=
  match entries with
  | [] => ret tt
  | (uri, edits) :: rest =>
      let* document := get (getDocument uri) in
      do match document with
         | Some d => Document_applyEdits d edits
         | None => edit_file uri edits
         end then
      apply_changes rest
  end.

Definition apply_change (nvim : Nvim) (change : DocumentChange) : Async unit :=
  match change with
  | TextDocumentEdit uri version edits =>
      match version with
      | Some _ =>
          let* doc := get (getDocument uri) in
          match doc with
          | Some d => Document_applyEdits d edits
          | None => throw (TypeError "Cannot read property 'applyEdits' of null")
          end
      | None => edit_file uri edits
      end
  | CreateFile uri options =>
      createFile (fsPath (Uri_parse uri)) (default no_create_options options)
  | RenameFile oldUri newUri options =>
      renameFile nvim (fsPath (Uri_parse oldUri)) (fsPath (Uri_parse newUri))
        (default no_rename_options options)
  | DeleteFile uri options =>
      deleteFile (fsPath (Uri_parse uri)) (default no_delete_options options)
  | UnknownChange _ => ret tt
  end.

Fixpoint apply_change_list (nvim : Nvim) (cs : list DocumentChange) : Async unit :=
  match cs with
  | [] => ret tt
  | change :: rest =>
      do apply_change nvim change then
      apply_change_list nvim rest
  end.

Definition getbufname (filepath : string) (w : Workspace) : string :=
  fnameescape (if startsWith filepath (_cwd w)
               then path_relative (_cwd w) filepath else filepath).

Definition applyEdit (nvim : Nvim) (edit : WorkspaceEdit) : Async bool :=
  let* valid := validteDocumentChanges (documentChanges edit) in
  if negb valid then ret false else
  let* valid := validateChanges (changes edit) in
  if negb valid then ret false else
  let curpos := getcurpos nvim in
  let* changedFiles := get (getChangedFiles edit) in
  let len := length changedFiles in
  if (0 <? len)%nat && negb (prompt_change nvim =? 1)%Z then ret false else
  do match changes edit with
     | Some entries => apply_changes entries
     | None => ret tt
     end then
  do match documentChanges edit with
     | ChangeList (c :: cs) =>
         let n := length (c :: cs) in
         do apply_change_list nvim (c :: cs) then
         showMessage (pretty n +:+ " documents changed!") more
     | _ => ret tt
     end then
  do (if (0 <? length changedFiles)%nat then
        let* names := get (λ w, (λ uri, getbufname uri w) <$> changedFiles) in
        editor_call (Argadd names)
      else ret tt) then
  do editor_call (Setpos curpos) then
  ret true.

(** ** Reading *)

(** [readFile].  For an open document the source first calls
    [document.forceSync()], which leaves the workspace as it is. *)
Definition readFile (uri : string) : Async string :=
  let* document := get (getDocument uri) in
  match document with
  | Some d => ret (doc_content d)
  | None =>
      let u := Uri_parse uri in
      if negb (String.eqb (scheme u) "file") then ret ""
      else readFileSync (fsPath u)
  end.

(** ** The workspace over time *)

(** The fields before the constructor body runs. *)
Definition blank (cwd : string) (roots : list string)
    (fs : gmap string Node) : Workspace :=
  {| bufnr := None; _cwd := cwd; _root := cwd; _blocking := false;
     _initialized := false; buffers := ∅; creating := ∅;
     _configurations :=
       {| defaults := JObj []; user := JObj []; workspace := JObj [];
          foldConfigurations := [] |};
     configFiles := []; env_roots := roots;
     files := fs; fs_trace := []; messages := []; emitted := [];
     editor := []; serial := 0 |}.

(** [constructor]: load the three layers into a fresh store. *)
Definition constructor (cwd : string) (roots : list string)
    (fs : gmap string Node) : Workspace :=
  match loadConfigurations None (blank cwd roots fs) with
  | (Returned config, w) =>
      set_configurations
        {| defaults := cd_defaults config; user := cd_user config;
           workspace := cd_workspace config; foldConfigurations := [] |} w
  | (Thrown _, w) => w
  end.

(** The operations that touch the registry: the [BufCreate] and
    [BufUnload] events, the debounced recheck, and a rename. *)
Inductive Op :=
| BufCreate (nvim : Nvim) (id : nat)
| BufUnload (id : nat)
| Recheck (nvim : Nvim)
| Rename (nvim : Nvim) (oldPath newPath : string) (opts : RenameFileOptions).

Definition perform (op : Op) : Async unit :=
  match op with
  | BufCreate nvim id => onBufCreate nvim id
  | BufUnload id => onBufUnload id
  | Recheck nvim => _checkBuffer nvim
  | Rename nvim oldPath newPath opts => renameFile nvim oldPath newPath opts
  end.

Definition after (w : Workspace) (op : Op) : Workspace := (perform op w).2.

Definition run (ops : list Op) (w : Workspace) : Workspace :=
  foldl after w ops.

(** ** Reading the notification log *)

Definition is_config_event (e : Event) : bool :=
  match e with DidChangeConfiguration _ => true | _ => false end.

Definition is_folder_event (e : Event) : bool :=
  match e with DidChangeWorkspaceFolder _ => true | _ => false end.

Definition is_registry_event (e : Event) : bool :=
  match e with
  | DidOpenTextDocument _ | DidCloseTextDocument _ => true
  | _ => false
  end.

Definition count_events (p : Event → bool) (log : list Event) : nat :=
  length (List.filter p log).

(** [tracks log m]: the open and close notifications of [log] are
    bracketed per buffer and leave exactly the documents of [m] open.  A
    document opens only while none is open for its buffer, and only the
    document that is open for a buffer closes. *)
Inductive tracks : list Event → gmap nat Document → Prop :=
| tracks_nil : tracks [] ∅
| tracks_open log m d :
    tracks log m →
    m !! doc_bufnr d = None →
    tracks (log ++ [DidOpenTextDocument d]) (<[doc_bufnr d := d]> m)
| tracks_close log m d :
    tracks log m →
    m !! doc_bufnr d = Some d →
    tracks (log ++ [DidCloseTextDocument d]) (delete (doc_bufnr d) m)
| tracks_other log m e :
    tracks log m →
    is_registry_event e = false →
    tracks (log ++ [e]) m.

(** The close notification [onBufUnload] fires for buffer [id]. *)
Definition closes (w : Workspace) (id : nat) : list Event :=
  match buffers w !! id with
  | Some old => [DidCloseTextDocument old]
  | None => []
  end.

(** What a root block leaves in the log: nothing when the root stays, one
    configuration event and one folder event when it moves. *)
Definition root_events (w w' : Workspace) (evs : list Event) : Prop :=
  (_root w' = _root w ∧ evs = []) ∨
  (_root w' ≠ _root w ∧
   ∃ previous, evs = [DidChangeConfiguration previous;
                      DidChangeWorkspaceFolder (_root w')]).

(** The three ways an operation moves the registry, the log and the root:
    not at all; by unloading one buffer; by unloading it, if it was there,
    and registering a new document for it. *)
Inductive registry_step (w w' : Workspace) : Prop :=
| step_idle :
    buffers w' = buffers w → emitted w' = emitted w → _root w' = _root w →
    registry_step w w'
| step_unloaded id :
    buffers w' = delete id (buffers w) →
    emitted w' = emitted w ++ closes w id →
    _root w' = _root w →
    registry_step w w'
| step_created d evs :
    buffers w' = <[doc_bufnr d := d]> (delete (doc_bufnr d) (buffers w)) →
    emitted w' =
      emitted w ++ closes w (doc_bufnr d) ++ evs ++ [DidOpenTextDocument d] →
    root_events w w' evs →
    registry_step w w'.

(** The number of operations of a run at which the stored root changes. *)
Fixpoint root_changes (ops : list Op) (w : Workspace) : nat :=
  match ops with
  | [] => 0
  | op :: rest =>
      (if String.eqb (_root (after w op)) (_root w) then 0 else 1)
      + root_changes rest (after w op)
  end.

(** Every document sits under its own buffer number. *)
Definition keyed (m : gmap nat Document) : Prop :=
  ∀ id d, m !! id = Some d → doc_bufnr d = id.

(** Everything but what is echoed and the log of [fs] calls. *)
Definition same_but_logs (w w' : Workspace) : Prop :=
  bufnr w' = bufnr w ∧ _cwd w' = _cwd w ∧ _root w' = _root w ∧
  _blocking w' = _blocking w ∧ _initialized w' = _initialized w ∧
  buffers w' = buffers w ∧ creating w' = creating w ∧
  _configurations w' = _configurations w ∧ configFiles w' = configFiles w ∧
  env_roots w' = env_roots w ∧ files w' = files w ∧
  emitted w' = emitted w ∧ editor w' = editor w ∧ serial w' = serial w.

(** The calls of a trace that change the file system. *)
Definition is_mutation (c : FsCall) : bool :=
  match c with
  | FsStat _ | FsExists _ | FsRead _ => false
  | _ => true
  end.

(** A computation is quiet when it changes nothing but the two logs and
    makes no [fs] call that mutates. *)
Definition quiet {A} (m : Async A) : Prop :=
  ∀ w, same_but_logs w (m w).2 ∧
       List.filter is_mutation (fs_trace (m w).2) =
       List.filter is_mutation (fs_trace w).

(** What the registry invariant and the root events read of a workspace. *)
Definition view (w : Workspace) : gmap nat Document * list Event * string :=
  (buffers w, emitted w, _root w).

Definition keeps_view {A} (m : Async A) : Prop := ∀ w, view (m w).2 = view w.

Definition steps {A} (m : Async A) : Prop := ∀ w, registry_step w (m w).2.

(** ** More of the class *)

(** *** Configuration files *)

(** [ConfigurationTarget] of [types.ts]: [Global], [User], [Workspace]. *)
Inductive ConfigurationTarget :=
| TargetGlobal
| TargetUser
| TargetWorkspace.

(** [getConfigFile]: an index past the end of [configFiles] reads
    [undefined]. *)
Definition getConfigFile (target : ConfigurationTarget) (w : Workspace)
  : option string :=
  match target with
  | TargetGlobal => configFiles w !! 0%nat
  | TargetUser => configFiles w !! 1%nat
  | TargetWorkspace => configFiles w !! 2%nat
  end.

(** *** Prompts *)

(** [showQuickpick].  [reply] is what [parseInt] makes of the answer of
    [inputlist]: a number, or [None] for [NaN]. *)
Definition showQuickpick (reply : option Z) (items : list string)
    (placeholder : string) : Async Z :=
  let msgs :=
    (placeholder +:+ ":")
    :: imap (λ index str, pretty (index + 1)%nat +:+ ". " +:+ str) items in
  do update (set_blocking true) then
  do update (set_blocking false) then
  match reply with
  | None => ret (-1)%Z
  | Some n =>
      if (n <=? 0)%Z || (Z.of_nat (length msgs) <? n)%Z then ret (-1)%Z
      else ret (n - 1)%Z
  end.

(** [showPrompt]: [res == 1]. *)
Definition showPrompt (reply : Z) : Async bool :=
  do update (set_blocking true) then
  do update (set_blocking false) then
  ret (reply =? 1)%Z.

(** *** Echoing lines *)

Fixpoint take_string (n : nat) (s : string) : string :=
  match n, s with
  | S n', String c r => String c (take_string n' r)
  | _, _ => ""
  end.

(** [s.slice(0, e)]: a negative end counts from the end of the string. *)
Definition slice_to (e : Z) (s : string) : string :=
  if (0 <=? e)%Z then take_string (Z.to_nat e) s
  else take_string (Z.to_nat (Z.of_nat (String.length s) + e)) s.

Definition newline : ascii := "010"%char.

(** [line.replace(/\n/g, ' ')] *)
Fixpoint replace_newlines (s : string) : string :=
  match s with
  | "" => ""
  | String c r =>
      String (if Ascii.eqb c newline then " "%char else c) (replace_newlines r)
  end.

(** [echoLines]: the lines handed to [coc#util#echo_lines], from the
    editor's [cmdheight] and [columns].  With [cmdheight] zero the source
    assigns to index -1 of the empty slice, which adds no element. *)
Definition echoLines (cmdHeight : nat) (columns : Z) (lines : list string)
    (truncate : bool) : list string :=
  let lines :=
    if (cmdHeight <? length lines)%nat && truncate then
      let kept := take cmdHeight lines in
      match cmdHeight with
      | O => kept
      | S i =>
          match kept !! i with
          | Some last => <[i := last +:+ " ..."]> kept
          | None => kept
          end
      end
    else lines in
  (λ line,
     let line := replace_newlines line in
     if truncate then slice_to (columns - 1) line else line) <$> lines.

(** *** Lines of a resource *)

Fixpoint split_lines_go (cur : string) (s : string) : list string :=
  match s with
  | "" => [String.rev cur]
  | String c r =>
      if Ascii.eqb c newline then String.rev cur :: split_lines_go "" r
      else split_lines_go (String c cur) r
  end.

(** [content.split('\n')] *)
Definition split_lines (s : string) : list string := split_lines_go "" s.

(** [getLine].  [getline] stands for [Document.getline], which is not in
    the sources at hand; [split] with a limit keeps the first pieces. *)
Definition getLine (getline : Document → nat → option string)
    (uri : string) (line : nat) : Async string :=
  let* document := get (getDocument uri) in
  match document with
  | Some d => ret (default "" (getline d line))
  | None =>
      let* content := readFile uri in
      let lines := take (line + 1) (split_lines content) in
      ret (default "" (lines !! line))
  end.

(** *** Output channels *)

(** A [BufferChannel] is made with its name. *)
Record OutputChannel := { channel_name : string }.

(** [createOutputChannel] on the [outputChannels] map; [uuid] is the token
    [uuidv1()] gives. *)
Definition createOutputChannel (uuid : string) (name : string)
    (outputChannels : gmap string OutputChannel)
  : OutputChannel * gmap string OutputChannel :=
  let name :=
    if defined (outputChannels !! name) then name +:+ "-" +:+ uuid
    else name in
  let channel := {| channel_name := name |} in
  (channel, <[name := channel]> outputChannels).

(** *** Detaching and file types *)

Fixpoint unload_each (ids : list nat) : Async unit :=
  match ids with
  | [] => ret tt
  | n :: rest =>
      do onBufUnload n then
      unload_each rest
  end.

(** The keys of the registry as [buffers.keys()] yields them.  A [Map]
    yields its keys in insertion order, which the registry here does not
    record: [inserted] lists buffer numbers in the order they were
    inserted.  The walk yields the keys the map holds, each once: those
    [inserted] names first, in its order, then any other. *)
Definition walk (inserted : list nat) (m : gmap nat Document) : list nat :=
  let known := remove_dups (filter (λ k, is_Some (m !! k)) inserted) in
  known ++ filter (λ k, k ∉ known) (map_to_list m).*1.

(** [detach]: fire [BufUnload] for every key of the map.  Each unload
    deletes the key it visits only, so the walk over the live map sees the
    keys the map had at the start.  [clearHighlight] is a request to the
    editor that leaves the workspace as it is. *)
Definition detach (inserted : list nat) : Async unit :=
  let* ids := get (λ w, walk inserted (buffers w)) in
  unload_each ids.

(** [onFileTypeChange]: close, [doc.setFiletype(filetype)], open again.
    The language id that [setFiletype] changes belongs to the text document
    of the instance and is not a field of the [Document] record. *)
Definition onFileTypeChange (filetype : string) (n : nat) : Async unit :=
  let* doc := get (getDocument_bufnr n) in
  match doc with
  | None => ret tt
  | Some d =>
      do fire (DidCloseTextDocument d) then
      fire (DidOpenTextDocument d)
  end.

(** The handlers of the editor's events, with a configuration reload. *)
Inductive Happening :=
| Registry (op : Op)
| FileType (filetype : string) (n : nat)
| Detach (inserted : list nat)
| Reload.

Definition happen (h : Happening) : Async unit :=
  match h with
  | Registry op => perform op
  | FileType filetype n => onFileTypeChange filetype n
  | Detach inserted => detach inserted
  | Reload => onConfigurationChange
  end.

Definition unfold_history (hs : list Happening) (w : Workspace) : Workspace :=
  foldl (λ w h, (happen h w).2) w hs.

(** *** Proof vocabulary *)


(** A computation never answers false. *)
Definition never_false (m : Async bool) : Prop :=
  ∀ w, (m w).1 ≠ Returned false.

(** [guards R m]: running [m] moves the workspace along [R]. *)
Definition guards {A} (R : Workspace → Workspace → Prop) (m : Async A) : Prop :=
  ∀ w, R w (m w).2.

(** What [validteDocumentChanges] accepts, read on the workspace. *)
Definition path_exists (w : Workspace) (p : string) : bool :=
  bool_decide (is_Some (lookup_path (files w) p)).

Definition accepted_change (w : Workspace) (change : DocumentChange) : bool :=
  match change with
  | TextDocumentEdit uri (Some v) _ =>
      match getDocument uri w with
      | Some d => (doc_version d =? v)%Z
      | None => false
      end
  | TextDocumentEdit _ None _ => false
  | CreateFile uri options =>
      let opts := default no_create_options options in
      negb (String.eqb (scheme (Uri_parse uri)) "file")
      && (cf_ignoreIfExists opts || cf_overwrite opts
          || negb (path_exists w (fsPath (Uri_parse uri))))
  | RenameFile _ newUri options =>
      let opts := default no_rename_options options in
      rf_overwrite opts || rf_ignoreIfExists opts
      || negb (path_exists w (fsPath (Uri_parse newUri)))
  | DeleteFile uri options =>
      let opts := default no_delete_options options in
      path_exists w (fsPath (Uri_parse uri)) || df_ignoreIfNotExists opts
  | UnknownChange _ => false
  end.

(** What [validateChanges] accepts for one URI. *)
Definition accepted_uri (w : Workspace) (uri : string) : bool :=
  isSupportedScheme (scheme (Uri_parse uri))
  && (defined (getDocument uri w)
      || path_exists w (fsPath (Uri_parse uri))).


(** The last character of a string. *)
Fixpoint last_char (s : string) : option ascii :=
  match s with
  | "" => None
  | String c r =>
      match last_char r with
      | Some c' => Some c'
      | None => Some c
      end
  end.


(** What only ever grows over the life of a workspace: the working
    directory and the environment stay, the default layer stays, folder
    fragments and configuration paths are only added, instance serials only
    go up, and a root that is not empty is never replaced by an empty one. *)
Definition grows (w w' : Workspace) : Prop :=
  _cwd w' = _cwd w ∧
  _initialized w' = _initialized w ∧
  env_roots w' = env_roots w ∧
  defaults (_configurations w') = defaults (_configurations w) ∧
  (∃ more, foldConfigurations (_configurations w') =
           foldConfigurations (_configurations w) ++ more) ∧
  (∃ more, configFiles w' = configFiles w ++ more) ∧
  (serial w ≤ serial w')%nat ∧
  (truthy_string (_root w) = true → truthy_string (_root w') = true).

(** What the lifecycle handlers leave alone: the tree on disk, the
    messages echoed and the requests sent to the editor. *)
Definition calm (w w' : Workspace) : Prop :=
  files w' = files w ∧ messages w' = messages w ∧ editor w' = editor w.

(** The in-flight set is as it was. *)
Definition settled (w w' : Workspace) : Prop := creating w' = creating w.

(** The happenings that are not a rename. *)
Definition is_lifecycle (h : Happening) : bool :=
  match h with
  | Registry (Rename _ _ _ _) => false
  | _ => true
  end.


(** Whether a line still holds a line break. *)
Fixpoint has_newline (s : string) : bool :=
  match s with
  | "" => false
  | String c r => Ascii.eqb c newline || has_newline r
  end.


(** *** Creations that overlap

    [onBufCreate] is an async method: at each [await] it hands control
    back, and another handler may run before it goes on.  [attach] starts
    the creation of every buffer at once ([Promise.all] over
    [buffers.map], l.765), and [renameFile] (l.544) and the debounced
    [_checkBuffer] (l.1079) call [onBufCreate] while other creations may be
    under way.  A creation under way waits at one of the awaits of the
    method: for the reply of [bufloaded] (l.967), inside the [BufUnload]
    handler for [doc.detach()] (l.973 and l.1026), for [document.init]
    (l.977), for [findUp] (l.992) or for [statAsync] (l.995). *)
Inductive Pending :=
| AtBufloaded (nvim : Nvim) (id : nat)
| AtDetach (nvim : Nvim) (id : nat) (old : Document)
| AtInit (nvim : Nvim) (id : nat)
| AtFindUp (document : Document) (root : string)
| AtStat (document : Document) (root file : string).

(** [onBufCreate] up to its first [await]: the test on [creating]. *)
Definition onBufCreate_start (nvim : Nvim) (id : nat)
  : Async (option Pending) :=
  let* busy := get (λ w, bool_decide (id ∈ creating w)) in
  if busy then ret None else ret (Some (AtBufloaded nvim id)).

(** The end of the root block, from [this._root = root] on (l.1000-1002),
    and the open notification after it (l.1005). *)
Definition commit_root (document : Document) (root : string) : Async unit :=
  do update (set_root root) then
  do onConfigurationChange then
  let* stored := get _root in
  do fire (DidChangeWorkspaceFolder stored) then
  fire (DidOpenTextDocument document).

(** After the reply of [bufloaded] (l.968-973): the buffer becomes the
    current one and enters [creating]; a document that is registered for
    it is unloaded, and the [BufUnload] handler deletes it from the
    registry before it waits for [doc.detach()]. *)
Definition resume_bufloaded (nvim : Nvim) (id : nat) : Async (option Pending) :=
  if negb (bufloaded nvim id) then ret None else
  do update (set_bufnr (Some id)) then
  do update (λ w, set_creating ({[id]} ∪ creating w) w) then
  let* existing := get (getDocument_bufnr id) in
  match existing with
  | Some d =>
      do update (λ w, set_buffers (delete id (buffers w)) w) then
      ret (Some (AtDetach nvim id d))
  | None => ret (Some (AtInit nvim id))
  end.

(** After [doc.detach()] (l.1027): the close notification; then the new
    [Document] is made and [init] is awaited. *)
Definition resume_detach (nvim : Nvim) (id : nat) (old : Document)
  : Async (option Pending) :=
  do Document_detach old then
  do fire (DidCloseTextDocument old) then
  ret (Some (AtInit nvim id)).

(** The test of the root block (l.989-992). *)
Definition root_test (document : Document) : Async (option Pending) :=
  if String.eqb (doc_buftype document) "" && String.eqb (doc_schema document) "file"
  then
    let* root := get (resolveRoot (doc_uri document)) in
    let* current := get _root in
    match root with
    | Some root =>
        if truthy_string root && negb (String.eqb current root)
        then ret (Some (AtFindUp document root))
        else do fire (DidOpenTextDocument document) then ret None
    | None => do fire (DidOpenTextDocument document) then ret None
    end
  else do fire (DidOpenTextDocument document) then ret None.

(** After the reply of [document.init] (l.978-992): a refusal or a failure
    ends the creation; a document is registered, and the root block tests
    the root. *)
Definition resume_init (nvim : Nvim) (id : nat) : Async (option Pending) :=
  let* created :=
    try_catch
      (let* document := Document_init nvim id in
       match document with
       | Some d => ret (Some d)
       | None =>
           do update (λ w, set_creating (creating w ∖ {[id]}) w) then
           ret None
       end)
      (λ e,
         do update (λ w, set_creating (creating w ∖ {[id]}) w) then
         ret None) in
  match created with
  | None => ret None
  | Some document =>
      do update (λ w, set_buffers (<[id := document]> (buffers w)) w) then
      do update (λ w, set_creating (creating w ∖ {[id]}) w) then
      root_test document
  end.

(** After [findUp] (l.993-995). *)
Definition resume_findUp (document : Document) (root : string)
  : Async (option Pending) :=
  let* folder := get (λ w, findUp (files w) ".vim" root) in
  match folder with
  | Some folder =>
      if truthy_string folder && negb (String.eqb folder os_homedir)
      then ret (Some (AtStat document root (path_join folder CONFIG_FILE_NAME)))
      else do commit_root document root then ret None
  | None => do commit_root document root then ret None
  end.

(** After [statAsync] (l.996-1005). *)
Definition resume_stat (document : Document) (root file : string)
  : Async (option Pending) :=
  let* stat := statAsync file in
  do match stat with
     | Some s =>
         if isFile s then
           update (λ w, set_configurations
             (addFolderFile file (files w) (_configurations w)) w)
         else ret tt
     | None => ret tt
     end then
  do commit_root document root then
  ret None.

(** A creation from the await it waits at to the next one, or to its
    end ([None]). *)
Definition resume (p : Pending) : Async (option Pending) :=
  match p with
  | AtBufloaded nvim id => resume_bufloaded nvim id
  | AtDetach nvim id old => resume_detach nvim id old
  | AtInit nvim id => resume_init nvim id
  | AtFindUp document root => resume_findUp document root
  | AtStat document root file => resume_stat document root file
  end.

(** A creation that no other handler interrupts: each await is resumed
    as soon as it is reached.  A creation passes five awaits at most. *)
Fixpoint drive (awaits : nat) (p : option Pending) : Async unit :=
  match p, awaits with
  | Some q, S n =>
      let* next := resume q in
      drive n next
  | _, _ => ret tt
  end.

Definition onBufCreate_alone (nvim : Nvim) (id : nat) : Async unit :=
  let* p := onBufCreate_start nvim id in
  drive 5 p.

(** The creations under way, in the order they were started, and the
    turns the event loop gives them: a new creation runs to its first
    await, a creation whose reply has arrived runs to its next. *)
Inductive Turn :=
| Begin (nvim : Nvim) (id : nat)
| Continue (k : nat).

Definition turn (t : Turn) (pool : list (option Pending))
  : Async (list (option Pending)) :=
  match t with
  | Begin nvim id =>
      let* p := onBufCreate_start nvim id in
      ret (pool ++ [p])
  | Continue k =>
      match pool !! k with
      | Some (Some q) =>
          let* next := resume q in
          ret (<[k := next]> pool)
      | _ => ret pool
      end
  end.

Fixpoint schedule (turns : list Turn) (pool : list (option Pending))
  : Async (list (option Pending)) :=
  match turns with
  | [] => ret pool
  | t :: rest =>
      let* pool := turn t pool in
      schedule rest pool
  end.

(** [Promise.all(buffers.map(buf => this.onBufCreate(buf)))]: [map] starts
    the creations one after the other, each up to its first await; then
    the replies come in, here in the order the requests were made, so the
    creations take turns until all are through. *)
Definition all_at_once (nvim : Nvim) (ids : list nat) : Async unit :=
  let rounds :=
    concat (replicate 5 (Continue <$> seq 0 (length ids))) in
  do schedule ((Begin nvim <$> ids) ++ rounds) [] then
  ret tt.

End Methods.

(** ** Sample inputs

    A workspace started in [/tmp] over a small tree: a file [/tmp/a.txt], a
    file [/tmp/new.txt] and a directory [/tmp/dir] that holds one file. *)
Definition sample_tree : gmap string Node :=
  {[ "/tmp" := Dir;
     "/tmp/a.txt" := File "one";
     "/tmp/new.txt" := File "kept";
     "/tmp/dir" := Dir;
     "/tmp/dir/inner.txt" := File "inner" ]}.

Definition sample_workspace : Workspace :=
  @constructor sample_platform "/tmp" [] sample_tree.

(** The same workspace while a prompt is open ([showPrompt] and
    [showQuickpick] set [_blocking] around their request). *)
Definition prompting_workspace : Workspace :=
  set_blocking true sample_workspace.

(** An editor whose buffer [n] shows [/tmp/f<n>.txt], a plain file. *)
Definition sample_nvim : Nvim :=
  {| getcurpos := [0; 1; 1; 0]%Z;
     prompt_change := 1;
     current_bufnr := 1;
     bufloaded := λ _, true;
     buffer_init := λ n,
       InitCreated ("file:///tmp/f" +:+ pretty n +:+ ".txt") "" "file" "text" 1 |}.

(** An editor whose buffers show files of [/tmp/project]. *)
Definition project_nvim : Nvim :=
  {| getcurpos := [0; 1; 1; 0]%Z;
     prompt_change := 1;
     current_bufnr := 2;
     bufloaded := λ _, true;
     buffer_init := λ n,
       InitCreated ("file:///tmp/project/g" +:+ pretty n +:+ ".txt")
                   "" "file" "text" 1 |}.

(** An editor whose user declines the prompt for changed files. *)
Definition declining_nvim : Nvim :=
  {| getcurpos := [0; 1; 1; 0]%Z;
     prompt_change := 0;
     current_bufnr := 1;
     bufloaded := λ _, true;
     buffer_init := buffer_init sample_nvim |}.

(** An editor in which no document can be created. *)
Definition refusing_nvim : Nvim :=
  {| getcurpos := [0; 1; 1; 0]%Z;
     prompt_change := 1;
     current_bufnr := 1;
     bufloaded := λ _, true;
     buffer_init := λ _, InitRefused |}.

(** A workspace over one file of two lines. *)
Definition two_lines : string := "one" +:+ String newline "two".

Definition lines_workspace : Workspace :=
  @constructor sample_platform "/tmp" []
    {[ "/tmp" := Dir; "/tmp/n.txt" := File two_lines ]}.

(** The sample workspace with the document of buffer 1 open. *)
Definition open_workspace : Workspace :=
  @after sample_platform sample_workspace (BufCreate sample_nvim 1).

(** The sample platform with an editor that will not delete or rename a
    buffer. *)
Definition strict_platform : Platform := {|
  Uri_parse := @Uri_parse sample_platform;
  Uri_file := @Uri_file sample_platform;
  TextDocument_applyEdits := @TextDocument_applyEdits sample_platform;
  isSupportedScheme := @isSupportedScheme sample_platform;
  path_relative := @path_relative sample_platform;
  path_dirname := @path_dirname sample_platform;
  path_join := @path_join sample_platform;
  fnameescape := @fnameescape sample_platform;
  os_homedir := @os_homedir sample_platform;
  plugin_root := @plugin_root sample_platform;
  vim_config_home := @vim_config_home sample_platform;
  findUp := @findUp sample_platform;
  util_resolveRoot := @util_resolveRoot sample_platform;
  parseContentFromFile := @parseContentFromFile sample_platform;
  folderApplies := @folderApplies sample_platform;
  editor_refuses := λ c,
    match c with
    | Bdelete _ => Some (TypeError "E89: No write since last change")
    | SetName _ _ => Some (TypeError "E95: Buffer with this name already exists")
    | _ => None
    end
|}.

(** An editor whose buffers all show [/tmp/a.txt]. *)
Definition a_nvim : Nvim :=
  {| getcurpos := [0; 1; 1; 0]%Z;
     prompt_change := 1;
     current_bufnr := 1;
     bufloaded := λ _, true;
     buffer_init := λ _, InitCreated "file:///tmp/a.txt" "" "file" "one" 1 |}.

(** The sample tree under the strict editor, with [/tmp/a.txt] open in
    buffer 1. *)
Definition strict_workspace : Workspace :=
  @after strict_platform (@constructor strict_platform "/tmp" [] sample_tree)
    (BufCreate a_nvim 1).

(** Settings files of the samples: a user file that sets two preferences,
    the same file with one of them changed, and the first one again with
    its members written in another order. *)
Definition preferences (a b : Z) : JValue :=
  JObj [("coc", JObj [("preferences", JObj [("a", JNum a); ("b", JNum b)])])].

Definition preferences_swapped (a b : Z) : JValue :=
  JObj [("coc", JObj [("preferences", JObj [("b", JNum b); ("a", JNum a)])])].

(** The sample platform with a parser that knows these three files by
    their content, and a workspace folder [/tmp/.vim]. *)
Definition layered_platform : Platform := {|
  Uri_parse := @Uri_parse sample_platform;
  Uri_file := @Uri_file sample_platform;
  TextDocument_applyEdits := @TextDocument_applyEdits sample_platform;
  isSupportedScheme := @isSupportedScheme sample_platform;
  path_relative := @path_relative sample_platform;
  path_dirname := @path_dirname sample_platform;
  path_join := @path_join sample_platform;
  fnameescape := @fnameescape sample_platform;
  os_homedir := @os_homedir sample_platform;
  plugin_root := @plugin_root sample_platform;
  vim_config_home := @vim_config_home sample_platform;
  findUp := λ _ _ _, Some "/tmp/.vim";
  util_resolveRoot := @util_resolveRoot sample_platform;
  parseContentFromFile := λ fs p,
    match fs !! p with
    | Some (File "first") => preferences 1 5
    | Some (File "second") => preferences 2 5
    | Some (File "swapped") => preferences_swapped 1 5
    | Some (File "folder") => JObj [("coc", JObj [("preferences", JObj [("b", JNum 7)])])]
    | _ => JObj []
    end;
  folderApplies := @folderApplies sample_platform;
  editor_refuses := λ _, None
|}.

(** A workspace whose user settings are the first file and whose folder
    settings override preference [b], and the same workspace after the
    user file was rewritten on disk. *)
Definition layered_workspace : Workspace :=
  @constructor layered_platform "/tmp" []
    {[ "/home/user/.vim/coc-settings.json" := File "first";
       "/tmp/.vim/coc-settings.json" := File "folder" ]}.

Definition rewritten (content : string) : Workspace :=
  set_files (<["/home/user/.vim/coc-settings.json" := File content]>
               (files layered_workspace)) layered_workspace.

(** * Properties *)

Section Properties.
Context `{!Platform}.

(** ** Reading a resource *)

(** C10.  A URI that is not open as a document and whose scheme is not
    [file] reads as the empty string: [readFile] returns normally and the
    workspace, its log of [fs] calls included, is left as it was. *)
Theorem readFile_foreign_scheme (uri : string) (w : Workspace) :
  getDocument uri w = None →
  scheme (Uri_parse uri) ≠ "file" →
  readFile uri w = (Returned "", w).
Proof.
  intros Hclosed Hscheme.
  unfold readFile, bind, get. rewrite Hclosed.
  destruct (String.eqb_spec (scheme (Uri_parse uri)) "file") as [Heq | _].
  - contradiction.
  - reflexivity.
Qed.

(** ** Deleting *)

Lemma statAsync_effect (p : string) (w : Workspace) :
  statAsync p w =
  (Returned (lookup_path (files w) p), set_fs_trace (fs_trace w ++ [FsStat p]) w).
Proof. destruct w; reflexivity. Qed.

(** C4.  [deleteFile] on a path with no entry does not reach its own
    "not exists" message: [stat] is [null] and the read of
    [stat.isDirectory] throws, whatever the options.  Nothing is echoed;
    the workspace only records the [stat] call. *)
Theorem deleteFile_missing_throws (filepath : string)
    (opts : DeleteFileOptions) (w : Workspace) :
  lookup_path (files w) (strip_slash filepath) = None →
  deleteFile filepath opts w =
  (Thrown (TypeError "Cannot read property 'isDirectory' of null"),
   set_fs_trace (fs_trace w ++ [FsStat (strip_slash filepath)]) w).
Proof.
  intros Hmissing. unfold deleteFile, bind.
  rewrite statAsync_effect. rewrite Hmissing.
  reflexivity.
Qed.

(** C5, as the code has it.  [deleteFile] on an existing directory that
    holds entries, without [recursive], returns normally and changes
    nothing on disk: the tree is the same and the only [fs] call is the
    [stat].  The error is echoed unless a prompt is blocking, in which
    case nothing is echoed. *)
Theorem deleteFile_directory_kept (filepath : string)
    (opts : DeleteFileOptions) (w : Workspace) :
  lookup_path (files w) (strip_slash filepath) = Some Dir →
  has_entries (files w) filepath = true →
  df_recursive opts = false →
  let w' := (deleteFile filepath opts w).2 in
  (deleteFile filepath opts w).1 = Returned tt ∧
  files w' = files w ∧
  fs_trace w' = fs_trace w ++ [FsStat (strip_slash filepath)] ∧
  buffers w' = buffers w ∧
  messages w' =
    (if _blocking w then messages w
     else messages w ++ [(error, "Can't remove directory, recursive not set")]).
Proof.
  intros Hdir _ Hrec.
  assert (deleteFile filepath opts w =
          showMessage "Can't remove directory, recursive not set" error
            (set_fs_trace (fs_trace w ++ [FsStat (strip_slash filepath)]) w))
    as ->.
  { unfold deleteFile, bind. rewrite statAsync_effect.
    rewrite Hdir. simpl. rewrite Hrec. reflexivity. }
  destruct w as [? ? ? [] ? ? ? ? ? ? ? ? ? ? ? ?]; repeat split.
Qed.

(** ** Creating *)

(** C6, as the code has it.  [createFile] on a path that exists, with
    neither [overwrite] nor [ignoreIfExists], returns normally and writes
    nothing: the tree is the same and the only [fs] call is the [stat].
    The error is echoed unless a prompt is blocking. *)
Theorem createFile_existing_kept (filepath : string)
    (opts : CreateFileOptions) (content : string) (w : Workspace) :
  lookup_path (files w) filepath = Some (File content) →
  cf_overwrite opts = false →
  cf_ignoreIfExists opts = false →
  let w' := (createFile filepath opts w).2 in
  (createFile filepath opts w).1 = Returned tt ∧
  files w' = files w ∧
  fs_trace w' = fs_trace w ++ [FsStat filepath] ∧
  buffers w' = buffers w ∧
  messages w' =
    (if _blocking w then messages w
     else messages w ++ [(error, filepath +:+ " already exists!")]).
Proof.
  intros Hfile Hover Hignore.
  assert (createFile filepath opts w =
          showMessage (filepath +:+ " already exists!") error
            (set_fs_trace (fs_trace w ++ [FsStat filepath]) w)) as ->.
  { unfold createFile, bind.
    rewrite statAsync_effect, Hfile, Hover, Hignore. reflexivity. }
  destruct w as [? ? ? [] ? ? ? ? ? ? ? ? ? ? ? ?]; repeat split.
Qed.

(** ** Validation *)

(** C3.  A create-file entry whose URI has the [file] scheme is refused by
    validation, with the message that the scheme should be [file]: the test
    on the scheme is the wrong way round.  The entry alone is refused, and so
    is every list that starts with it, whether the path exists or not. *)
Theorem validate_createFile_file_scheme (uri : string)
    (options : option CreateFileOptions) (rest : list DocumentChange)
    (w : Workspace) :
  scheme (Uri_parse uri) = "file" →
  lookup_path (files w) (fsPath (Uri_parse uri)) = None →
  validate_change (CreateFile uri options) w =
    (Returned false,
     (showMessage ("scheme of " +:+ uri +:+ " should be file") error w).2) ∧
  validteDocumentChanges (ChangeList (CreateFile uri options :: rest)) w =
    (Returned false,
     (showMessage ("scheme of " +:+ uri +:+ " should be file") error w).2).
Proof.
  intros Hscheme _.
  assert (validate_change (CreateFile uri options) w =
    (Returned false,
     (showMessage ("scheme of " +:+ uri +:+ " should be file") error w).2))
    as Hentry.
  { unfold validate_change. rewrite Hscheme. simpl.
    unfold showMessage, bind, get, update, ret.
    destruct (_blocking w); reflexivity. }
  split; [exact Hentry |].
  unfold validteDocumentChanges, validate_change_list, bind.
  rewrite Hentry. reflexivity.
Qed.

Lemma validate_null_version_closed (uri : string) (version : option Z)
    (edits : list TextEdit) (w : Workspace) :
  getDocument uri w = None →
  truthy_version version = false →
  validate_change (TextDocumentEdit uri version edits) w =
  (Thrown (TypeError "Cannot read property 'version' of null"), w).
Proof.
  intros Hclosed Hfalsy. unfold validate_change, bind, get.
  rewrite Hclosed, Hfalsy. reflexivity.
Qed.

(** C2.  An edit with a [null] version to a [file] URI that exists on disk
    and is not open does not pass validation: the registry lookup gives
    [null], the test on a truthy version is skipped, and the read of
    [doc.version] throws.  The exception leaves [applyEdit]; nothing was
    read or written. *)
Theorem applyEdit_null_version_throws (nvim : Nvim) (uri content : string)
    (edits : list TextEdit) (rest : list DocumentChange)
    (flat : option (list (string * list TextEdit))) (w : Workspace) :
  getDocument uri w = None →
  scheme (Uri_parse uri) = "file" →
  startsWith uri "file" = true →
  lookup_path (files w) (fsPath (Uri_parse uri)) = Some (File content) →
  applyEdit nvim
    {| documentChanges := ChangeList (TextDocumentEdit uri None edits :: rest);
       changes := flat |} w =
  (Thrown (TypeError "Cannot read property 'version' of null"), w).
Proof.
  intros Hclosed _ _ _.
  unfold applyEdit. cbn [documentChanges validteDocumentChanges].
  cbn [validate_change_list]. unfold bind.
  rewrite validate_null_version_closed by done. reflexivity.
Qed.

(** *** Validation leaves the world alone *)

Lemma same_but_logs_refl (w : Workspace) : same_but_logs w w.
Proof. unfold same_but_logs. repeat split. Qed.

Lemma same_but_logs_trans (w1 w2 w3 : Workspace) :
  same_but_logs w1 w2 → same_but_logs w2 w3 → same_but_logs w1 w3.
Proof.
  unfold same_but_logs. intros H1 H2.
  destruct_and!. repeat split; congruence.
Qed.

Lemma quiet_ret {A} (a : A) : quiet (ret a).
Proof. intros w. split; [apply same_but_logs_refl | reflexivity]. Qed.

Lemma quiet_throw {A} (e : Exn) : quiet (@throw A e).
Proof. intros w. split; [apply same_but_logs_refl | reflexivity]. Qed.

Lemma quiet_get {A} (f : Workspace → A) : quiet (get f).
Proof. intros w. split; [apply same_but_logs_refl | reflexivity]. Qed.

Lemma quiet_bind {A B} (m : Async A) (k : A → Async B) :
  quiet m → (∀ a, quiet (k a)) → quiet (bind m k).
Proof.
  intros Hm Hk w. unfold bind.
  destruct (Hm w) as [Hs Ht]. destruct (m w) as [[a | e] w1]; simpl in *.
  - destruct (Hk a w1) as [Hs' Ht']. split.
    + eapply same_but_logs_trans; eassumption.
    + congruence.
  - split; assumption.
Qed.

Lemma quiet_showMessage (msg : string) (identify : MsgTypes) :
  quiet (showMessage msg identify).
Proof.
  intros w. unfold showMessage, bind, get, update, ret.
  destruct w as [? ? ? [] ? ? ? ? ? ? ? ? ? ? ? ?]; simpl;
    (split; [unfold same_but_logs; repeat split | reflexivity]).
Qed.

Lemma quiet_existsSync (p : string) : quiet (existsSync p).
Proof.
  intros w. unfold existsSync, fs_call, bind, get, update.
  destruct w; simpl. split; [unfold same_but_logs; repeat split |].
  rewrite List.filter_app. simpl. apply app_nil_r.
Qed.

Lemma quiet_if {A} (b : bool) (m1 m2 : Async A) :
  quiet m1 → quiet m2 → quiet (if b then m1 else m2).
Proof. destruct b; auto. Qed.

Create HintDb quiet.
#[local] Hint Resolve quiet_ret quiet_throw quiet_get quiet_showMessage
  quiet_existsSync : quiet.

Ltac quiet_step :=
  first
    [ solve [auto with quiet]
    | match goal with
      | |- quiet (match ?x with _ => _ end) => destruct x
      end
    | apply quiet_if
    | apply quiet_bind; [| intros ?] ].

Lemma quiet_validate_change (change : DocumentChange) :
  quiet (validate_change change).
Proof.
  destruct change; unfold validate_change; repeat quiet_step.
Qed.

Lemma quiet_validate_change_list (cs : list DocumentChange) :
  quiet (validate_change_list cs).
Proof.
  induction cs as [| change rest IH]; simpl; [auto with quiet |].
  apply quiet_bind; [apply quiet_validate_change | intros []];
    auto with quiet.
Qed.

Lemma quiet_validteDocumentChanges (dc : DocumentChanges) :
  quiet (validteDocumentChanges dc).
Proof.
  destruct dc; unfold validteDocumentChanges; repeat quiet_step.
  apply quiet_validate_change_list.
Qed.

Lemma quiet_validate_uris (uris : list string) : quiet (validate_uris uris).
Proof.
  induction uris as [| uri rest IH]; simpl; [auto with quiet |].
  repeat quiet_step; exact IH.
Qed.

Lemma quiet_validateChanges (flat : option (list (string * list TextEdit))) :
  quiet (validateChanges flat).
Proof.
  destruct flat; unfold validateChanges;
    [apply quiet_validate_uris | auto with quiet].
Qed.

(** C1.  When validation fails, that is when [validteDocumentChanges]
    returns false, or returns true and [validateChanges] then returns false,
    [applyEdit] returns false.  The workspace it leaves differs from the one
    it found only in the messages echoed and in the log of [fs] calls, to
    which no mutating call was added: documents, file tree, registry,
    notifications and editor requests are as before. *)
Theorem applyEdit_invalid_unchanged (nvim : Nvim) (edit : WorkspaceEdit)
    (w : Workspace) :
  (validteDocumentChanges (documentChanges edit) w).1 = Returned false ∨
  ((validteDocumentChanges (documentChanges edit) w).1 = Returned true ∧
   (validateChanges (changes edit)
      (validteDocumentChanges (documentChanges edit) w).2).1 = Returned false) →
  (applyEdit nvim edit w).1 = Returned false ∧
  same_but_logs w (applyEdit nvim edit w).2 ∧
  buffers (applyEdit nvim edit w).2 = buffers w ∧
  files (applyEdit nvim edit w).2 = files w ∧
  List.filter is_mutation (fs_trace (applyEdit nvim edit w).2) =
  List.filter is_mutation (fs_trace w).
Proof.
  intros Hfail.
  pose proof (quiet_validteDocumentChanges (documentChanges edit) w) as [Hs1 Ht1].
  unfold applyEdit, bind.
  destruct (validteDocumentChanges (documentChanges edit) w) as [r1 w1] eqn:E1.
  simpl in *.
  destruct Hfail as [-> | [-> Hfail]]; simpl.
  - repeat split; try assumption; apply Hs1.
  - pose proof (quiet_validateChanges (changes edit) w1) as [Hs2 Ht2].
    destruct (validateChanges (changes edit) w1) as [r2 w2] eqn:E2.
    simpl in *. subst r2. simpl.
    pose proof (same_but_logs_trans _ _ _ Hs1 Hs2) as Hs.
    repeat split; try congruence; apply Hs.
Qed.

(** ** Effects of the lifecycle handlers *)

Lemma onBufUnload_effect (id : nat) (w : Workspace) :
  onBufUnload id w =
  (Returned tt,
   match buffers w !! id with
   | Some d =>
       set_emitted (emitted w ++ [DidCloseTextDocument d])
         (set_buffers (delete id (buffers w)) w)
   | None => w
   end).
Proof.
  unfold onBufUnload, bind, get, getDocument_bufnr.
  destruct (buffers w !! id); reflexivity.
Qed.

Lemma loadConfigurations_effect (current : option Configurations)
    (w : Workspace) :
  ∃ config paths,
    loadConfigurations current w = (Returned config, set_configFiles paths w).
Proof.
  unfold loadConfigurations, bind, get, update, ret.
  destruct w; simpl. repeat case_match; simplify_eq; eexists _, _; reflexivity.
Qed.

Lemma onConfigurationChange_effect (w : Workspace) :
  ∃ store paths,
    onConfigurationChange w =
    (Returned tt,
     set_emitted (emitted w ++ [DidChangeConfiguration (_configurations w)])
       (set_configurations store (set_configFiles paths w))).
Proof.
  unfold onConfigurationChange, bind, get, fire, update.
  destruct (loadConfigurations_effect (Some (_configurations w)) w)
    as (config & paths & ->).
  eexists _, paths. destruct w; reflexivity.
Qed.

Lemma attach_folder_settings_effect (root : string) (w : Workspace) :
  ∃ store trace,
    attach_folder_settings root w =
    (Returned tt, set_configurations store (set_fs_trace trace w)).
Proof.
  unfold attach_folder_settings, statAsync, fs_call, bind, get, update, ret.
  unfold set_configurations, set_fs_trace.
  destruct w; simpl. repeat case_match; simplify_eq; eexists _, _; reflexivity.
Qed.

(** The root block either leaves the workspace as it is, or stores the
    resolved root, which differs from the current one, and fires the two
    events once each. *)
Lemma onBufCreate_root_effect (d : Document) (w : Workspace) :
  onBufCreate_root d w = (Returned tt, w) ∨
  ∃ root previous w1,
    resolveRoot (doc_uri d) w = Some root ∧ root ≠ _root w ∧
    buffers w1 = buffers w ∧ emitted w1 = emitted w ∧
    creating w1 = creating w ∧
    onBufCreate_root d w =
    (Returned tt,
     set_emitted (emitted w ++ [DidChangeConfiguration previous;
                                DidChangeWorkspaceFolder root])
       (set_root root w1)).
Proof.
  unfold onBufCreate_root.
  destruct (_ && _); [| by left].
  unfold bind, get. cbv beta iota.
  destruct (resolveRoot (doc_uri d) w) as [root |] eqn:Hroot; [| by left].
  destruct (truthy_string root); [| by left].
  destruct (String.eqb_spec (_root w) root) as [Heq | Hne]; [by left |].
  right. cbv beta iota delta [andb negb].
  destruct (attach_folder_settings_effect root w) as (store & trace & ->).
  unfold update. cbv beta iota.
  destruct (onConfigurationChange_effect
              (set_root root (set_configurations store (set_fs_trace trace w))))
    as (store' & paths & ->).
  unfold fire, update. cbv beta iota.
  eexists root, _, (set_configurations store' (set_configFiles paths
                     (set_configurations store (set_fs_trace trace w)))).
  repeat split; [congruence |].
  destruct w; simpl. rewrite <- app_assoc. reflexivity.
Qed.

Lemma Document_init_effect (nvim : Nvim) (id : nat) (w : Workspace) :
  Document_init nvim id w =
  (match buffer_init nvim id with
   | InitCreated uri buftype schema content version =>
       Returned (Some {| doc_serial := serial w; doc_bufnr := id;
                         doc_uri := uri; doc_version := version;
                         doc_content := content; doc_buftype := buftype;
                         doc_schema := schema |})
   | InitRefused => Returned None
   | InitThrows e => Thrown e
   end,
   set_serial (S (serial w)) w).
Proof.
  unfold Document_init, bind, get, update. cbv beta iota.
  destruct (buffer_init nvim id); reflexivity.
Qed.

(** The unload that [onBufCreate] fires when the buffer has a document. *)
Lemma unload_existing_effect (id : nat) (w : Workspace) :
  (if defined (buffers w !! id) then onBufUnload id else ret tt) w =
  (Returned tt,
   set_emitted (emitted w ++ closes w id)
     (set_buffers (delete id (buffers w)) w)).
Proof.
  unfold closes. destruct (buffers w !! id) as [old |] eqn:Hold; simpl.
  - rewrite onBufUnload_effect, Hold. reflexivity.
  - unfold ret. rewrite app_nil_r, delete_id by done.
    destruct w; reflexivity.
Qed.

(** [onBufCreate] returns, and moves the registry in one of the three
    ways.  When it registers a document and the root moves, the new root
    is the one resolved for that document. *)
Lemma onBufCreate_effect (nvim : Nvim) (id : nat) (w : Workspace) :
  let w' := (onBufCreate nvim id w).2 in
  (onBufCreate nvim id w).1 = Returned tt ∧
  registry_step w w' ∧
  (_root w' ≠ _root w →
   ∃ uri buftype schema content version,
     buffer_init nvim id = InitCreated uri buftype schema content version ∧
     resolveRoot uri w = Some (_root w')).
Proof.
  unfold onBufCreate, bind, get. cbv beta iota.
  destruct (bool_decide (id ∈ creating w)).
  { simpl. repeat split; [by apply step_idle | done]. }
  destruct (bufloaded nvim id); cbv beta iota delta [negb].
  2: { simpl. repeat split; [by apply step_idle | done]. }
  unfold update, try_catch, bind, getDocument_bufnr. cbv beta iota.
  set (w1 := set_creating _ _).
  rewrite (unload_existing_effect id w1).
  set (w2 := set_emitted _ _).
  rewrite (Document_init_effect nvim id w2).
  assert (buffers w2 = delete id (buffers w)) as Hb2 by (destruct w; reflexivity).
  assert (emitted w2 = emitted w ++ closes w id) as He2 by (destruct w; reflexivity).
  assert (_root w2 = _root w) as Hr2 by (destruct w; reflexivity).
  destruct (buffer_init nvim id) as [uri bt sch c v | | e] eqn:Hinit.
  - unfold ret. cbv beta iota.
    set (d := {| doc_serial := serial w2; doc_bufnr := id; doc_uri := uri;
                 doc_version := v; doc_content := c; doc_buftype := bt;
                 doc_schema := sch |}).
    set (w3 := set_creating _ _).
    assert (buffers w3 = <[id := d]> (delete id (buffers w))) as Hb3
      by (destruct w; reflexivity).
    assert (emitted w3 = emitted w ++ closes w id) as He3
      by (destruct w; reflexivity).
    assert (_root w3 = _root w) as Hr3 by (destruct w; reflexivity).
    assert (resolveRoot uri w3 = resolveRoot uri w) as Hres3
      by (destruct w; reflexivity).
    assert (closes w1 id = closes w id) as Hc1 by (destruct w; reflexivity).
    destruct (onBufCreate_root_effect d w3)
      as [-> | (root & previous & w4 & Hres & Hne & Hb & He & _ & ->)];
      unfold fire, update; simpl; rewrite ?Hc1.
    + repeat split; [| congruence].
      apply (step_created _ _ d []); simpl; rewrite ?Hc1.
      * exact Hb3.
      * by rewrite <- app_assoc.
      * left. split; [exact Hr3 | reflexivity].
    + repeat split.
      * apply (step_created _ _ d [DidChangeConfiguration previous;
                                   DidChangeWorkspaceFolder root]);
          simpl; rewrite ?Hc1.
        -- by rewrite Hb, Hb3.
        -- rewrite <- !app_assoc. reflexivity.
        -- right. simpl. split; [congruence | by exists previous].
      * intros _. exists uri, bt, sch, c, v. split; [reflexivity |].
        by rewrite <- Hres3.
  - simpl. repeat split; [| done].
    eapply step_unloaded; eassumption.
  - simpl. repeat split; [| done].
    eapply step_unloaded; eassumption.
Qed.

(** *** Every operation is a registry step *)

Lemma registry_step_from (w0 w w' : Workspace) :
  view w0 = view w → registry_step w0 w' → registry_step w w'.
Proof.
  unfold view. intros Hview Hstep.
  assert (buffers w0 = buffers w ∧ emitted w0 = emitted w ∧ _root w0 = _root w)
    as (Hb & He & Hr) by (by simplify_eq).
  assert (∀ id, closes w0 id = closes w id) as Hc
    by (intros id; unfold closes; by rewrite Hb).
  destruct Hstep as [? ? ? | id ? ? ? | d evs ? ? Hroot].
  - apply step_idle; congruence.
  - apply (step_unloaded _ _ id); rewrite <- ?Hc; congruence.
  - apply (step_created _ _ d evs); rewrite <- ?Hc; try congruence.
    unfold root_events in *. rewrite <- Hr. exact Hroot.
Qed.

Lemma registry_step_to (w w1 w2 : Workspace) :
  registry_step w w1 → view w2 = view w1 → registry_step w w2.
Proof.
  unfold view. intros Hstep Hview.
  assert (buffers w2 = buffers w1 ∧ emitted w2 = emitted w1 ∧ _root w2 = _root w1)
    as (Hb & He & Hr) by (by simplify_eq).
  destruct Hstep as [? ? ? | id ? ? ? | d evs ? ? Hroot].
  - apply step_idle; congruence.
  - apply (step_unloaded _ _ id); congruence.
  - apply (step_created _ _ d evs); try congruence.
    unfold root_events in *. rewrite Hr. exact Hroot.
Qed.

Lemma keeps_view_ret {A} (a : A) : keeps_view (ret a).
Proof. intros w. reflexivity. Qed.

Lemma keeps_view_throw {A} (e : Exn) : keeps_view (@throw A e).
Proof. intros w. reflexivity. Qed.

Lemma keeps_view_get {A} (f : Workspace → A) : keeps_view (get f).
Proof. intros w. reflexivity. Qed.

Lemma keeps_view_bind {A B} (m : Async A) (k : A → Async B) :
  keeps_view m → (∀ a, keeps_view (k a)) → keeps_view (bind m k).
Proof.
  intros Hm Hk w. unfold bind. specialize (Hm w).
  destruct (m w) as [[a | e] w1]; simpl in *; [| exact Hm].
  by rewrite Hk.
Qed.

Lemma keeps_view_showMessage (msg : string) (identify : MsgTypes) :
  keeps_view (showMessage msg identify).
Proof.
  intros w. unfold showMessage, bind, get, update, ret.
  destruct w as [? ? ? [] ? ? ? ? ? ? ? ? ? ? ? ?]; reflexivity.
Qed.

Lemma keeps_view_statAsync (p : string) : keeps_view (statAsync p).
Proof. intros w. destruct w; reflexivity. Qed.

Lemma keeps_view_editor_call (c : EditorCall) : keeps_view (editor_call c).
Proof.
  intros w. unfold editor_call.
  destruct (editor_refuses c); destruct w; reflexivity.
Qed.

Lemma keeps_view_renameAsync (a b : string) : keeps_view (renameAsync a b).
Proof.
  intros w. unfold renameAsync, fs_call, bind, get, update, throw.
  destruct w; simpl. by case_match.
Qed.

Lemma steps_keeps_view {A} (m : Async A) : keeps_view m → steps m.
Proof.
  intros Hm w. specialize (Hm w). unfold view in Hm.
  apply step_idle; by simplify_eq.
Qed.

Lemma steps_bind {A B} (m : Async A) (k : A → Async B) :
  keeps_view m → (∀ a, steps (k a)) → steps (bind m k).
Proof.
  intros Hm Hk w. unfold bind. specialize (Hm w).
  destruct (m w) as [[a | e] w1]; simpl in *.
  - eapply registry_step_from; [exact Hm | apply Hk].
  - unfold view in Hm. apply step_idle; by simplify_eq.
Qed.

Lemma steps_try_catch {A} (m : Async A) (h : Exn → Async A) :
  steps m → (∀ e, keeps_view (h e)) → steps (try_catch m h).
Proof.
  intros Hm Hh w. unfold try_catch. specialize (Hm w).
  destruct (m w) as [[a | e] w1]; simpl in *; [exact Hm |].
  eapply registry_step_to; [exact Hm | apply Hh].
Qed.

Lemma steps_onBufCreate (nvim : Nvim) (id : nat) : steps (onBufCreate nvim id).
Proof. intros w. apply onBufCreate_effect. Qed.

Lemma steps_onBufUnload (id : nat) : steps (onBufUnload id).
Proof.
  intros w. rewrite onBufUnload_effect. simpl.
  apply (step_unloaded _ _ id); unfold closes;
    destruct (buffers w !! id) eqn:Hid; simpl; try done.
  - by rewrite delete_id.
  - by rewrite app_nil_r.
Qed.

Lemma steps_checkBuffer (nvim : Nvim) : steps (_checkBuffer nvim).
Proof.
  unfold _checkBuffer. apply steps_bind; [by intros [] |]. intros _.
  apply steps_bind; [apply keeps_view_get |]. intros doc.
  destruct (defined doc);
    [apply steps_keeps_view, keeps_view_ret | apply steps_onBufCreate].
Qed.

Lemma steps_renameFile (nvim : Nvim) (oldPath newPath : string)
    (opts : RenameFileOptions) :
  steps (renameFile nvim oldPath newPath opts).
Proof.
  unfold renameFile.
  apply steps_bind; [apply keeps_view_statAsync |]. intros stat.
  destruct (_ && _ && _);
    [apply steps_keeps_view, keeps_view_showMessage |].
  destruct (_ || _); [| apply steps_keeps_view, keeps_view_ret].
  apply steps_try_catch; [| intros e; apply keeps_view_showMessage].
  apply steps_bind; [apply keeps_view_renameAsync |]. intros _.
  apply steps_bind; [apply keeps_view_get |]. intros [d |];
    [| apply steps_keeps_view, keeps_view_ret].
  apply steps_bind; [apply keeps_view_get |]. intros cwd.
  apply steps_bind; [apply keeps_view_editor_call |]. intros _.
  apply steps_onBufCreate.
Qed.

Lemma perform_steps (op : Op) (w : Workspace) : registry_step w (after w op).
Proof.
  unfold after. destruct op; simpl.
  - apply steps_onBufCreate.
  - apply steps_onBufUnload.
  - apply steps_checkBuffer.
  - apply steps_renameFile.
Qed.

(** ** The registry invariant *)

Lemma tracks_others (log evs : list Event) (m : gmap nat Document) :
  tracks log m →
  Forall (λ e, is_registry_event e = false) evs →
  tracks (log ++ evs) m.
Proof.
  intros Hlog Hevs. revert log Hlog.
  induction Hevs as [| e evs He _ IH]; intros log Hlog.
  - by rewrite app_nil_r.
  - rewrite cons_middle, (assoc_L (++)). apply IH. by apply tracks_other.
Qed.

Lemma root_events_others (w w' : Workspace) (evs : list Event) :
  root_events w w' evs → Forall (λ e, is_registry_event e = false) evs.
Proof.
  intros [[_ ->] | [_ [previous ->]]]; repeat constructor.
Qed.

Lemma tracks_unload (log : list Event) (w : Workspace) (id : nat) :
  tracks log (buffers w) →
  keyed (buffers w) →
  tracks (log ++ closes w id) (delete id (buffers w)).
Proof.
  intros Hlog Hkeyed. unfold closes.
  destruct (buffers w !! id) as [old |] eqn:Hold.
  - rewrite <- (Hkeyed id old Hold). apply tracks_close; [exact Hlog |].
    by rewrite (Hkeyed id old Hold).
  - by rewrite app_nil_r, delete_id.
Qed.

Lemma keyed_delete (m : gmap nat Document) (id : nat) :
  keyed m → keyed (delete id m).
Proof.
  intros Hm i d Hi. apply lookup_delete_Some in Hi as [_ Hi]. by apply Hm.
Qed.

Lemma keyed_insert (m : gmap nat Document) (d : Document) :
  keyed m → keyed (<[doc_bufnr d := d]> m).
Proof.
  intros Hm i d' Hi. apply lookup_insert_Some in Hi as [[<- <-] | [_ Hi]];
    [reflexivity | by apply Hm].
Qed.

Lemma registry_step_invariant (w w' : Workspace) :
  registry_step w w' →
  tracks (emitted w) (buffers w) ∧ keyed (buffers w) →
  tracks (emitted w') (buffers w') ∧ keyed (buffers w').
Proof.
  intros [Hb He _ | id Hb He _ | d evs Hb He Hroot] [Hlog Hkeyed].
  - by rewrite Hb, He.
  - rewrite Hb, He. split; [by apply tracks_unload | by apply keyed_delete].
  - rewrite Hb, He. split.
    + rewrite !(assoc_L (++)). apply tracks_open; [| apply lookup_delete_eq].
      apply tracks_others; [| by eapply root_events_others].
      by apply tracks_unload.
    + by apply keyed_insert, keyed_delete.
Qed.

Lemma run_invariant (ops : list Op) (w : Workspace) :
  tracks (emitted w) (buffers w) ∧ keyed (buffers w) →
  tracks (emitted (run ops w)) (buffers (run ops w)) ∧
  keyed (buffers (run ops w)).
Proof.
  revert w. induction ops as [| op rest IH]; intros w Hw; [exact Hw |].
  simpl. apply IH. eapply registry_step_invariant; [apply perform_steps | exact Hw].
Qed.

Lemma constructor_view (cwd : string) (roots : list string)
    (fs : gmap string Node) :
  view (constructor cwd roots fs) = (∅, [], cwd).
Proof.
  unfold constructor.
  destruct (loadConfigurations_effect None (blank cwd roots fs))
    as (config & paths & ->).
  reflexivity.
Qed.

(** ** Root changes and their events *)

Lemma count_events_app (p : Event → bool) (l1 l2 : list Event) :
  count_events p (l1 ++ l2) = count_events p l1 + count_events p l2.
Proof. unfold count_events. by rewrite List.filter_app, length_app. Qed.

Lemma count_events_closes (p : Event → bool) (w : Workspace) (id : nat) :
  (∀ d, p (DidCloseTextDocument d) = false) →
  count_events p (closes w id) = 0.
Proof.
  intros Hp. unfold closes, count_events.
  destruct (buffers w !! id); simpl; [by rewrite Hp | reflexivity].
Qed.

(** One step adds one event of each kind when the root changes and none
    when it does not. *)
Lemma registry_step_counts (w w' : Workspace) :
  registry_step w w' →
  let changed := if String.eqb (_root w') (_root w) then 0 else 1 in
  count_events is_config_event (emitted w') =
    count_events is_config_event (emitted w) + changed ∧
  count_events is_folder_event (emitted w') =
    count_events is_folder_event (emitted w) + changed.
Proof.
  intros [Hb He Hr | id Hb He Hr | d evs Hb He Hroot]; simpl.
  - rewrite He, Hr, String.eqb_refl. lia.
  - rewrite He, Hr, String.eqb_refl, !count_events_app,
      !count_events_closes by done. lia.
  - rewrite He, !count_events_app, !count_events_closes by done.
    destruct Hroot as [[Hr ->] | [Hr [previous ->]]].
    + rewrite Hr, String.eqb_refl. by cbn.
    + apply String.eqb_neq in Hr. rewrite Hr. by cbn.
Qed.

Lemma run_counts (ops : list Op) (w : Workspace) :
  count_events is_config_event (emitted (run ops w)) =
    count_events is_config_event (emitted w) + root_changes ops w ∧
  count_events is_folder_event (emitted (run ops w)) =
    count_events is_folder_event (emitted w) + root_changes ops w.
Proof.
  revert w. induction ops as [| op rest IH]; intros w; simpl; [lia |].
  destruct (IH (after w op)) as [-> ->].
  destruct (registry_step_counts w (after w op) (perform_steps op w))
    as [-> ->].
  lia.
Qed.

(** X30.  While no two handlers overlap, recomputing the root is
    idempotent.  When [onBufCreate], run from its call to its end, makes a
    document whose resolved root is the current root, the stored root stays
    and neither a configuration reload nor a folder-changed notification is
    fired.  Over any run of registry operations each of which ends before
    the next starts, the number of configuration events and the number of
    folder events each grow by exactly the number of operations at which
    the stored root changed. *)
Theorem root_recomputation_idempotent (nvim : Nvim) (id : nat)
    (ops : list Op) (w : Workspace) :
  (∀ uri buftype schema content version,
     buffer_init nvim id = InitCreated uri buftype schema content version →
     resolveRoot uri w = Some (_root w) →
     let w' := after w (BufCreate nvim id) in
     _root w' = _root w ∧
     count_events is_config_event (emitted w') =
       count_events is_config_event (emitted w) ∧
     count_events is_folder_event (emitted w') =
       count_events is_folder_event (emitted w)) ∧
  count_events is_config_event (emitted (run ops w)) =
    count_events is_config_event (emitted w) + root_changes ops w ∧
  count_events is_folder_event (emitted (run ops w)) =
    count_events is_folder_event (emitted w) + root_changes ops w.
Proof.
  split; [| apply run_counts].
  intros uri buftype schema content version Hinit Hsame w'.
  assert (_root w' = _root w) as Hroot.
  { destruct (decide (_root w' = _root w)) as [| Hne]; [done |].
    destruct (onBufCreate_effect nvim id w) as (_ & _ & Hmoved).
    destruct (Hmoved Hne) as (uri' & ? & ? & ? & ? & Hinit' & Hres).
    rewrite Hinit in Hinit'. injection Hinit' as <- _ _ _ _.
    rewrite Hsame in Hres. by injection Hres. }
  destruct (registry_step_counts w w' (perform_steps (BufCreate nvim id) w))
    as [Hc Hf].
  fold w' in Hc, Hf. rewrite Hroot, String.eqb_refl in Hc, Hf.
  split; [exact Hroot | lia].
Qed.

(** ** Configuration changes *)







(** *** The merged view, key by key *)

Lemma member_app (k : string) (l1 l2 : list (string * JValue)) :
  member k (l1 ++ l2) =
  match member k l1 with
  | Some v => Some v
  | None => member k l2
  end.
Proof.
  induction l1 as [| [k' v'] rest IH]; simpl; [done |].
  by destruct (String.eqb k k').
Qed.

Lemma member_lay_over (lay : JValue → JValue → JValue)
    (ts ss : list (string * JValue)) (k : string) :
  member k (lay_over lay ts ss) =
  match member k ss with
  | Some s => Some match member k ts with
                   | Some t => lay s t
                   | None => s
                   end
  | None => None
  end.
Proof.
  induction ss as [| [k' s'] rest IH]; simpl; [done |].
  destruct (String.eqb_spec k k') as [-> | _]; [done | exact IH].
Qed.

Lemma member_fresh (ss ts : list (string * JValue)) (k : string) :
  member k ss = None →
  member k (List.filter (λ kt, negb (has_member kt.1 ss)) ts) = member k ts.
Proof.
  intros Hfresh. induction ts as [| [k' t'] rest IH]; simpl; [done |].
  destruct (String.eqb_spec k k') as [-> | Hne].
  - unfold has_member. rewrite Hfresh. simpl. by rewrite String.eqb_refl.
  - destruct (negb (has_member k' ss)); simpl; [| exact IH].
    by rewrite (proj2 (String.eqb_neq k k') Hne).
Qed.

(** A key of two merged objects: the value of the upper object laid over
    the value of the lower one, or the one value there is. *)
Lemma member_merge (ss ts : list (string * JValue)) (k : string) :
  lookUp_keys (merge (JObj ss) (JObj ts)) [k] =
  match member k ss, member k ts with
  | Some s, Some t => Some (merge s t)
  | Some s, None => Some s
  | None, found => found
  end.
Proof.
  simpl. rewrite member_app, member_lay_over.
  destruct (member k ss) as [s |] eqn:Hs.
  - by destruct (member k ts).
  - rewrite member_fresh by done. by destruct (member k ts).
Qed.

Lemma lookUp_keys_cons (v : JValue) (k : string) (rest : list string) :
  lookUp_keys v (k :: rest) =
  match lookUp_keys v [k] with
  | Some found => lookUp_keys found rest
  | None => None
  end.
Proof.
  destruct v as [| | | | | ms]; try done. simpl. by destruct (member k ms).
Qed.

(** A leaf of the upper layer wins, whatever lies below it. *)
Lemma lookUp_keys_merge_leaf (source target : JValue) (keys : list string)
    (v : JValue) :
  lookUp_keys target keys = Some v →
  (∀ members, v ≠ JObj members) →
  lookUp_keys (merge source target) keys = Some v.
Proof.
  revert source target. induction keys as [| k rest IH];
    intros source target Hfound Hleaf.
  - injection Hfound as ->.
    destruct source as [| | | | |ss], v as [| | | | |ts]; try done.
    by destruct (Hleaf ts).
  - destruct target as [| | | | | ts]; try done.
    simpl in Hfound. destruct (member k ts) as [t |] eqn:Ht; [| done].
    destruct source as [| | | | | ss];
      try (simpl; by rewrite Ht).
    rewrite (lookUp_keys_cons (merge (JObj ss) (JObj ts))), member_merge, Ht.
    destruct (member k ss) as [s |]; [by apply IH | exact Hfound].
Qed.

(** Where the upper layer is an object without the first key of a path,
    the lower layer shows through. *)
Lemma lookUp_keys_merge_silent (source : JValue)
    (ts : list (string * JValue)) (k : string) (rest : list string) :
  member k ts = None →
  lookUp_keys (merge source (JObj ts)) (k :: rest) =
  lookUp_keys source (k :: rest).
Proof.
  intros Hsilent.
  destruct source as [| | | | | ss]; try (simpl; by rewrite Hsilent).
  rewrite (lookUp_keys_cons (merge (JObj ss) (JObj ts))), member_merge,
    Hsilent.
  simpl. by destruct (member k ss).
Qed.

(** The effective value of a key that the most specific layer sets to a
    leaf is that leaf. *)
Lemma getConfiguration_top_leaf (c : Configurations) (section : string)
    (resource : option string) (top : JValue) (below : list JValue)
    (v : JValue) :
  layer_stack c resource = top :: below →
  lookUp top (Some section) = Some v →
  (∀ members, v ≠ JObj members) →
  getConfiguration c (Some section) resource = Some v.
Proof.
  intros Hstack Hfound Hleaf. unfold getConfiguration, merged.
  rewrite Hstack. simpl. by apply lookUp_keys_merge_leaf.
Qed.




(** * Further properties *)

(** ** What validation accepts *)

Lemma showMessage_returns (msg : string) (identify : MsgTypes) (w : Workspace) :
  (showMessage msg identify w).1 = Returned tt.
Proof.
  unfold showMessage, bind, get, update, ret. by destruct (_blocking w).
Qed.

Lemma existsSync_result (p : string) (w : Workspace) :
  (existsSync p w).1 = Returned (path_exists w p).
Proof. destruct w; reflexivity. Qed.

Lemma bind_result {A B} (m : Async A) (k : A → Async B) (w : Workspace) (a : A) :
  (m w).1 = Returned a → (bind m k w).1 = (k a (m w).2).1.
Proof. unfold bind. destruct (m w) as [[] ?]; simpl; congruence. Qed.

Lemma bind_state {A B} (m : Async A) (k : A → Async B) (w : Workspace) (a : A) :
  (m w).1 = Returned a → (bind m k w).2 = (k a (m w).2).2.
Proof. unfold bind. destruct (m w) as [[] ?]; simpl; congruence. Qed.

Lemma bind_ret {A B} (a : A) (k : A → Async B) (w : Workspace) :
  bind (ret a) k w = k a w.
Proof. reflexivity. Qed.

Lemma reject_result (msg : string) (identify : MsgTypes) (w : Workspace) :
  (bind (showMessage msg identify) (λ _, ret false) w).1 = Returned false.
Proof. by rewrite (bind_result _ _ _ tt) by apply showMessage_returns. Qed.

Lemma same_but_logs_getDocument (w w' : Workspace) (uri : string) :
  same_but_logs w w' → getDocument uri w' = getDocument uri w.
Proof.
  intros Hsame. unfold getDocument.
  replace (buffers w') with (buffers w); [reflexivity |].
  symmetry. apply Hsame.
Qed.

Lemma same_but_logs_path_exists (w w' : Workspace) (p : string) :
  same_but_logs w w' → path_exists w' p = path_exists w p.
Proof.
  intros Hsame. unfold path_exists.
  replace (files w') with (files w); [reflexivity |].
  symmetry. apply Hsame.
Qed.

Lemma same_but_logs_accepted_change (w w' : Workspace) (c : DocumentChange) :
  same_but_logs w w' → accepted_change w' c = accepted_change w c.
Proof.
  intros Hsame. destruct c as [uri [v |] ? | | | |]; simpl;
    rewrite ?(same_but_logs_getDocument w w'),
            ?(same_but_logs_path_exists w w') by done; reflexivity.
Qed.

(** One entry passes exactly when it is acceptable. *)
Lemma validate_change_accepts (c : DocumentChange) (w : Workspace) :
  (validate_change c w).1 = Returned true ↔ accepted_change w c = true.
Proof.
  destruct c as [uri version edits | uri options | old newUri options
                | uri options | json]; simpl.
  - rewrite (bind_result _ _ _ (getDocument uri w)) by reflexivity. simpl.
    destruct (getDocument uri w) as [d |], version as [v |]; simpl.
    + rewrite andb_false_r, bind_ret. simpl.
      destruct (doc_version d =? v)%Z; simpl; rewrite ?reject_result; done.
    + rewrite bind_ret. simpl. rewrite reject_result. done.
    + destruct (v =? 0)%Z; simpl; rewrite ?reject_result; done.
    + done.
  - destruct (String.eqb (scheme (Uri_parse uri)) "file"); simpl.
    + rewrite reject_result. done.
    + rewrite (bind_result _ _ _ _ (existsSync_result _ w)).
      destruct (cf_ignoreIfExists _), (cf_overwrite _), (path_exists w _);
        simpl; rewrite ?reject_result; done.
  - rewrite (bind_result _ _ _ _ (existsSync_result _ w)).
    destruct (rf_overwrite _), (rf_ignoreIfExists _), (path_exists w _);
      simpl; rewrite ?reject_result; done.
  - rewrite (bind_result _ _ _ _ (existsSync_result _ w)).
    destruct (path_exists w _), (df_ignoreIfNotExists _);
      simpl; rewrite ?reject_result; done.
  - rewrite reject_result. done.
Qed.


Lemma forallb_same {A} (f g : A → bool) (l : list A) :
  (∀ x, f x = g x) → forallb f l = forallb g l.
Proof. intros Hfg. induction l as [| x l IH]; simpl; [done |]. by rewrite Hfg, IH. Qed.

Lemma validate_change_list_accepts (cs : list DocumentChange)
    (w : Workspace) :
  (validate_change_list cs w).1 = Returned true
  ↔ forallb (accepted_change w) cs = true.
Proof.
  revert w.
  induction cs as [| c rest IH]; intros w; simpl; [done |].
  pose proof (validate_change_accepts c w) as Hc.
  pose proof (quiet_validate_change c w) as [Hsame _].
  unfold bind. destruct (validate_change c w) as [[[] | e] w1]; simpl in *.
  - rewrite IH, (proj1 Hc) by done. simpl.
    rewrite (forallb_same (accepted_change w1) (accepted_change w)); [done |].
    intros c'. by apply same_but_logs_accepted_change.
  - destruct (accepted_change w c); simpl; [| done].
    discriminate (proj2 Hc eq_refl).
  - destruct (accepted_change w c); simpl; [| done].
    discriminate (proj2 Hc eq_refl).
Qed.

(** X1.  [validteDocumentChanges] answers true for a list exactly when
    every entry is acceptable on the workspace as it was found: validation
    neither throws nor is it misled by what earlier entries did, since it
    changes nothing the checks read. *)
Theorem validteDocumentChanges_accepts (cs : list DocumentChange)
    (w : Workspace) :
  (validteDocumentChanges (ChangeList cs) w).1 = Returned true
  ↔ forallb (accepted_change w) cs = true.
Proof. apply validate_change_list_accepts. Qed.

Lemma validate_uris_result (uris : list string) (w : Workspace) :
  (validate_uris uris w).1 = Returned (forallb (accepted_uri w) uris).
Proof.
  revert w. induction uris as [| uri rest IH]; intros w; simpl; [done |].
  unfold accepted_uri at 1.
  destruct (isSupportedScheme (scheme (Uri_parse uri))); simpl;
    [| by rewrite reject_result].
  rewrite (bind_result _ _ _ (getDocument uri w)) by reflexivity. simpl.
  destruct (getDocument uri w) as [d |]; simpl.
  - rewrite bind_ret. apply IH.
  - set (p := fsPath (Uri_parse uri)).
    assert ((bind (existsSync p) (λ exists_, ret (negb exists_)) w).1
            = Returned (negb (path_exists w p))) as Hres
      by (by rewrite (bind_result _ _ _ _ (existsSync_result p w))).
    assert ((bind (existsSync p) (λ exists_, ret (negb exists_)) w).2
            = (existsSync p w).2) as Hstate
      by (by rewrite (bind_state _ _ _ _ (existsSync_result p w))).
    rewrite (bind_result _ _ _ _ Hres), Hstate.
    destruct (path_exists w p); simpl.
    + rewrite IH. reflexivity.
    + by rewrite reject_result.
Qed.

(** X2.  [validateChanges] never throws, and answers true exactly when
    every URI of the [changes] object has a supported scheme and is open as
    a document or names an entry on disk. *)
Theorem validateChanges_accepts
    (flat : option (list (string * list TextEdit))) (w : Workspace) :
  (validateChanges flat w).1 =
  Returned (forallb (accepted_uri w) (fst <$> default [] flat)).
Proof.
  destruct flat as [entries |]; simpl; [apply validate_uris_result | done].
Qed.


(** ** A false answer of [applyEdit] *)

Lemma never_false_ret_true : never_false (ret true).
Proof. intros w. discriminate. Qed.

Lemma never_false_bind {A} (m : Async A) (k : A → Async bool) :
  (∀ a, never_false (k a)) → never_false (bind m k).
Proof.
  intros Hk w. unfold bind. destruct (m w) as [[a | e] w1]; simpl.
  - apply Hk.
  - discriminate.
Qed.

(** X3.  Whenever [applyEdit] answers false, whether validation failed or
    the user declined the prompt for the files that are not open, nothing
    was changed: the workspace differs only in the messages echoed and in
    the log of [fs] calls, to which no mutating call was added.  Once the
    first change is made the answer can only be true or an exception. *)
Theorem applyEdit_false_unchanged (nvim : Nvim) (edit : WorkspaceEdit)
    (w : Workspace) :
  (applyEdit nvim edit w).1 = Returned false →
  same_but_logs w (applyEdit nvim edit w).2 ∧
  List.filter is_mutation (fs_trace (applyEdit nvim edit w).2) =
  List.filter is_mutation (fs_trace w).
Proof.
  destruct (applyEdit nvim edit w) as [r w'] eqn:E. simpl. intros ->.
  revert E. unfold applyEdit.
  pose proof (quiet_validteDocumentChanges (documentChanges edit) w) as [Hs1 Ht1].
  unfold bind at 1.
  destruct (validteDocumentChanges (documentChanges edit) w) as [[[] | e] w1];
    simpl in Hs1, Ht1; cbv beta iota delta [negb]; [| | discriminate].
  2: { intros [= <-]. by split. }
  pose proof (quiet_validateChanges (changes edit) w1) as [Hs2 Ht2].
  unfold bind at 1.
  destruct (validateChanges (changes edit) w1) as [[[] | e] w2];
    simpl in Hs2, Ht2; cbv beta iota delta [negb]; [| | discriminate].
  2: { intros [= <-]. split; [by eapply same_but_logs_trans | congruence]. }
  unfold bind at 1, get. cbv beta iota.
  destruct (_ && _).
  { intros [= <-]. split; [by eapply same_but_logs_trans | congruence]. }
  intros Hfalse. apply (f_equal fst) in Hfalse. exfalso. revert Hfalse.
  apply never_false_bind. intros _.
  repeat (apply never_false_bind; intros ?). apply never_false_ret_true.
Qed.


(** ** Paths and trailing slashes *)

Lemma prefix_slash_rev_app (r acc : string) :
  String.prefix "/" (String.rev_app r acc) =
  match last_char r with
  | Some c => Ascii.eqb c "/"%char
  | None => String.prefix "/" acc
  end.
Proof.
  revert acc. induction r as [| a r IH]; intros acc; [reflexivity |].
  cbn [String.rev_app last_char]. rewrite IH.
  destruct (last_char r); [reflexivity |].
  change (String.prefix "/" (String a acc))
    with (if ascii_dec "/"%char a then String.prefix "" acc else false).
  destruct (ascii_dec "/" a) as [<- | Hne].
  - rewrite Ascii.eqb_refl. by destruct acc.
  - symmetry. apply Ascii.eqb_neq. congruence.
Qed.

Lemma endsWith_slash (s : string) :
  endsWith s "/" =
  match last_char s with
  | Some c => Ascii.eqb c "/"%char
  | None => false
  end.
Proof.
  unfold endsWith, String.rev. rewrite prefix_slash_rev_app.
  by destruct (last_char s).
Qed.

Lemma last_char_None (s : string) : last_char s = None → s = "".
Proof. destruct s as [| c r]; simpl; [done |]. by destruct (last_char r). Qed.

(** A path is left alone by [strip_slash] exactly when it does not end in
    a slash. *)
Lemma strip_slash_id (s : string) :
  strip_slash s = s ↔ endsWith s "/" = false.
Proof.
  rewrite endsWith_slash.
  induction s as [| c r IH]; [done |].
  destruct r as [| c' r'].
  - simpl. destruct (Ascii.eqb c "/"); split; congruence.
  - change (strip_slash (String c (String c' r')))
      with (String c (strip_slash (String c' r'))).
    cbn [last_char] in *.
    destruct (last_char r') as [l |]; rewrite <- IH;
      (split; [intros [= Heq]; exact Heq | intros Heq; f_equal; exact Heq]).
Qed.

Lemma lookup_path_plain (fs : gmap string Node) (p : string) :
  endsWith p "/" = false → lookup_path fs p = fs !! p.
Proof.
  intros Hp. unfold lookup_path. rewrite Hp, (proj2 (strip_slash_id p) Hp).
  by destruct (fs !! p) as [[] |].
Qed.


(** ** File operations *)







(** X5.  [renameFile] never replaces an existing target unless [overwrite]
    is set: with or without [ignoreIfExists], [fs.rename] is not called, the
    tree and the registry stay as they are, and the source is still there. *)
Theorem renameFile_keeps_existing_target (nvim : Nvim)
    (oldPath newPath : string) (opts : RenameFileOptions) (node : Node)
    (w : Workspace) :
  lookup_path (files w) newPath = Some node →
  rf_overwrite opts = false →
  let w' := (renameFile nvim oldPath newPath opts w).2 in
  files w' = files w ∧
  fs_trace w' = fs_trace w ++ [FsStat newPath] ∧
  buffers w' = buffers w ∧
  messages w' =
    (if rf_ignoreIfExists opts || _blocking w then messages w
     else messages w ++ [(error, newPath +:+ " already exists")]).
Proof.
  intros Hnode Hover. unfold renameFile, bind.
  rewrite statAsync_effect, Hnode, Hover. simpl.
  destruct (rf_ignoreIfExists opts); simpl; [by destruct w |].
  unfold showMessage, bind, get, update, ret.
  destruct w as [? ? ? [] ? ? ? ? ? ? ? ? ? ? ? ?]; repeat split.
Qed.

(** X6.  [createFile] on a path without trailing slash that is not open as
    a document and whose directory exists writes an empty file there
    whenever the path is missing or [overwrite] is set (an existing file
    loses its content), and leaves every other entry alone.  It then asks
    the editor to add the file to the argument list; that request is not
    inside a [try], so when the editor rejects it the call throws, with the
    file already written. *)
Theorem createFile_writes_empty (filepath : string) (opts : CreateFileOptions)
    (w : Workspace) :
  endsWith filepath "/" = false →
  getDocument (Uri_file filepath) w = None →
  files w !! filepath ≠ Some Dir →
  files w !! filepath = None ∨ cf_overwrite opts = true →
  parent_node (files w) filepath = Some Dir →
  let bufname :=
    if startsWith filepath (_cwd w) then path_relative (_cwd w) filepath
    else filepath in
  let w' := (createFile filepath opts w).2 in
  files w' = <[filepath := File ""]> (files w) ∧
  messages w' = messages w ∧
  buffers w' = buffers w ∧
  match editor_refuses (Argadd [bufname]) with
  | None =>
      (createFile filepath opts w).1 = Returned tt ∧
      editor w' = editor w ++ [Argadd [bufname]]
  | Some e =>
      (createFile filepath opts w).1 = Thrown e ∧ editor w' = editor w
  end.
Proof.
  intros Hplain Hclosed Hnodir Hfree Hparent.
  assert (strip_slash filepath = filepath) as Hstrip by by apply strip_slash_id.
  assert (defined (lookup_path (files w) filepath) && negb (cf_overwrite opts)
          = false) as Hfirst.
  { rewrite lookup_path_plain by done.
    destruct Hfree as [-> | ->]; [done | apply andb_false_r]. }
  assert (negb (defined (lookup_path (files w) filepath)) || cf_overwrite opts
          = true) as Hsecond.
  { rewrite lookup_path_plain by done.
    destruct Hfree as [-> | ->]; [done | apply orb_true_r]. }
  unfold createFile, bind.
  rewrite statAsync_effect, Hfirst, Hsecond, Hplain. simpl.
  unfold get. simpl.
  replace (getDocument (Uri_file filepath) (set_fs_trace _ w))
    with (getDocument (Uri_file filepath) w) by (by destruct w).
  rewrite Hclosed. unfold writeFile, editor_call, fs_call, bind, update, get.
  simpl. rewrite Hstrip, Hplain.
  replace (files (set_fs_trace (fs_trace w ++ [FsStat filepath]) w))
    with (files w) by (by destruct w).
  replace (_cwd (set_fs_trace (fs_trace w ++ [FsStat filepath]) w))
    with (_cwd w) by (by destruct w).
  destruct (files w !! filepath) as [[] |] eqn:Hnode; try done;
    simpl; rewrite Hparent; simpl;
    destruct (editor_refuses _); destruct w; repeat split.
Qed.

(** X29.  [createFile] on a missing path whose directory is missing too
    does not report an error: [fs.writeFileSync] throws, the call is in no
    [try], and the exception leaves [createFile].  Nothing is written,
    echoed or asked of the editor. *)
Theorem createFile_missing_parent_throws (filepath : string)
    (opts : CreateFileOptions) (w : Workspace) :
  endsWith filepath "/" = false →
  getDocument (Uri_file filepath) w = None →
  files w !! filepath = None →
  parent_node (files w) filepath = None →
  createFile filepath opts w =
  (Thrown (SystemError "ENOENT" filepath),
   set_fs_trace (fs_trace w ++ [FsStat filepath; FsWrite filepath ""]) w).
Proof.
  intros Hplain Hclosed Hfree Hparent.
  assert (strip_slash filepath = filepath) as Hstrip by by apply strip_slash_id.
  unfold createFile, bind.
  rewrite statAsync_effect, lookup_path_plain, Hfree, Hplain by done. simpl.
  unfold get. simpl.
  replace (getDocument (Uri_file filepath) (set_fs_trace _ w))
    with (getDocument (Uri_file filepath) w) by (by destruct w).
  rewrite Hclosed. unfold writeFile, fs_call, bind, update, get, throw.
  simpl. rewrite Hstrip, Hplain.
  replace (files (set_fs_trace (fs_trace w ++ [FsStat filepath]) w))
    with (files w) by (by destruct w).
  rewrite Hfree. simpl. rewrite Hparent.
  destruct w; simpl. by rewrite <- app_assoc.
Qed.

(** X7.  [createFile] leaves the tree as it is when the path exists and
    [overwrite] is not set, and also when the path, without trailing slash,
    is open as a document, even if [overwrite] is set: no mutating [fs]
    call is made. *)
Theorem createFile_keeps_tree (filepath : string) (opts : CreateFileOptions)
    (w : Workspace) :
  (is_Some (lookup_path (files w) filepath) ∧ cf_overwrite opts = false) ∨
  (endsWith filepath "/" = false ∧
   is_Some (getDocument (Uri_file filepath) w)) →
  let w' := (createFile filepath opts w).2 in
  (createFile filepath opts w).1 = Returned tt ∧
  files w' = files w ∧
  fs_trace w' = fs_trace w ++ [FsStat filepath] ∧
  buffers w' = buffers w.
Proof.
  intros Hcase. unfold createFile, bind. rewrite statAsync_effect.
  destruct Hcase as [[[node Hnode] Hover] | [Hplain [d Hopen]]].
  - rewrite Hnode, Hover. simpl.
    destruct (cf_ignoreIfExists opts); simpl; [by destruct w |].
    unfold showMessage, bind, get, update, ret.
    destruct w as [? ? ? [] ? ? ? ? ? ? ? ? ? ? ? ?]; repeat split.
  - destruct (_ && _ && _).
    { unfold showMessage, bind, get, update, ret.
      destruct w as [? ? ? [] ? ? ? ? ? ? ? ? ? ? ? ?]; repeat split. }
    destruct (_ || _); [| by destruct w].
    rewrite Hplain. unfold get. simpl.
    replace (getDocument (Uri_file filepath) (set_fs_trace _ w))
      with (getDocument (Uri_file filepath) w) by (by destruct w).
    rewrite Hopen. by destruct w.
Qed.


(** X8.  [deleteFile] on an existing file (a path without trailing slash)
    returns normally and removes that entry only; the registry keeps the
    document until the editor reports the unload.  If the file is open the
    editor is asked to delete the buffer, inside the [try]: when the editor
    rejects the request the file is gone all the same and the rejection is
    echoed as an error on delete, unless a prompt is blocking. *)
Theorem deleteFile_removes_file (filepath content : string)
    (opts : DeleteFileOptions) (w : Workspace) :
  endsWith filepath "/" = false →
  files w !! filepath = Some (File content) →
  let w' := (deleteFile filepath opts w).2 in
  (deleteFile filepath opts w).1 = Returned tt ∧
  files w' = delete filepath (files w) ∧
  buffers w' = buffers w ∧
  match getDocument (Uri_file filepath) w with
  | None => editor w' = editor w ∧ messages w' = messages w
  | Some d =>
      match editor_refuses (Bdelete (doc_bufnr d)) with
      | None =>
          editor w' = editor w ++ [Bdelete (doc_bufnr d)] ∧
          messages w' = messages w
      | Some e =>
          editor w' = editor w ∧
          messages w' =
            (if _blocking w then messages w
             else messages w ++
                  [(error, "Error on delete " +:+ filepath +:+ ": "
                           +:+ exn_message e)])
      end
  end.
Proof.
  intros Hplain Hfile.
  assert (strip_slash filepath = filepath) as Hstrip by by apply strip_slash_id.
  unfold deleteFile, bind.
  rewrite statAsync_effect, Hstrip, lookup_path_plain, Hfile, Hplain by done.
  simpl. unfold try_catch, unlink, editor_call, fs_call, bind, get, update.
  simpl. rewrite lookup_path_plain, Hfile by done. simpl.
  match goal with
  | |- context [getDocument ?u ?w0] =>
      replace (getDocument u w0) with (getDocument (Uri_file filepath) w)
        by (by destruct w)
  end.
  destruct (getDocument (Uri_file filepath) w) as [d |]; simpl;
    [destruct (editor_refuses (Bdelete (doc_bufnr d))) as [e |]; simpl |];
    unfold showMessage, throw, bind, get, update, ret;
    destruct w as [? ? ? [] ? ? ? ? ? ? ? ? ? ? ? ?]; simpl; repeat split.
Qed.

(** X9.  The [recursive] option of [deleteFile] only lifts the refusal to
    touch a directory: the directory is removed with [fs.rmdir], which takes
    an empty directory only.  On a directory that holds entries the failure
    is caught and echoed and the tree stays as it is. *)
Theorem deleteFile_recursive_is_rmdir (filepath : string)
    (opts : DeleteFileOptions) (w : Workspace) :
  strip_slash (strip_slash filepath) = strip_slash filepath →
  files w !! strip_slash filepath = Some Dir →
  df_recursive opts = true →
  let w' := (deleteFile filepath opts w).2 in
  (deleteFile filepath opts w).1 = Returned tt ∧
  files w' =
    (if has_entries (files w) filepath then files w
     else delete (strip_slash filepath) (files w)) ∧
  buffers w' = buffers w ∧
  messages w' =
    (if has_entries (files w) filepath && negb (_blocking w) then
       messages w ++
       [(error, "Error on delete " +:+ filepath +:+ ": ENOTEMPTY: " +:+ filepath)]
     else messages w).
Proof.
  intros Hslash Hdir Hrec.
  assert (lookup_path (files w) (strip_slash filepath) = Some Dir) as Hstat
    by (unfold lookup_path; by rewrite Hslash, Hdir).
  set (w1 := set_fs_trace
               (fs_trace w ++ [FsStat (strip_slash filepath); FsRmdir filepath]) w).
  assert (deleteFile filepath opts w =
          if has_entries (files w) filepath then
            showMessage
              ("Error on delete " +:+ filepath +:+ ": ENOTEMPTY: " +:+ filepath)
              error w1
          else (Returned tt, set_files (delete (strip_slash filepath) (files w)) w1))
    as ->.
  { unfold deleteFile, bind. rewrite statAsync_effect, Hstat. simpl.
    rewrite Hrec. simpl.
    unfold try_catch, rmdir, fs_call, bind, get, update, throw. simpl.
    rewrite Hdir. simpl. subst w1.
    destruct (has_entries (files w) filepath); simpl;
      destruct w; simpl; rewrite <- ?app_assoc; reflexivity. }
  destruct (has_entries (files w) filepath); simpl.
  - unfold showMessage, bind, get, update, ret. subst w1.
    destruct w as [? ? ? [] ? ? ? ? ? ? ? ? ? ? ? ?]; repeat split.
  - subst w1. destruct w; repeat split.
Qed.


(** ** Relations kept along a computation *)

Section Guards.
Variable R : Workspace → Workspace → Prop.
Hypothesis R_refl : ∀ w, R w w.
Hypothesis R_trans : ∀ w1 w2 w3, R w1 w2 → R w2 w3 → R w1 w3.

Lemma guards_ret {A} (a : A) : guards R (ret a).
Proof. intros w. apply R_refl. Qed.

Lemma guards_throw {A} (e : Exn) : guards R (@throw A e).
Proof. intros w. apply R_refl. Qed.

Lemma guards_get {A} (f : Workspace → A) : guards R (get f).
Proof. intros w. apply R_refl. Qed.

Lemma guards_update (f : Workspace → Workspace) :
  (∀ w, R w (f w)) → guards R (update f).
Proof. intros Hf w. apply Hf. Qed.

Lemma guards_bind {A B} (m : Async A) (k : A → Async B) :
  guards R m → (∀ a, guards R (k a)) → guards R (bind m k).
Proof.
  intros Hm Hk w. unfold bind. specialize (Hm w).
  destruct (m w) as [[a | e] w1]; simpl in *; [| exact Hm].
  eapply R_trans; [exact Hm | apply Hk].
Qed.

Lemma guards_try_catch {A} (m : Async A) (h : Exn → Async A) :
  guards R m → (∀ e, guards R (h e)) → guards R (try_catch m h).
Proof.
  intros Hm Hh w. unfold try_catch. specialize (Hm w).
  destruct (m w) as [[a | e] w1]; simpl in *; [exact Hm |].
  eapply R_trans; [exact Hm | apply Hh].
Qed.

Lemma guards_unload_each (ids : list nat) :
  (∀ n, guards R (onBufUnload n)) → guards R (unload_each ids).
Proof.
  intros Hunload. induction ids as [| n rest IH]; simpl.
  - apply guards_ret.
  - apply guards_bind; [apply Hunload | intros _; exact IH].
Qed.

Lemma guards_history (hs : list Happening) (w : Workspace) :
  (∀ h, guards R (happen h)) → R w (unfold_history hs w).
Proof.
  intros Hh. revert w. induction hs as [| h rest IH]; intros w; simpl.
  - apply R_refl.
  - eapply R_trans; [apply (Hh h w) | apply IH].
Qed.
End Guards.

Lemma grows_refl (w : Workspace) : grows w w.
Proof.
  unfold grows. repeat split; try done; exists []; by rewrite app_nil_r.
Qed.

Lemma grows_trans (w1 w2 w3 : Workspace) :
  grows w1 w2 → grows w2 w3 → grows w1 w3.
Proof.
  unfold grows.
  intros (? & ? & ? & ? & [f1 Hf1] & [c1 Hc1] & ? & ?)
         (? & ? & ? & ? & [f2 Hf2] & [c2 Hc2] & ? & ?).
  repeat split; try congruence; try lia; try tauto.
  - exists (f1 ++ f2). by rewrite Hf2, Hf1, app_assoc.
  - exists (c1 ++ c2). by rewrite Hc2, Hc1, app_assoc.
Qed.

Lemma calm_refl (w : Workspace) : calm w w.
Proof. by unfold calm. Qed.

Lemma calm_trans (w1 w2 w3 : Workspace) : calm w1 w2 → calm w2 w3 → calm w1 w3.
Proof. unfold calm. intros (? & ? & ?) (? & ? & ?). repeat split; congruence. Qed.

Lemma settled_refl (w : Workspace) : settled w w.
Proof. reflexivity. Qed.

Lemma settled_trans (w1 w2 w3 : Workspace) :
  settled w1 w2 → settled w2 w3 → settled w1 w3.
Proof. unfold settled. congruence. Qed.

(** The laws of the three relations, for the side conditions. *)
Ltac relation_law :=
  first [ exact grows_refl | exact grows_trans | exact calm_refl
        | exact calm_trans | exact settled_refl | exact settled_trans ].

(** One step down the structure of a computation. *)
Create HintDb guards.

Ltac guards_descend leaf :=
  first
    [ solve [auto with guards]
    | apply guards_ret; relation_law
    | apply guards_throw; relation_law
    | apply guards_get; relation_law
    | apply guards_update; solve [leaf]
    | match goal with
      | |- guards _ (match ?x with _ => _ end) => destruct x eqn:?
      | |- guards _ (if ?b then _ else _) => destruct b eqn:?
      end
    | apply guards_try_catch; [relation_law | | intros ?]
    | apply guards_bind; [relation_law | | intros ?] ].

(** A field update seen through [grows]. *)
Ltac grows_leaf :=
  intros [];
  unfold grows, addFolderFile; simpl;
  repeat match goal with
         | H : _ && _ = true |- _ => apply andb_prop in H as [? ?]
         end;
  repeat split; auto;
  solve [ by eexists | exists []; by rewrite app_nil_r ].



(** ** The configuration store over time *)

Lemma loadConfigurations_reload (current : Configurations) (w : Workspace) :
  ∃ config more,
    loadConfigurations (Some current) w =
      (Returned config, set_configFiles (configFiles w ++ more) w) ∧
    cd_defaults config = defaults current.
Proof.
  unfold loadConfigurations, bind, get, update, ret, set_configFiles.
  destruct w; simpl.
  repeat case_match; simplify_eq; simpl; rewrite <- ?app_assoc;
    eexists _, _; (split; reflexivity).
Qed.

Lemma onConfigurationChange_reload (w : Workspace) :
  ∃ store more,
    onConfigurationChange w =
      (Returned tt,
       set_emitted (emitted w ++ [DidChangeConfiguration (_configurations w)])
         (set_configurations store
            (set_configFiles (configFiles w ++ more) w))) ∧
    defaults store = defaults (_configurations w) ∧
    foldConfigurations store = foldConfigurations (_configurations w).
Proof.
  unfold onConfigurationChange, bind, get, fire, update.
  destruct (loadConfigurations_reload (_configurations w) w)
    as (config & more & -> & Hdefaults).
  eexists _, more. split; [destruct w; reflexivity |]. by split.
Qed.

Lemma grows_onConfigurationChange : guards grows onConfigurationChange.
Proof.
  intros w.
  destruct (onConfigurationChange_reload w) as (store & more & -> & Hd & Hf).
  unfold grows. destruct w; simpl in *.
  repeat split; try done; [exists []; by rewrite app_nil_r | by exists more].
Qed.

#[local] Hint Resolve grows_onConfigurationChange : guards.

Lemma grows_onBufUnload (n : nat) : guards grows (onBufUnload n).
Proof.
  unfold onBufUnload, Document_detach, fire.
  repeat guards_descend grows_leaf.
Qed.

Lemma grows_Document_init (nvim : Nvim) (id : nat) :
  guards grows (Document_init nvim id).
Proof.
  intros w. rewrite Document_init_effect. unfold grows. destruct w; simpl.
  repeat split; try done; try lia; exists []; by rewrite app_nil_r.
Qed.

#[local] Hint Resolve grows_Document_init grows_onBufUnload : guards.

Lemma grows_onBufCreate (nvim : Nvim) (id : nat) :
  guards grows (onBufCreate nvim id).
Proof.
  unfold onBufCreate, onBufCreate_root, attach_folder_settings,
    statAsync, fs_call, fire.
  repeat guards_descend grows_leaf.
Qed.

#[local] Hint Resolve grows_onBufCreate : guards.

Lemma grows_happen (h : Happening) : guards grows (happen h).
Proof.
  destruct h as [[nvim id | id | nvim | nvim oldPath newPath opts]
                | filetype n | |]; simpl.
  - auto with guards.
  - auto with guards.
  - unfold _checkBuffer. repeat guards_descend grows_leaf.
  - unfold renameFile, showMessage, statAsync, renameAsync, editor_call, fs_call.
    repeat guards_descend grows_leaf.
  - unfold onFileTypeChange, fire. repeat guards_descend grows_leaf.
  - unfold detach. apply guards_bind; [relation_law | | intros ids].
    + apply guards_get; relation_law.
    + apply guards_unload_each; [relation_law .. | auto with guards].
  - auto with guards.
Qed.


(** ** The in-flight set and the quiet handlers *)

Ltac calm_leaf := intros []; unfold calm; simpl; by repeat split.
Ltac settled_leaf := intros []; reflexivity.

Lemma settled_onBufCreate_root (d : Document) : guards settled (onBufCreate_root d).
Proof.
  unfold onBufCreate_root, attach_folder_settings, onConfigurationChange,
    loadConfigurations, statAsync, fs_call, fire.
  repeat guards_descend settled_leaf.
Qed.

(** [onBufCreate] hands the in-flight set back as it found it, on every
    path: busy, not loaded, refused, failed, created. *)
Lemma settled_onBufCreate (nvim : Nvim) (id : nat) :
  guards settled (onBufCreate nvim id).
Proof.
  intros w. unfold settled, onBufCreate, bind, get. cbv beta iota.
  destruct (bool_decide (id ∈ creating w)) eqn:Hbusy; [reflexivity |].
  apply bool_decide_eq_false in Hbusy.
  destruct (bufloaded nvim id); cbv beta iota delta [negb]; [| reflexivity].
  unfold update, try_catch, bind, getDocument_bufnr. cbv beta iota.
  set (w1 := set_creating _ _).
  rewrite (unload_existing_effect id w1).
  set (w2 := set_emitted _ _).
  rewrite (Document_init_effect nvim id w2).
  assert (creating w2 ∖ {[id]} = creating w) as Hback.
  { subst w2 w1. destruct w; simpl in *.
    apply set_eq. intros n.
    rewrite elem_of_difference, elem_of_union, !elem_of_singleton.
    split; [tauto |]. intros Hn. split; [tauto |]. by intros ->. }
  destruct (buffer_init nvim id) as [uri bt sch c v | | e]; simpl.
  - unfold ret. cbv beta iota.
    match goal with
    | |- context [onBufCreate_root ?d ?w3] =>
        pose proof (settled_onBufCreate_root d w3) as Hroot;
        destruct (onBufCreate_root d w3) as [[[] | e] w4]
    end; unfold settled in Hroot; simpl in *; rewrite Hroot; exact Hback.
  - exact Hback.
  - exact Hback.
Qed.

#[local] Hint Resolve settled_onBufCreate : guards.

Lemma settled_happen (h : Happening) : guards settled (happen h).
Proof.
  destruct h as [[nvim id | id | nvim | nvim oldPath newPath opts]
                | filetype n | |]; simpl.
  - auto with guards.
  - unfold onBufUnload, Document_detach, fire.
    repeat guards_descend settled_leaf.
  - unfold _checkBuffer. repeat guards_descend settled_leaf.
  - unfold renameFile, showMessage, statAsync, renameAsync, editor_call, fs_call.
    repeat guards_descend settled_leaf.
  - unfold onFileTypeChange, fire. repeat guards_descend settled_leaf.
  - unfold detach. apply guards_bind; [relation_law | | intros ids].
    + apply guards_get; relation_law.
    + apply guards_unload_each; [relation_law .. |]. intros n.
      unfold onBufUnload, Document_detach, fire.
      repeat guards_descend settled_leaf.
  - unfold onConfigurationChange, loadConfigurations, fire.
    repeat guards_descend settled_leaf.
Qed.

Lemma calm_lifecycle (h : Happening) :
  is_lifecycle h = true → guards calm (happen h).
Proof.
  destruct h as [[nvim id | id | nvim | nvim oldPath newPath opts]
                | filetype n | |]; simpl; intros Hlife; try discriminate.
  - unfold onBufCreate, onBufCreate_root, attach_folder_settings,
      onConfigurationChange, loadConfigurations, Document_init, onBufUnload,
      Document_detach, statAsync, fs_call, fire.
    repeat guards_descend calm_leaf.
  - unfold onBufUnload, Document_detach, fire.
    repeat guards_descend calm_leaf.
  - unfold _checkBuffer, onBufCreate, onBufCreate_root,
      attach_folder_settings, onConfigurationChange, loadConfigurations,
      Document_init, onBufUnload, Document_detach, statAsync, fs_call, fire.
    repeat guards_descend calm_leaf.
  - unfold onFileTypeChange, fire. repeat guards_descend calm_leaf.
  - unfold detach. apply guards_bind; [relation_law | | intros ids].
    + apply guards_get; relation_law.
    + apply guards_unload_each; [relation_law .. |]. intros n.
      unfold onBufUnload, Document_detach, fire.
      repeat guards_descend calm_leaf.
  - unfold onConfigurationChange, loadConfigurations, fire.
    repeat guards_descend calm_leaf.
Qed.


(** X10.  Every handler hands the in-flight set back as it found it:
    [onBufCreate] removes the buffer it added whether the document was
    created, refused or failed.  From the constructor on the set is empty
    between handlers, so no buffer is ever locked out of creation. *)
Theorem creating_restored (h : Happening) (w : Workspace)
    (hs : list Happening) (cwd : string) (roots : list string)
    (fs : gmap string Node) :
  creating (happen h w).2 = creating w ∧
  creating (unfold_history hs (constructor cwd roots fs)) = ∅.
Proof.
  split; [apply settled_happen |].
  pose proof (guards_history settled settled_refl settled_trans hs
                (constructor cwd roots fs) settled_happen) as ->.
  unfold constructor.
  destruct (loadConfigurations_effect None (blank cwd roots fs))
    as (config & paths & ->).
  reflexivity.
Qed.

(** X11.  The lifecycle handlers (buffer create and unload, recheck, file
    type change, detach, configuration reload) never touch the tree on
    disk, echo nothing through [showMessage] and send none of the requests
    that change the argument list, the buffer list, a buffer's name or the
    cursor.  (Parse errors of a settings file go to the quickfix list
    through the parser's callback; the parser is part of the interface and
    that report is not represented.) *)
Theorem lifecycle_is_calm (hs : list Happening) (w : Workspace) :
  forallb is_lifecycle hs = true →
  let w' := unfold_history hs w in
  files w' = files w ∧ messages w' = messages w ∧ editor w' = editor w.
Proof.
  revert w. induction hs as [| h rest IH]; intros w Hlife; simpl in *; [done |].
  apply andb_prop in Hlife as [Hh Hrest].
  destruct (calm_lifecycle h Hh w) as (Hf & Hm & He).
  destruct (IH (happen h w).2 Hrest) as (Hf' & Hm' & He').
  repeat split; congruence.
Qed.

(** X12.  Over any history the default layer is the one the workspace
    started with (a reload reuses it instead of parsing the file again), no
    folder fragment is ever dropped, and the list of configuration paths is
    only appended to. *)
Theorem configuration_store_grows (hs : list Happening) (w : Workspace) :
  let w' := unfold_history hs w in
  defaults (_configurations w') = defaults (_configurations w) ∧
  (∃ more, foldConfigurations (_configurations w') =
           foldConfigurations (_configurations w) ++ more) ∧
  (∃ more, configFiles w' = configFiles w ++ more).
Proof.
  destruct (guards_history grows grows_refl grows_trans hs w grows_happen)
    as (_ & _ & _ & Hd & Hf & Hc & _).
  by repeat split.
Qed.

Lemma constructor_configFiles (cwd : string) (roots : list string)
    (fs : gmap string Node) :
  ∃ more,
    configFiles (constructor cwd roots fs) =
    [path_join plugin_root "settings.json";
     path_join vim_config_home CONFIG_FILE_NAME] ++ more ∧
    (findUp fs ".vim" cwd = None → more = []).
Proof.
  unfold constructor, loadConfigurations, bind, get, update, ret, blank.
  simpl. repeat case_match; simplify_eq; simpl; eexists; split; try done.
Qed.

(** X13.  [getConfigFile] for the global and the user target is stable:
    after any history it still names the plugin's [settings.json] and the
    user's [coc-settings.json], although every reload appends its paths to
    [configFiles] again. *)
Theorem getConfigFile_stable (hs : list Happening) (cwd : string)
    (roots : list string) (fs : gmap string Node) :
  let w := unfold_history hs (constructor cwd roots fs) in
  getConfigFile TargetGlobal w = Some (path_join plugin_root "settings.json") ∧
  getConfigFile TargetUser w =
    Some (path_join vim_config_home CONFIG_FILE_NAME).
Proof.
  intros w.
  destruct (guards_history grows grows_refl grows_trans hs
              (constructor cwd roots fs) grows_happen)
    as (_ & _ & _ & _ & _ & [more Hmore] & _).
  destruct (constructor_configFiles cwd roots fs) as (more0 & Hstart & _).
  unfold getConfigFile. subst w. rewrite Hmore, Hstart. by split.
Qed.

Lemma onConfigurationChange_paths (w : Workspace) :
  ∃ rest,
    configFiles (onConfigurationChange w).2 =
    configFiles w ++ path_join plugin_root "settings.json"
                  :: path_join vim_config_home CONFIG_FILE_NAME :: rest.
Proof.
  unfold onConfigurationChange, loadConfigurations, bind, get, update, ret,
    fire.
  destruct w; simpl.
  repeat case_match; simplify_eq; simpl; rewrite <- ?app_assoc; simpl;
    by eexists.
Qed.

(** X14.  In a workspace with no [.vim] folder above its root,
    [configFiles] has two entries after the constructor, and the first
    reload appends the default and the user path again: from then on
    [getConfigFile] for the workspace target names the plugin's default
    [settings.json]. *)
Theorem getConfigFile_workspace_after_reload (hs : list Happening)
    (cwd : string) (roots : list string) (fs : gmap string Node) :
  findUp fs ".vim" cwd = None →
  getConfigFile TargetWorkspace (constructor cwd roots fs) = None ∧
  getConfigFile TargetWorkspace
    (unfold_history (Reload :: hs) (constructor cwd roots fs)) =
  Some (path_join plugin_root "settings.json").
Proof.
  intros Hnone.
  destruct (constructor_configFiles cwd roots fs) as (more0 & Hstart & Hmore0).
  rewrite (Hmore0 Hnone) in Hstart. simpl in Hstart.
  split; [unfold getConfigFile; by rewrite Hstart |].
  simpl.
  destruct (guards_history grows grows_refl grows_trans hs
              (onConfigurationChange (constructor cwd roots fs)).2 grows_happen)
    as (_ & _ & _ & _ & _ & [more Hmore] & _).
  unfold getConfigFile. rewrite Hmore.
  destruct (onConfigurationChange_paths (constructor cwd roots fs))
    as [rest ->].
  by rewrite Hstart.
Qed.

(** X15.  The stored root is never empty: started in a working directory
    with a name, the workspace keeps a root that is not the empty string
    through any history. *)
Theorem root_never_empty (hs : list Happening) (cwd : string)
    (roots : list string) (fs : gmap string Node) :
  truthy_string cwd = true →
  truthy_string (_root (unfold_history hs (constructor cwd roots fs))) = true.
Proof.
  intros Hcwd.
  destruct (guards_history grows grows_refl grows_trans hs
              (constructor cwd roots fs) grows_happen)
    as (_ & _ & _ & _ & _ & _ & _ & Hroot).
  apply Hroot.
  pose proof (constructor_view cwd roots fs) as Hview. unfold view in Hview.
  by injection Hview as _ _ ->.
Qed.


(** *** The registry, one handler at a time *)

Lemma getDocument_Some (uri : string) (w : Workspace) (d : Document) :
  getDocument uri w = Some d →
  doc_uri d = uri ∧ ∃ id, buffers w !! id = Some d.
Proof.
  unfold getDocument.
  destruct (List.find _ _) as [[id d'] |] eqn:Hfind; simpl; [| done].
  intros [= ->].
  apply find_some in Hfind as [Hin Huri]. simpl in Huri.
  split; [by apply String.eqb_eq |].
  exists id. by apply elem_of_map_to_list, list_elem_of_In.
Qed.

Lemma getDocument_None (uri : string) (w : Workspace) (id : nat)
    (d : Document) :
  getDocument uri w = None → buffers w !! id = Some d → doc_uri d ≠ uri.
Proof.
  unfold getDocument.
  destruct (List.find _ _) as [kd |] eqn:Hfind; simpl; [done |].
  intros _ Hd Huri.
  apply elem_of_map_to_list, list_elem_of_In in Hd.
  pose proof (find_none _ _ Hfind _ Hd) as Hno. simpl in Hno.
  apply String.eqb_neq in Hno. done.
Qed.

(** X16.  Looking a document up by URI walks the registry: a document
    that is returned is registered under some buffer and has that URI, and
    [null] is returned only when no registered document has it. *)
Theorem getDocument_by_uri (uri : string) (w : Workspace) :
  match getDocument uri w with
  | Some d => doc_uri d = uri ∧ ∃ id, buffers w !! id = Some d
  | None => ∀ id d, buffers w !! id = Some d → doc_uri d ≠ uri
  end.
Proof.
  destruct (getDocument uri w) as [d |] eqn:Hdoc.
  - by apply getDocument_Some.
  - intros id d. by apply getDocument_None.
Qed.

(** X17.  [onBufUnload] is idempotent: after it the buffer has no
    document, so running it again returns without changing anything, in
    particular without a second close notification. *)
Theorem onBufUnload_idempotent (id : nat) (w : Workspace) :
  let w' := (onBufUnload id w).2 in
  buffers w' !! id = None ∧ onBufUnload id w' = (Returned tt, w').
Proof.
  simpl. rewrite (onBufUnload_effect id w). simpl.
  assert (buffers
            match buffers w !! id with
            | Some d =>
                set_emitted (emitted w ++ [DidCloseTextDocument d])
                  (set_buffers (delete id (buffers w)) w)
            | None => w
            end !! id = None) as Hgone.
  { destruct (buffers w !! id) eqn:Hd; [| done].
    destruct w; simpl. apply lookup_delete_eq. }
  split; [exact Hgone |].
  rewrite onBufUnload_effect. by rewrite Hgone.
Qed.

Lemma onBufCreate_skipped (nvim : Nvim) (id : nat) (w : Workspace) :
  id ∈ creating w ∨ bufloaded nvim id = false →
  onBufCreate nvim id w = (Returned tt, w).
Proof.
  intros Hskip. unfold onBufCreate, bind, get. cbv beta iota.
  destruct (bool_decide (id ∈ creating w)) eqn:Hbusy; [reflexivity |].
  apply bool_decide_eq_false in Hbusy.
  destruct Hskip as [Hin | ->]; [done | reflexivity].
Qed.

Lemma onBufCreate_not_created (nvim : Nvim) (id : nat) (w : Workspace) :
  id ∉ creating w →
  bufloaded nvim id = true →
  (∀ uri buftype schema content version,
     buffer_init nvim id ≠ InitCreated uri buftype schema content version) →
  onBufCreate nvim id w =
  (Returned tt,
   set_serial (S (serial w))
     (set_emitted (emitted w ++ closes w id)
        (set_buffers (delete id (buffers w)) (set_bufnr (Some id) w)))).
Proof.
  intros Hfree Hloaded Hinit. unfold onBufCreate, bind, get. cbv beta iota.
  rewrite bool_decide_eq_false_2 by done.
  rewrite Hloaded. cbv beta iota delta [negb].
  unfold update, try_catch, bind, getDocument_bufnr. cbv beta iota.
  set (w1 := set_creating _ _).
  rewrite (unload_existing_effect id w1).
  set (w2 := set_emitted _ _).
  rewrite (Document_init_effect nvim id w2).
  assert (creating w2 ∖ {[id]} = creating w) as Hback.
  { subst w2 w1. destruct w; simpl in *.
    apply set_eq. intros n.
    rewrite elem_of_difference, elem_of_union, !elem_of_singleton.
    split; [tauto |]. intros Hn. split; [tauto |]. by intros ->. }
  destruct (buffer_init nvim id) as [uri bt sch c v | | e];
    [by destruct (Hinit uri bt sch c v) | |];
    simpl; f_equal; subst w2 w1; destruct w; simpl in *;
    unfold set_serial, set_creating; simpl; by rewrite Hback.
Qed.

Lemma focus_refl (w : Workspace) : bufnr w = bufnr w.
Proof. reflexivity. Qed.

Lemma focus_trans (w1 w2 w3 : Workspace) :
  bufnr w2 = bufnr w1 → bufnr w3 = bufnr w2 → bufnr w3 = bufnr w1.
Proof. congruence. Qed.

Ltac relation_law ::=
  first [ exact grows_refl | exact grows_trans | exact calm_refl
        | exact calm_trans | exact settled_refl | exact settled_trans
        | exact focus_refl | exact focus_trans ].

Ltac focus_leaf := intros []; reflexivity.

Lemma onBufCreate_root_bufnr (d : Document) :
  guards (λ w w', bufnr w' = bufnr w) (onBufCreate_root d).
Proof.
  unfold onBufCreate_root, attach_folder_settings, onConfigurationChange,
    loadConfigurations, statAsync, fs_call, fire.
  repeat guards_descend focus_leaf.
Qed.

Lemma onBufCreate_created (nvim : Nvim) (id : nat) (w : Workspace)
    (uri buftype schema content : string) (version : Z) :
  id ∉ creating w →
  bufloaded nvim id = true →
  buffer_init nvim id = InitCreated uri buftype schema content version →
  let d := {| doc_serial := serial w; doc_bufnr := id; doc_uri := uri;
              doc_version := version; doc_content := content;
              doc_buftype := buftype; doc_schema := schema |} in
  let w' := (onBufCreate nvim id w).2 in
  (onBufCreate nvim id w).1 = Returned tt ∧
  buffers w' = <[id := d]> (buffers w) ∧
  bufnr w' = Some id ∧
  ∃ evs, emitted w' =
         emitted w ++ closes w id ++ evs ++ [DidOpenTextDocument d] ∧
         Forall (λ e, is_registry_event e = false) evs.
Proof.
  intros Hfree Hloaded Hinit. unfold onBufCreate, bind, get. cbv beta iota.
  rewrite bool_decide_eq_false_2 by done.
  rewrite Hloaded. cbv beta iota delta [negb].
  unfold update, try_catch, bind, getDocument_bufnr. cbv beta iota.
  set (w1 := set_creating _ _).
  rewrite (unload_existing_effect id w1).
  set (w2 := set_emitted _ _).
  rewrite (Document_init_effect nvim id w2).
  rewrite Hinit. unfold ret. cbv beta iota.
  assert (serial w2 = serial w) as -> by (destruct w; reflexivity).
  set (d := {| doc_serial := serial w; doc_bufnr := id |}).
  set (w3 := set_creating _ _).
  assert (buffers w3 = <[id := d]> (buffers w)) as Hb3.
  { subst w3 w2 w1. destruct w; simpl. apply insert_delete_eq. }
  assert (emitted w3 = emitted w ++ closes w id) as He3
    by (destruct w; reflexivity).
  assert (bufnr w3 = Some id) as Hn3 by (destruct w; reflexivity).
  assert (closes w1 id = closes w id) as Hc1 by (destruct w; reflexivity).
  pose proof (onBufCreate_root_bufnr d w3) as Hn4.
  destruct (onBufCreate_root_effect d w3)
    as [Heq | (root & previous & w4 & Hres & Hne & Hb & He & _ & Heq)];
    rewrite Heq in Hn4 |- *; unfold fire, update; simpl in *; rewrite ?Hc1.
  - repeat split; [done .. |]. exists []. split; [| constructor].
    by rewrite <- app_assoc.
  - repeat split; [congruence .. |].
    exists [DidChangeConfiguration previous; DidChangeWorkspaceFolder root].
    split; [| by repeat constructor].
    rewrite <- !app_assoc. reflexivity.
Qed.


(** X18.  A buffer that is loaded and not already being created gets the
    document the editor describes: it is registered under the buffer's own
    number (replacing what was there), the buffer becomes the current one,
    the document is found by its URI, no other buffer's entry changes, and
    the open notification for it is the last event fired. *)
Theorem onBufCreate_registers (nvim : Nvim) (id : nat) (w : Workspace)
    (uri buftype schema content : string) (version : Z) :
  id ∉ creating w →
  bufloaded nvim id = true →
  buffer_init nvim id = InitCreated uri buftype schema content version →
  let d := {| doc_serial := serial w; doc_bufnr := id; doc_uri := uri;
              doc_version := version; doc_content := content;
              doc_buftype := buftype; doc_schema := schema |} in
  let w' := (onBufCreate nvim id w).2 in
  (onBufCreate nvim id w).1 = Returned tt ∧
  getDocument_bufnr id w' = Some d ∧
  bufnr w' = Some id ∧
  is_Some (getDocument uri w') ∧
  (∀ n, n ≠ id → buffers w' !! n = buffers w !! n) ∧
  last (emitted w') = Some (DidOpenTextDocument d).
Proof.
  intros Hfree Hloaded Hinit d w'.
  destruct (onBufCreate_created nvim id w uri buftype schema content version
              Hfree Hloaded Hinit) as (Hret & Hb & Hn & evs & He & _).
  fold d w' in Hb, Hn, He.
  assert (buffers w' !! id = Some d) as Hd
    by (rewrite Hb; apply lookup_insert_eq).
  repeat split; try done.
  - destruct (getDocument uri w') as [d' |] eqn:Hdoc; [by eexists |].
    by destruct (getDocument_None uri w' id d Hdoc Hd).
  - intros n Hne. rewrite Hb. by apply lookup_insert_ne.
  - rewrite He, !app_assoc. apply last_snoc.
Qed.

(** X19.  When the editor refuses the document or [init] throws, the
    error is swallowed, and the document the buffer had is gone all the
    same: it was unloaded and closed before the new one was tried.  The
    root and the entries of the other buffers are as before. *)
Theorem onBufCreate_failure_unloads (nvim : Nvim) (id : nat) (w : Workspace) :
  id ∉ creating w →
  bufloaded nvim id = true →
  (buffer_init nvim id = InitRefused ∨ ∃ e, buffer_init nvim id = InitThrows e) →
  let w' := (onBufCreate nvim id w).2 in
  (onBufCreate nvim id w).1 = Returned tt ∧
  buffers w' = delete id (buffers w) ∧
  emitted w' = emitted w ++ closes w id ∧
  _root w' = _root w.
Proof.
  intros Hfree Hloaded Hinit.
  rewrite (onBufCreate_not_created nvim id w Hfree Hloaded).
  - destruct w; by repeat split.
  - intros uri bt sch c v Heq.
    destruct Hinit as [Hinit | [e Hinit]]; congruence.
Qed.

(** X20.  Creating a buffer's document and unloading the buffer again
    leaves the registry without an entry for that buffer and with the
    other entries as they were, whatever the editor answered to the
    creation. *)
Theorem create_then_unload (nvim : Nvim) (id : nat) (w : Workspace) :
  buffers (run [BufCreate nvim id; BufUnload id] w) = delete id (buffers w).
Proof.
  unfold run, after. simpl.
  assert (delete id (buffers (onBufCreate nvim id w).2) =
          delete id (buffers w)) as Hcreate.
  { destruct (decide (id ∈ creating w)) as [Hbusy | Hfree].
    { rewrite onBufCreate_skipped; [done | by left]. }
    destruct (bufloaded nvim id) eqn:Hloaded.
    2: { rewrite onBufCreate_skipped; [done | by right]. }
    destruct (buffer_init nvim id) as [uri bt sch c v | | e] eqn:Hinit.
    - destruct (onBufCreate_created nvim id w uri bt sch c v
                  Hfree Hloaded Hinit) as (_ & -> & _).
      apply delete_insert_eq.
    - rewrite onBufCreate_not_created; [| done | done | congruence].
      destruct w; simpl. apply delete_delete_eq.
    - rewrite onBufCreate_not_created; [| done | done | congruence].
      destruct w; simpl. apply delete_delete_eq. }
  rewrite onBufUnload_effect. simpl.
  destruct (buffers (onBufCreate nvim id w).2 !! id) eqn:Hd.
  - rewrite <- Hcreate. by destruct (onBufCreate nvim id w).2.
  - rewrite <- Hcreate. symmetry. by apply delete_id.
Qed.

(** *** Detaching *)












(** *** The bracket invariant over every handler *)

Lemma unload_each_invariant (ids : list nat) (w : Workspace) :
  tracks (emitted w) (buffers w) ∧ keyed (buffers w) →
  let w' := (unload_each ids w).2 in
  tracks (emitted w') (buffers w') ∧ keyed (buffers w').
Proof.
  revert w. induction ids as [| n rest IH]; intros w Hinv; simpl; [done |].
  unfold bind. pose proof (steps_onBufUnload n w) as Hstep.
  pose proof (onBufUnload_effect n w) as Heff.
  destruct (onBufUnload n w) as [r w1]. injection Heff as -> _.
  apply IH. by apply (registry_step_invariant w).
Qed.

Lemma happen_invariant (h : Happening) (w : Workspace) :
  tracks (emitted w) (buffers w) ∧ keyed (buffers w) →
  let w' := (happen h w).2 in
  tracks (emitted w') (buffers w') ∧ keyed (buffers w').
Proof.
  intros [Hlog Hkeyed].
  destruct h as [op | filetype n | |]; simpl.
  - apply (registry_step_invariant w); [apply perform_steps | done].
  - unfold onFileTypeChange, bind, get, getDocument_bufnr, fire, update.
    destruct (buffers w !! n) as [d |] eqn:Hd; [| done].
    pose proof (Hkeyed n d Hd) as Hn.
    destruct w; simpl in *. split; [| done].
    rewrite <- (insert_delete_id buffers0 n d Hd). rewrite <- Hn.
    apply tracks_open.
    + apply tracks_close; [done | by rewrite Hn].
    + apply lookup_delete_eq.
  - unfold detach, bind, get. by apply unload_each_invariant.
  - destruct (onConfigurationChange_reload w) as (store & more & -> & _).
    destruct w; simpl in *. split; [| done].
    by apply tracks_other.
Qed.

(** X22.  While no two handlers overlap, the bracket discipline of the
    open and close notifications holds over every handler, file type
    changes, [detach] and configuration reloads included: after any history
    from the constructor in which each handler ends before the next starts,
    the notifications fired so far are bracketed per buffer and leave open
    exactly the registered documents, each under its own buffer number. *)
Theorem registry_bracketed_over_history (hs : list Happening)
    (cwd : string) (roots : list string) (fs : gmap string Node) :
  let w := unfold_history hs (constructor cwd roots fs) in
  tracks (emitted w) (buffers w) ∧
  (∀ id d, buffers w !! id = Some d → doc_bufnr d = id).
Proof.
  simpl.
  assert (tracks (emitted (constructor cwd roots fs))
                 (buffers (constructor cwd roots fs)) ∧
          keyed (buffers (constructor cwd roots fs))) as Hstart.
  { pose proof (constructor_view cwd roots fs) as Hview. unfold view in Hview.
    injection Hview as -> -> _. split; [constructor | intros id d Hd].
    by rewrite lookup_empty in Hd. }
  revert Hstart. generalize (constructor cwd roots fs).
  induction hs as [| h rest IH]; intros w Hinv; simpl; [exact Hinv |].
  apply IH. by apply happen_invariant.
Qed.


(** ** Prompts, echoed lines, lines of a resource, output channels *)

(** X23.  [showQuickpick] answers -1 or an index from 0 up to the number
    of items: the upper bound of the test is the length of the message
    list, which has the placeholder line in front, so the answer
    [items.length + 1] is let through and gives the index [items.length],
    one past the last item.  Answers within [1 .. items.length] give the
    index of the item, and the command line is no longer blocked when the
    method returns. *)
Theorem showQuickpick_range (reply : option Z) (items : list string)
    (placeholder : string) (w : Workspace) :
  ∃ r,
    (showQuickpick reply items placeholder w).1 = Returned r ∧
    (-1 ≤ r ≤ Z.of_nat (length items))%Z ∧
    _blocking (showQuickpick reply items placeholder w).2 = false ∧
    (∀ n, reply = Some n → (1 ≤ n ≤ Z.of_nat (length items) + 1)%Z →
          r = (n - 1)%Z) ∧
    (∀ n, reply = Some n → (n ≤ 0 ∨ Z.of_nat (length items) + 1 < n)%Z →
          r = (-1)%Z).
Proof.
  unfold showQuickpick, bind, update, ret. cbv beta iota zeta.
  cbn [length]. rewrite length_imap.
  destruct reply as [n |]; cbv beta iota.
  - destruct (n <=? 0)%Z eqn:Hlow; cbn [orb].
    + apply Z.leb_le in Hlow. exists (-1)%Z.
      repeat split; try (by destruct w); try lia.
      intros n' [= <-]. lia.
    + apply Z.leb_gt in Hlow.
      destruct (Z.of_nat (S (length items)) <? n)%Z eqn:Hhigh.
      * apply Z.ltb_lt in Hhigh. exists (-1)%Z.
        repeat split; try (by destruct w); try lia.
        intros n' [= <-]. lia.
      * apply Z.ltb_ge in Hhigh. exists (n - 1)%Z.
        repeat split; try (by destruct w); try lia.
        -- by intros n' [= <-].
        -- intros n' [= <-]. lia.
  - exists (-1)%Z. repeat split; try (by destruct w); try lia; done.
Qed.

Lemma take_string_length (n : nat) (s : string) :
  (String.length (take_string n s) ≤ n)%nat.
Proof.
  revert s. induction n as [| n IH]; intros [| c r]; simpl; try lia.
  specialize (IH r). lia.
Qed.

Lemma has_newline_take (n : nat) (s : string) :
  has_newline s = false → has_newline (take_string n s) = false.
Proof.
  revert s. induction n as [| n IH]; intros [| c r]; simpl; try done.
  intros [Hc Hr]%orb_false_elim. rewrite Hc. simpl. by apply IH.
Qed.

Lemma has_newline_replace (s : string) :
  has_newline (replace_newlines s) = false.
Proof.
  induction s as [| c r IH]; simpl; [done |].
  rewrite IH, orb_false_r.
  destruct (Ascii.eqb c newline) eqn:Hc; [reflexivity | exact Hc].
Qed.

Lemma has_newline_slice (e : Z) (s : string) :
  has_newline s = false → has_newline (slice_to e s) = false.
Proof. unfold slice_to. destruct (0 <=? e)%Z; apply has_newline_take. Qed.

(** X24.  What [echoLines] hands to the editor: when truncating, at most
    [cmdheight] lines, and with at least one column every line has fewer
    characters than the editor has columns; truncating or not, no line
    holds a line break any more, and without truncation no line is
    dropped. *)
Theorem echoLines_fits (cmdHeight : nat) (columns : Z) (lines : list string) :
  length (echoLines cmdHeight columns lines true) =
    cmdHeight `min` length lines ∧
  length (echoLines cmdHeight columns lines false) = length lines ∧
  ((1 ≤ columns)%Z →
   Forall (λ line, (Z.of_nat (String.length line) < columns)%Z)
          (echoLines cmdHeight columns lines true)) ∧
  ∀ truncate,
    Forall (λ line, has_newline line = false)
           (echoLines cmdHeight columns lines truncate).
Proof.
  unfold echoLines. repeat split.
  - rewrite length_fmap, andb_true_r.
    destruct (cmdHeight <? length lines)%nat eqn:Hlong.
    + apply Nat.ltb_lt in Hlong.
      destruct cmdHeight as [| i]; [by rewrite length_take |].
      destruct (take (S i) lines !! i);
        rewrite ?length_insert, length_take; lia.
    + apply Nat.ltb_ge in Hlong. lia.
  - by rewrite length_fmap, andb_false_r.
  - intros Hcols. apply Forall_fmap, Forall_true. intros line. simpl.
    unfold slice_to. rewrite (proj2 (Z.leb_le 0 (columns - 1))) by lia.
    pose proof (take_string_length (Z.to_nat (columns - 1))
                  (replace_newlines line)). lia.
  - intros truncate. apply Forall_fmap, Forall_true. intros line. simpl.
    destruct truncate; [apply has_newline_slice |]; apply has_newline_replace.
Qed.

Lemma rev_app_append (s acc l : string) :
  String.rev_app s acc +:+ l = String.rev_app s (acc +:+ l).
Proof.
  revert acc. induction s as [| c r IH]; intros acc; simpl; [done |].
  by rewrite IH.
Qed.

Lemma split_lines_go_line (cur l : string) :
  has_newline l = false →
  split_lines_go cur l = [String.rev cur +:+ l] ∧
  ∀ rest, split_lines_go cur (l +:+ String newline rest) =
          (String.rev cur +:+ l) :: split_lines_go "" rest.
Proof.
  revert cur. induction l as [| c r IH]; intros cur Hl; simpl in *.
  - assert (String.rev cur +:+ "" = String.rev cur) as ->.
    { unfold String.rev. by rewrite rev_app_append. }
    by split.
  - apply orb_false_elim in Hl as [Hc Hr]. rewrite Hc.
    assert (String.rev cur +:+ String c r = String.rev (String c cur) +:+ r)
      as ->.
    { unfold String.rev. simpl. by rewrite !rev_app_append. }
    by apply IH.
Qed.

Lemma split_lines_concat (ls : list string) :
  ls ≠ [] →
  Forall (λ l, has_newline l = false) ls →
  split_lines (String.concat (String newline "") ls) = ls.
Proof.
  unfold split_lines.
  induction ls as [| x [| y rest] IH]; intros Hne Hall; [done | |].
  - apply Forall_inv in Hall. simpl.
    by destruct (split_lines_go_line "" x Hall) as [-> _].
  - pose proof (Forall_inv Hall) as Hx. apply Forall_inv_tail in Hall.
    change (String.concat (String newline "") (x :: y :: rest))
      with (x +:+ String newline (String.concat (String newline "") (y :: rest))).
    destruct (split_lines_go_line "" x Hx) as [_ ->].
    by rewrite IH.
Qed.

(** X25.  [getLine] on a resource that is not open and lies on disk with
    the file scheme: the file is read, and the answer is the line of that
    number, or the empty string when the file has fewer lines. *)
Theorem getLine_reads_line (getline : Document → nat → option string)
    (uri : string) (line : nat) (w : Workspace) (ls : list string) :
  getDocument uri w = None →
  scheme (Uri_parse uri) = "file" →
  ls ≠ [] →
  Forall (λ l, has_newline l = false) ls →
  lookup_path (files w) (fsPath (Uri_parse uri)) =
    Some (File (String.concat (String newline "") ls)) →
  getLine getline uri line w =
  (Returned (default "" (ls !! line)),
   set_fs_trace (fs_trace w ++ [FsRead (fsPath (Uri_parse uri))]) w).
Proof.
  intros Hclosed Hscheme Hne Hall Hfile.
  unfold getLine, readFile, bind, get. cbv beta iota.
  rewrite Hclosed. cbv beta iota. rewrite Hclosed, Hscheme.
  unfold readFileSync, fs_call, bind, get, update, ret. simpl.
  rewrite Hfile. rewrite split_lines_concat by done.
  rewrite lookup_take_lt by lia. reflexivity.
Qed.

Lemma append_length (a b : string) :
  String.length (a +:+ b) = (String.length a + String.length b)%nat.
Proof. induction a as [| c r IH]; simpl; [done | by rewrite IH]. Qed.

(** X26.  [createOutputChannel] never replaces the channel registered
    under the name it is given: with the name free the new channel takes
    it, with the name taken the new channel goes under the name with the
    token appended, which differs from the name.  The new channel is
    registered under its own name, and only that key changes. *)
Theorem createOutputChannel_keeps_named (uuid name : string)
    (outputChannels : gmap string OutputChannel) :
  let channel := (createOutputChannel uuid name outputChannels).1 in
  let channels := (createOutputChannel uuid name outputChannels).2 in
  channels !! channel_name channel = Some channel ∧
  (∀ other, other ≠ channel_name channel →
            channels !! other = outputChannels !! other) ∧
  (outputChannels !! name = None → channel_name channel = name) ∧
  (is_Some (outputChannels !! name) →
   channel_name channel ≠ name ∧ channels !! name = outputChannels !! name).
Proof.
  unfold createOutputChannel. simpl.
  assert (name +:+ "-" +:+ uuid ≠ name) as Hfresh.
  { intros Heq. apply (f_equal String.length) in Heq.
    rewrite !append_length in Heq. simpl in Heq. lia. }
  split; [apply lookup_insert_eq |].
  split; [intros other Hother; by apply lookup_insert_ne |].
  split; [by intros -> |].
  intros [c Hc]. rewrite Hc. simpl. split; [exact Hfresh |].
  by rewrite lookup_insert_ne.
Qed.


(** ** Edits that only carry document changes *)

Lemma accepted_changes_versioned (cs : list DocumentChange) (w : Workspace) :
  forallb (accepted_change w) cs = true →
  omap (λ change,
          match change with
          | TextDocumentEdit uri None _ => Some uri
          | _ => None
          end) cs = [].
Proof.
  induction cs as [| c rest IH]; simpl; [done |].
  intros [Hc Hrest]%andb_prop. specialize (IH Hrest).
  destruct c as [uri [v |] edits | | | |]; simpl in *; try exact IH.
  by destruct (getDocument uri w).
Qed.

(** X27.  An edit that carries document changes only and passes
    validation never reaches the prompt: validation admits a text edit only
    with a version, so no file counts as changed outside the registry, the
    user is not asked, no [argadd] is sent for it, and the answer is true
    unless applying a change throws. *)
Theorem applyEdit_documentChanges_no_prompt (nvim : Nvim)
    (edit : WorkspaceEdit) (w : Workspace) :
  changes edit = None →
  (validteDocumentChanges (documentChanges edit) w).1 = Returned true →
  getChangedFiles edit w = [] ∧
  (applyEdit nvim edit w).1 ≠ Returned false.
Proof.
  intros Hflat Hvalid.
  assert (∀ w1, getChangedFiles edit w1 = []) as Hnone.
  { intros w1. unfold getChangedFiles. rewrite Hflat. simpl.
    destruct (documentChanges edit) as [| | cs]; try done.
    apply (accepted_changes_versioned cs w).
    by apply validate_change_list_accepts. }
  split; [apply Hnone |].
  unfold applyEdit. unfold bind at 1.
  destruct (validteDocumentChanges (documentChanges edit) w) as [r w1].
  simpl in Hvalid. subst r. cbv beta iota delta [negb].
  rewrite Hflat. unfold validateChanges at 1, bind at 1, ret at 1.
  cbv beta iota delta [negb].
  unfold bind at 1, get. cbv beta iota. rewrite Hnone. simpl length.
  cbv beta iota delta [Nat.ltb Nat.leb andb].
  apply never_false_bind. intros _.
  repeat (apply never_false_bind; intros ?). apply never_false_ret_true.
Qed.


(** X28.  [renameFile] with a source that is not there: [fs.rename] is
    tried (the target being free, or [overwrite] set) and fails; the failure
    is caught and echoed as a rename error unless a prompt is blocking, and
    the tree, the registry and the editor are as before. *)
Theorem renameFile_missing_source (nvim : Nvim) (oldPath newPath : string)
    (opts : RenameFileOptions) (w : Workspace) :
  lookup_path (files w) oldPath = None →
  lookup_path (files w) newPath = None ∨ rf_overwrite opts = true →
  let w' := (renameFile nvim oldPath newPath opts w).2 in
  files w' = files w ∧
  buffers w' = buffers w ∧
  editor w' = editor w ∧
  fs_trace w' = fs_trace w ++ [FsStat newPath; FsRename oldPath newPath] ∧
  messages w' =
    (if _blocking w then messages w
     else messages w ++
          [(error,
            "Rename error " +:+ exn_message (SystemError "ENOENT" oldPath))]).
Proof.
  intros Hold Hgo.
  assert (renameFile nvim oldPath newPath opts w =
          (Returned tt,
           (if _blocking w then λ w, w
            else set_messages
                   (messages w ++
                    [(error, "Rename error " +:+
                             exn_message (SystemError "ENOENT" oldPath))]))
             (set_fs_trace
                (fs_trace w ++ [FsStat newPath; FsRename oldPath newPath])
                w))) as ->.
  { unfold renameFile, bind. rewrite statAsync_effect.
    assert (defined (lookup_path (files w) newPath) && negb (rf_overwrite opts)
            && negb (rf_ignoreIfExists opts) = false) as ->.
    { destruct Hgo as [-> | ->]; [done |]. by rewrite andb_false_r. }
    assert (negb (defined (lookup_path (files w) newPath))
            || rf_overwrite opts = true) as ->.
    { destruct Hgo as [-> | ->]; [done |]. by rewrite orb_true_r. }
    unfold try_catch, renameAsync, fs_call, showMessage, bind, get, update,
      throw, ret.
    destruct w as [? ? ? [] ? ? ? ? ? ? ? ? ? ? ? ?]; simpl in *;
      rewrite Hold; simpl; unfold set_fs_trace, set_messages; simpl;
      by rewrite <- app_assoc. }
  destruct w as [? ? ? [] ? ? ? ? ? ? ? ? ? ? ? ?]; by repeat split.
Qed.


(** ** Creations that overlap *)

Lemma drive_done (n : nat) (w : Workspace) : drive n None w = (Returned tt, w).
Proof. by destruct n. Qed.

(** The root block from its first await on. *)
Lemma drive_AtFindUp (n : nat) (d : Document) (root : string) (w : Workspace) :
  drive (S (S n)) (Some (AtFindUp d root)) w =
  bind (attach_folder_settings root) (λ _, commit_root d root) w.
Proof.
  cbn [drive resume].
  cbv beta iota zeta delta [resume_findUp attach_folder_settings bind get ret].
  destruct (findUp (files w) ".vim" root) as [folder |]; cbv beta iota.
  2: { destruct (commit_root d root w) as [[[] | e] w1];
         first [reflexivity | apply drive_done]. }
  destruct (truthy_string folder && negb (folder =? os_homedir)); cbv beta iota.
  2: { destruct (commit_root d root w) as [[[] | e] w1];
         first [reflexivity | apply drive_done]. }
  cbn [drive resume].
  cbv beta iota zeta delta [resume_stat bind get ret].
  destruct (statAsync (path_join folder CONFIG_FILE_NAME) w) as [[stat | e] w1];
    cbv beta iota; [| reflexivity].
  destruct stat as [[c |] |]; cbn [isFile]; cbv beta iota delta [update ret];
    match goal with
    | |- context [commit_root d root ?w2] =>
        destruct (commit_root d root w2) as [[[] | e] w3]
    end; first [reflexivity | apply drive_done].
Qed.

Lemma root_block_eq (d : Document) (w : Workspace) :
  bind (onBufCreate_root d) (λ _, fire (DidOpenTextDocument d)) w =
  (if String.eqb (doc_buftype d) "" && String.eqb (doc_schema d) "file" then
     match resolveRoot (doc_uri d) w with
     | Some root =>
         if truthy_string root && negb (String.eqb (_root w) root)
         then bind (attach_folder_settings root) (λ _, commit_root d root)
         else fire (DidOpenTextDocument d)
     | None => fire (DidOpenTextDocument d)
     end
   else fire (DidOpenTextDocument d)) w.
Proof.
  unfold onBufCreate_root.
  destruct (String.eqb (doc_buftype d) "" && String.eqb (doc_schema d) "file");
    [| reflexivity].
  cbv beta iota zeta delta [bind get].
  destruct (resolveRoot (doc_uri d) w) as [root |]; [| reflexivity].
  destruct (truthy_string root && negb (String.eqb (_root w) root));
    [| reflexivity].
  destruct (attach_folder_settings root w) as [[[] | e] w1]; [| reflexivity].
  cbv beta iota zeta delta [commit_root bind update get].
  destruct (onConfigurationChange (set_root root w1)) as [[[] | e] w2];
    reflexivity.
Qed.

(** The test of the root, then the rest of the root block: the root block
    of [onBufCreate] and the open notification. *)
Lemma drive_root_test (n : nat) (d : Document) (w : Workspace) :
  bind (root_test d) (drive (S (S n))) w =
  bind (onBufCreate_root d) (λ _, fire (DidOpenTextDocument d)) w.
Proof.
  rewrite root_block_eq. unfold root_test.
  destruct (String.eqb (doc_buftype d) "" && String.eqb (doc_schema d) "file").
  2: { unfold bind, fire, update, ret. reflexivity. }
  cbv beta iota zeta delta [bind get].
  destruct (resolveRoot (doc_uri d) w) as [root |].
  2: { unfold fire, update, ret. reflexivity. }
  destruct (truthy_string root && negb (String.eqb (_root w) root)).
  2: { unfold fire, update, ret. reflexivity. }
  unfold ret. apply drive_AtFindUp.
Qed.

(** What [onBufCreate] does from the reply of [document.init] on. *)
Lemma drive_AtInit (n : nat) (nvim : Nvim) (id : nat) (w : Workspace) :
  drive (S (S (S n))) (Some (AtInit nvim id)) w =
  bind
    (try_catch
       (let* document := Document_init nvim id in
        match document with
        | Some d => ret (Some d)
        | None =>
            do update (λ w, set_creating (creating w ∖ {[id]}) w) then
            ret None
        end)
       (λ e,
          do update (λ w, set_creating (creating w ∖ {[id]}) w) then
          ret None))
    (λ created,
       match created with
       | None => ret tt
       | Some document =>
           do update (λ w, set_buffers (<[id := document]> (buffers w)) w) then
           do update (λ w, set_creating (creating w ∖ {[id]}) w) then
           do onBufCreate_root document then
           fire (DidOpenTextDocument document)
       end) w.
Proof.
  cbn [drive resume]. unfold resume_init.
  set (init := try_catch _ _).
  unfold bind at 1 2. unfold bind at 5.
  destruct (init w) as [[[d |] | e] w1]; [| reflexivity | reflexivity].
  unfold bind at 1 2. unfold bind at 3 4. unfold update. cbv beta iota.
  apply drive_root_test.
Qed.


(** [onBufCreate] up to the reply of [document.init]. *)
Lemma onBufCreate_to_init (nvim : Nvim) (id : nat) (w : Workspace) :
  onBufCreate nvim id w =
  if bool_decide (id ∈ creating w) then (Returned tt, w)
  else if bufloaded nvim id then
    let w1 := set_creating ({[id]} ∪ creating w) (set_bufnr (Some id) w) in
    drive 3 (Some (AtInit nvim id))
      (set_emitted (emitted w1 ++ closes w1 id)
         (set_buffers (delete id (buffers w1)) w1))
  else (Returned tt, w).
Proof.
  unfold onBufCreate, bind, get. cbv beta iota.
  destruct (bool_decide (id ∈ creating w)); [reflexivity |].
  destruct (bufloaded nvim id); cbv beta iota delta [negb]; [| reflexivity].
  unfold update, try_catch, bind, getDocument_bufnr. cbv beta iota zeta.
  set (w1 := set_creating _ _).
  rewrite (unload_existing_effect id w1).
  rewrite drive_AtInit. unfold bind, try_catch. reflexivity.
Qed.

(** Run alone, the creation cut at its awaits is [onBufCreate]. *)
Lemma drive_step (n : nat) (q : Pending) (w : Workspace) :
  drive (S n) (Some q) w = bind (resume q) (drive n) w.
Proof. reflexivity. Qed.

Lemma bind_returned {A B} (m : Async A) (k : A → Async B) (w w1 : Workspace)
    (a : A) :
  m w = (Returned a, w1) → bind m k w = k a w1.
Proof. intros Hm. unfold bind. by rewrite Hm. Qed.

Lemma onBufCreate_start_effect (nvim : Nvim) (id : nat) (w : Workspace) :
  onBufCreate_start nvim id w =
  (Returned (if bool_decide (id ∈ creating w) then None
             else Some (AtBufloaded nvim id)), w).
Proof.
  unfold onBufCreate_start, bind, get.
  by destruct (bool_decide (id ∈ creating w)).
Qed.

Lemma resume_bufloaded_effect (nvim : Nvim) (id : nat) (w : Workspace) :
  resume_bufloaded nvim id w =
  if bufloaded nvim id then
    let w1 := set_creating ({[id]} ∪ creating w) (set_bufnr (Some id) w) in
    match buffers w !! id with
    | Some d =>
        (Returned (Some (AtDetach nvim id d)),
         set_buffers (delete id (buffers w1)) w1)
    | None => (Returned (Some (AtInit nvim id)), w1)
    end
  else (Returned None, w).
Proof.
  unfold resume_bufloaded.
  destruct (bufloaded nvim id); cbv beta match delta [negb]; [| reflexivity].
  unfold bind, update, get, getDocument_bufnr, ret. cbv beta match zeta.
  replace (buffers (set_creating ({[id]} ∪ creating (set_bufnr (Some id) w))
                      (set_bufnr (Some id) w)) !! id)
    with (buffers w !! id) by (by destruct w).
  destruct (buffers w !! id); by destruct w.
Qed.

Lemma onBufCreate_alone_eq (nvim : Nvim) (id : nat) (w : Workspace) :
  onBufCreate_alone nvim id w = onBufCreate nvim id w.
Proof.
  rewrite onBufCreate_to_init. unfold onBufCreate_alone.
  rewrite (bind_returned _ _ _ _ _ (onBufCreate_start_effect nvim id w)).
  destruct (bool_decide (id ∈ creating w)); [reflexivity |].
  rewrite drive_step. cbn [resume].
  pose proof (resume_bufloaded_effect nvim id w) as Hloaded.
  destruct (bufloaded nvim id); [| by rewrite (bind_returned _ _ _ _ _ Hloaded)].
  cbv zeta in Hloaded |- *.
  set (w1 := set_creating _ _) in *.
  assert (buffers w1 !! id = buffers w !! id) as Hsame by (by destruct w).
  destruct (buffers w !! id) as [d |] eqn:Hd;
    rewrite (bind_returned _ _ _ _ _ Hloaded).
  - rewrite drive_step. cbn [resume].
    unfold resume_detach, Document_detach, fire, bind, update, ret.
    cbv beta match. f_equal. unfold closes. rewrite Hsame. by destruct w1.
  - rewrite !drive_AtInit. f_equal.
    unfold closes. rewrite Hsame, delete_id by done.
    destruct w1; simpl. by rewrite app_nil_r.
Qed.


Lemma bind_thrown {A B} (m : Async A) (k : A → Async B) (w w1 : Workspace)
    (e : Exn) :
  m w = (Thrown e, w1) → bind m k w = (Thrown e, w1).
Proof. intros Hm. unfold bind. by rewrite Hm. Qed.

Lemma bind_from {A B} (m m' : Async A) (k : A → Async B) (w w' : Workspace) :
  m w = m' w' → bind m k w = bind m' k w'.
Proof. intros Hm. unfold bind. by rewrite Hm. Qed.

(** One creation taking turns with nobody is [onBufCreate] too. *)
Lemma schedule_alone (n : nat) (p : option Pending) (w : Workspace) :
  bind (schedule (replicate n (Continue 0)) [p]) (λ _, ret tt) w = drive n p w.
Proof.
  revert p w. induction n as [| n IH]; intros p w.
  { by destruct p. }
  cbn [replicate schedule turn]. simpl lookup.
  destruct p as [q |].
  - rewrite drive_step.
    destruct (resume q w) as [[next | e] w1] eqn:Hq.
    + rewrite (bind_returned _ (drive n) _ _ _ Hq), <- IH.
      apply (bind_from _ (schedule (replicate n (Continue 0)) [next])).
      apply (bind_returned _ _ _ w1 [next]).
      by rewrite (bind_returned _ _ _ _ _ Hq).
    + rewrite (bind_thrown _ (drive n) _ _ _ Hq).
      apply bind_thrown, bind_thrown. by apply bind_thrown.
  - rewrite drive_done, <- (drive_done n w), <- IH.
    apply (bind_from _ (schedule (replicate n (Continue 0)) [None])).
    by apply (bind_returned _ _ _ w [None]).
Qed.

Lemma all_at_once_single (nvim : Nvim) (id : nat) (w : Workspace) :
  all_at_once nvim [id] w = onBufCreate nvim id w.
Proof.
  rewrite <- onBufCreate_alone_eq. unfold all_at_once, onBufCreate_alone.
  cbn [fmap list_fmap length seq replicate concat app schedule turn].
  rewrite (bind_returned _ (drive 5) _ _ _ (onBufCreate_start_effect nvim id w)).
  rewrite <- (schedule_alone 5).
  apply (bind_from _ (schedule (replicate 5 (Continue 0))
                        [if bool_decide (id ∈ creating w) then None
                         else Some (AtBufloaded nvim id)])).
  apply (bind_returned _ _ _ w
           [if bool_decide (id ∈ creating w) then None
            else Some (AtBufloaded nvim id)]).
  by rewrite (bind_returned _ _ _ _ _ (onBufCreate_start_effect nvim id w)).
Qed.

(** *** The turns of a schedule *)

Lemma schedule_cons (t : Turn) (rest : list Turn) (pool pool1 : list (option Pending))
    (w w1 : Workspace) :
  turn t pool w = (Returned pool1, w1) →
  schedule (t :: rest) pool w = schedule rest pool1 w1.
Proof. intros Hturn. cbn [schedule]. by apply bind_returned. Qed.

Lemma turn_begin (nvim : Nvim) (id : nat) (pool : list (option Pending))
    (w : Workspace) :
  id ∉ creating w →
  turn (Begin nvim id) pool w =
  (Returned (pool ++ [Some (AtBufloaded nvim id)]), w).
Proof.
  intros Hfree. cbn [turn].
  rewrite (bind_returned _ _ _ _ _ (onBufCreate_start_effect nvim id w)).
  by rewrite bool_decide_eq_false_2.
Qed.

Lemma turn_continue (k : nat) (pool pool1 : list (option Pending))
    (q : Pending) (next : option Pending) (w w1 : Workspace) :
  pool !! k = Some (Some q) →
  resume q w = (Returned next, w1) →
  pool1 = <[k := next]> pool →
  turn (Continue k) pool w = (Returned pool1, w1).
Proof.
  intros Hq Hresume ->. cbn [turn]. rewrite Hq.
  by rewrite (bind_returned _ _ _ _ _ Hresume).
Qed.

Lemma turn_idle (k : nat) (pool : list (option Pending)) (w : Workspace) :
  pool !! k = Some None →
  turn (Continue k) pool w = (Returned pool, w).
Proof. intros Hq. cbn [turn]. by rewrite Hq. Qed.

Lemma schedule_idle (turns : list Turn) (w : Workspace) :
  Forall (λ t, t = Continue 0 ∨ t = Continue 1) turns →
  schedule turns [None; None] w = (Returned [None; None], w).
Proof.
  induction 1 as [| t rest [-> | ->] _ IH]; [done | |].
  - by rewrite (schedule_cons _ _ _ _ _ _ (turn_idle 0 [None; None] w eq_refl)).
  - by rewrite (schedule_cons _ _ _ _ _ _ (turn_idle 1 [None; None] w eq_refl)).
Qed.

(** *** The stages on a buffer whose document is created *)

Lemma resolveRoot_frame (uri : string) (w w' : Workspace) :
  _initialized w' = _initialized w → _root w' = _root w →
  env_roots w' = env_roots w → files w' = files w → _cwd w' = _cwd w →
  resolveRoot uri w' = resolveRoot uri w.
Proof.
  intros Hi Hr He Hf Hc. unfold resolveRoot. by rewrite Hi, Hr, He, Hf, Hc.
Qed.

Lemma resume_init_created (nvim : Nvim) (id : nat) (w : Workspace)
    (uri buftype schema content : string) (version : Z) :
  buffer_init nvim id = InitCreated uri buftype schema content version →
  let d := {| doc_serial := serial w; doc_bufnr := id; doc_uri := uri;
              doc_version := version; doc_content := content;
              doc_buftype := buftype; doc_schema := schema |} in
  resume_init nvim id w =
  root_test d
    (set_creating (creating w ∖ {[id]})
       (set_buffers (<[id := d]> (buffers w)) (set_serial (S (serial w)) w))).
Proof.
  intros Hinit d. unfold resume_init, try_catch.
  unfold bind at 1 2. rewrite Document_init_effect, Hinit.
  unfold ret at 1. cbv beta match.
  unfold bind, update. cbv beta match. by destruct w.
Qed.

Lemma root_test_stays (d : Document) (w : Workspace) :
  resolveRoot (doc_uri d) w = Some (_root w) →
  root_test d w =
  (Returned None, set_emitted (emitted w ++ [DidOpenTextDocument d]) w).
Proof.
  intros Hroot. unfold root_test.
  destruct (_ && _); [| reflexivity].
  unfold bind, get, fire, update, ret. cbv beta match.
  by rewrite Hroot, String.eqb_refl, andb_false_r.
Qed.

Lemma root_test_moves (d : Document) (root : string) (w : Workspace) :
  doc_buftype d = "" → doc_schema d = "file" →
  resolveRoot (doc_uri d) w = Some root →
  truthy_string root = true → root ≠ _root w →
  root_test d w = (Returned (Some (AtFindUp d root)), w).
Proof.
  intros Hbuftype Hschema Hroot Htruthy Hmoves. unfold root_test.
  rewrite Hbuftype, Hschema. cbn [String.eqb Ascii.eqb Bool.eqb andb].
  unfold bind, get, ret. cbv beta match. rewrite Hroot, Htruthy.
  assert (String.eqb (_root w) root = false) as ->; [| reflexivity].
  apply String.eqb_neq. congruence.
Qed.

(** Two documents opened for one buffer with no close between them are
    not bracketed. *)
Lemma tracks_two_opens (log : list Event) (m : gmap nat Document)
    (d1 d2 : Document) :
  doc_bufnr d1 = doc_bufnr d2 →
  ¬ tracks (log ++ [DidOpenTextDocument d1; DidOpenTextDocument d2]) m.
Proof.
  intros Hsame Htracks.
  change (log ++ [DidOpenTextDocument d1; DidOpenTextDocument d2])
    with (log ++ [DidOpenTextDocument d1] ++ [DidOpenTextDocument d2])
    in Htracks.
  rewrite app_assoc in Htracks.
  inversion Htracks as [Hnil | log2 m2 d Hrest Hfree Heq
                       | log2 m2 d Hrest Hopen Heq
                       | log2 m2 e Hrest Hother Heq].
  - by destruct log.
  - apply app_inj_tail in Heq as [-> [= ->]].
    inversion Hrest as [Hnil | log1 m1 d' Hrest1 Hfree1 Heq1
                       | log1 m1 d' Hrest1 Hopen1 Heq1
                       | log1 m1 e Hrest1 Hother1 Heq1].
    + by destruct log.
    + apply app_inj_tail in Heq1 as [-> [= ->]]. subst m2.
      rewrite <- Hsame, lookup_insert_eq in Hfree. done.
    + by apply app_inj_tail in Heq1 as [_ [=]].
    + apply app_inj_tail in Heq1 as [_ ->]. done.
  - by apply app_inj_tail in Heq as [_ [=]].
  - apply app_inj_tail in Heq as [_ ->]. done.
Qed.


(** C9.  The registry is not kept to one document per buffer when two
    creations of one buffer overlap.  The test on [creating] comes before
    the first await of [onBufCreate] and the entry is added after it, so a
    second creation that starts while the first waits for [bufloaded]
    passes the test as well.  Neither finds a document to unload; the
    second registers its document over the first one's, and two documents
    are opened for the buffer with no close between them: the first is
    open for ever and is in no registry. *)
Theorem onBufCreate_overlap_unclosed (nvim : Nvim) (id : nat) (w : Workspace)
    (uri buftype schema content : string) (version : Z) :
  id ∉ creating w →
  buffers w !! id = None →
  bufloaded nvim id = true →
  buffer_init nvim id = InitCreated uri buftype schema content version →
  resolveRoot uri w = Some (_root w) →
  let document n :=
    {| doc_serial := n; doc_bufnr := id; doc_uri := uri;
       doc_version := version; doc_content := content;
       doc_buftype := buftype; doc_schema := schema |} in
  let w' := (all_at_once nvim [id; id] w).2 in
  (all_at_once nvim [id; id] w).1 = Returned tt ∧
  buffers w' = <[id := document (S (serial w))]> (buffers w) ∧
  emitted w' =
    emitted w ++ [DidOpenTextDocument (document (serial w));
                  DidOpenTextDocument (document (S (serial w)))] ∧
  ¬ tracks (emitted w') (buffers w').
Proof.
  intros Hfree Hnone Hloaded Hinit Hroot document.
  set (w1 := set_creating ({[id]} ∪ creating w) (set_bufnr (Some id) w)).
  set (w2 := set_creating ({[id]} ∪ creating w1) (set_bufnr (Some id) w1)).
  set (r3 := set_creating (creating w2 ∖ {[id]})
               (set_buffers (<[id := document (serial w2)]> (buffers w2))
                  (set_serial (S (serial w2)) w2))).
  set (w3 := set_emitted
               (emitted r3 ++ [DidOpenTextDocument (document (serial w2))]) r3).
  set (r4 := set_creating (creating w3 ∖ {[id]})
               (set_buffers (<[id := document (serial w3)]> (buffers w3))
                  (set_serial (S (serial w3)) w3))).
  set (w4 := set_emitted
               (emitted r4 ++ [DidOpenTextDocument (document (serial w3))]) r4).
  assert (all_at_once nvim [id; id] w = (Returned tt, w4)) as Hrun.
  { unfold all_at_once.
    cbn [fmap list_fmap length seq replicate concat app].
    rewrite (bind_returned _ (λ _, ret tt) w w4 [None; None]);
      [reflexivity |].
    rewrite (schedule_cons _ _ _ _ _ _ (turn_begin nvim id [] w Hfree)).
    rewrite (schedule_cons _ _ _ _ _ _
               (turn_begin nvim id [Some (AtBufloaded nvim id)] w Hfree)).
    cbn [app].
    rewrite (schedule_cons _ _ _ [Some (AtInit nvim id);
                                  Some (AtBufloaded nvim id)] _ w1).
    2: { apply (turn_continue 0 _ _ (AtBufloaded nvim id) (Some (AtInit nvim id)));
           [reflexivity | | reflexivity].
         cbn [resume]. by rewrite resume_bufloaded_effect, Hloaded, Hnone. }
    rewrite (schedule_cons _ _ _ [Some (AtInit nvim id);
                                  Some (AtInit nvim id)] _ w2).
    2: { apply (turn_continue 1 _ _ (AtBufloaded nvim id) (Some (AtInit nvim id)));
           [reflexivity | | reflexivity].
         cbn [resume]. rewrite resume_bufloaded_effect, Hloaded.
         replace (buffers w1 !! id) with (buffers w !! id) by (by destruct w).
         by rewrite Hnone. }
    rewrite (schedule_cons _ _ _ [None; Some (AtInit nvim id)] _ w3).
    2: { apply (turn_continue 0 _ _ (AtInit nvim id) None);
           [reflexivity | | reflexivity].
         cbn [resume]. rewrite (resume_init_created _ _ _ _ _ _ _ _ Hinit).
         apply root_test_stays. cbn [doc_uri].
         rewrite (resolveRoot_frame uri w) by (by destruct w).
         rewrite Hroot. by destruct w. }
    rewrite (schedule_cons _ _ _ [None; None] _ w4).
    2: { apply (turn_continue 1 _ _ (AtInit nvim id) None);
           [reflexivity | | reflexivity].
         cbn [resume]. rewrite (resume_init_created _ _ _ _ _ _ _ _ Hinit).
         apply root_test_stays. cbn [doc_uri].
         rewrite (resolveRoot_frame uri w) by (by destruct w).
         rewrite Hroot. by destruct w. }
    apply schedule_idle.
    repeat (apply Forall_cons; split; [first [by left | by right] |]).
    apply Forall_nil_2. }
  rewrite Hrun. cbn [fst snd].
  assert (buffers w4 = <[id := document (S (serial w))]> (buffers w)) as Hb.
  { subst w4 r4 w3 r3 w2 w1. destruct w; simpl. apply insert_insert_eq. }
  assert (emitted w4 =
          emitted w ++ [DidOpenTextDocument (document (serial w));
                        DidOpenTextDocument (document (S (serial w)))]) as He.
  { subst w4 r4 w3 r3 w2 w1. destruct w; simpl. by rewrite <- app_assoc. }
  split; [reflexivity |]. split; [exact Hb |]. split; [exact He |].
  rewrite He. by apply tracks_two_opens.
Qed.


(** *** The root block when creations overlap *)

Lemma commit_root_effect (d : Document) (root : string) (w : Workspace) :
  ∃ w1,
    commit_root d root w = (Returned tt, w1) ∧
    emitted w1 =
      emitted w ++ [DidChangeConfiguration (_configurations w);
                    DidChangeWorkspaceFolder root;
                    DidOpenTextDocument d] ∧
    _root w1 = root ∧ files w1 = files w.
Proof.
  unfold commit_root, bind, update.
  destruct (onConfigurationChange_effect (set_root root w))
    as (store & paths & ->).
  unfold get, fire, update. eexists. split; [reflexivity |].
  destruct w; simpl. rewrite <- !app_assoc. by repeat split.
Qed.

(** Whether [findUp] gives the root block a [.vim] folder to look into. *)
Lemma resume_findUp_effect (d : Document) (root : string) (w : Workspace) :
  match findUp (files w) ".vim" root with
  | Some folder =>
      if truthy_string folder && negb (String.eqb folder os_homedir)
      then resume_findUp d root w =
           (Returned (Some (AtStat d root (path_join folder CONFIG_FILE_NAME))),
            w)
      else resume_findUp d root w = (Returned None, (commit_root d root w).2)
  | None => resume_findUp d root w = (Returned None, (commit_root d root w).2)
  end.
Proof.
  unfold resume_findUp, bind, get. cbv beta match.
  destruct (commit_root_effect d root w) as (w1 & Hcommit & _).
  destruct (findUp (files w) ".vim" root) as [folder |];
    [destruct (_ && _); [reflexivity |] |];
    by rewrite Hcommit.
Qed.

Lemma resume_stat_effect (d : Document) (root file : string) (w : Workspace) :
  ∃ previous w1,
    resume_stat d root file w = (Returned None, w1) ∧
    emitted w1 =
      emitted w ++ [DidChangeConfiguration previous;
                    DidChangeWorkspaceFolder root;
                    DidOpenTextDocument d] ∧
    _root w1 = root ∧ files w1 = files w.
Proof.
  unfold resume_stat. unfold bind at 1. rewrite statAsync_effect.
  set (w0 := set_fs_trace _ w).
  assert (emitted w0 = emitted w ∧ files w0 = files w) as [He0 Hf0]
    by (by destruct w).
  assert (∃ w2, (match lookup_path (files w) file with
                 | Some s =>
                     if isFile s
                     then update (λ w, set_configurations
                            (addFolderFile file (files w) (_configurations w)) w)
                     else ret tt
                 | None => ret tt
                 end) w0 = (Returned tt, w2) ∧
                emitted w2 = emitted w ∧ files w2 = files w)
    as (w2 & Hattach & He2 & Hf2).
  { destruct (lookup_path (files w) file) as [[c |] |]; cbn [isFile];
      unfold update, ret; eexists; (split; [reflexivity |]);
      by destruct w. }
  rewrite (bind_returned _ _ _ _ _ Hattach).
  destruct (commit_root_effect d root w2) as (w1 & Hcommit & He & Hr & Hf).
  rewrite (bind_returned _ _ _ _ _ Hcommit).
  exists (_configurations w2), w1. unfold ret.
  split; [reflexivity |]. rewrite He, He2, Hf, Hf2. by repeat split.
Qed.

(** C7.  The events of a root change are not fired once per change when
    creations overlap.  The root block tests [this._root !== root], awaits
    [findUp], and only then stores the root: when [attach] starts the
    creation of two buffers of one project at once, both pass the test
    before either stores, and each reloads the configuration and fires the
    folder-changed event.  The root moves once; each event is fired twice,
    the second pair by a creation whose resolved root is the stored one. *)
Theorem root_change_fires_twice (nvim : Nvim) (a b : nat) (w : Workspace)
    (uri_a uri_b content_a content_b root : string) (version_a version_b : Z) :
  a ∉ creating w → b ∉ creating w →
  buffers w !! a = None → buffers w !! b = None →
  bufloaded nvim a = true → bufloaded nvim b = true →
  buffer_init nvim a = InitCreated uri_a "" "file" content_a version_a →
  buffer_init nvim b = InitCreated uri_b "" "file" content_b version_b →
  resolveRoot uri_a w = Some root →
  resolveRoot uri_b w = Some root →
  truthy_string root = true →
  root ≠ _root w →
  let w' := (all_at_once nvim [a; b] w).2 in
  (all_at_once nvim [a; b] w).1 = Returned tt ∧
  _root w' = root ∧
  count_events is_config_event (emitted w') =
    count_events is_config_event (emitted w) + 2 ∧
  count_events is_folder_event (emitted w') =
    count_events is_folder_event (emitted w) + 2.
Proof.
  intros Hfree_a Hfree_b Hnone_a Hnone_b Hloaded_a Hloaded_b Hinit_a Hinit_b
    Hroot_a Hroot_b Htruthy Hmoves.
  set (da := {| doc_serial := serial w; doc_bufnr := a; doc_uri := uri_a;
                doc_version := version_a; doc_content := content_a;
                doc_buftype := ""; doc_schema := "file" |}).
  set (db := {| doc_serial := S (serial w); doc_bufnr := b; doc_uri := uri_b;
                doc_version := version_b; doc_content := content_b;
                doc_buftype := ""; doc_schema := "file" |}).
  set (w1 := set_creating ({[a]} ∪ creating w) (set_bufnr (Some a) w)).
  set (w2 := set_creating ({[b]} ∪ creating w1) (set_bufnr (Some b) w1)).
  set (w3 := set_creating (creating w2 ∖ {[a]})
               (set_buffers (<[a := da]> (buffers w2))
                  (set_serial (S (serial w2)) w2))).
  set (w4 := set_creating (creating w3 ∖ {[b]})
               (set_buffers (<[b := db]> (buffers w3))
                  (set_serial (S (serial w3)) w3))).
  assert (emitted w4 = emitted w ∧ files w4 = files w) as [He4 Hf4]
    by (by destruct w).
  assert (∃ p1 p2 w6,
            all_at_once nvim [a; b] w = (Returned tt, w6) ∧
            _root w6 = root ∧
            emitted w6 =
              emitted w ++ [DidChangeConfiguration p1;
                            DidChangeWorkspaceFolder root;
                            DidOpenTextDocument da;
                            DidChangeConfiguration p2;
                            DidChangeWorkspaceFolder root;
                            DidOpenTextDocument db])
    as (p1 & p2 & w6 & Hrun & Hr6 & He6).
  { unfold all_at_once.
    cbn [fmap list_fmap length seq replicate concat app].
    assert (∃ p1 p2 w6,
              schedule
                [Continue 0; Continue 1; Continue 0; Continue 1;
                 Continue 0; Continue 1]
                [Some (AtFindUp da root); Some (AtFindUp db root)] w4 =
              (Returned [None; None], w6) ∧
              _root w6 = root ∧
              emitted w6 =
                emitted w4 ++ [DidChangeConfiguration p1;
                               DidChangeWorkspaceFolder root;
                               DidOpenTextDocument da;
                               DidChangeConfiguration p2;
                               DidChangeWorkspaceFolder root;
                               DidOpenTextDocument db])
      as (p1 & p2 & w6 & Htail & Hr6 & He6).
    { pose proof (resume_findUp_effect da root w4) as Ha.
      destruct (findUp (files w4) ".vim" root) as [folder |] eqn:Hfolder;
        [destruct (truthy_string folder && negb (String.eqb folder os_homedir))
           eqn:Huse |].
      - (* both wait for [statAsync] *)
        pose proof (resume_findUp_effect db root w4) as Hb.
        rewrite Hfolder, Huse in Hb.
        set (file := path_join folder CONFIG_FILE_NAME) in *.
        destruct (resume_stat_effect da root file w4)
          as (p1 & w5 & Hsa & He5 & Hr5 & Hf5).
        destruct (resume_stat_effect db root file w5)
          as (p2 & w6 & Hsb & He6 & Hr6 & Hf6).
        exists p1, p2, w6.
        rewrite (schedule_cons _ _ _ [Some (AtStat da root file);
                                      Some (AtFindUp db root)] _ w4)
          by (by apply (turn_continue 0 _ _ (AtFindUp da root)
                          (Some (AtStat da root file)))).
        rewrite (schedule_cons _ _ _ [Some (AtStat da root file);
                                      Some (AtStat db root file)] _ w4)
          by (by apply (turn_continue 1 _ _ (AtFindUp db root)
                          (Some (AtStat db root file)))).
        rewrite (schedule_cons _ _ _ [None; Some (AtStat db root file)] _ w5)
          by (by apply (turn_continue 0 _ _ (AtStat da root file) None)).
        rewrite (schedule_cons _ _ _ [None; None] _ w6)
          by (by apply (turn_continue 1 _ _ (AtStat db root file) None)).
        rewrite schedule_idle.
        2: { repeat (apply Forall_cons; split; [first [by left | by right] |]).
             apply Forall_nil_2. }
        split; [reflexivity |]. split; [exact Hr6 |].
        rewrite He6, He5, <- app_assoc. reflexivity.
      - (* both commit at once *)
        destruct (commit_root_effect da root w4)
          as (w5 & Hca & He5 & Hr5 & Hf5).
        rewrite Hca in Ha. cbn [snd] in Ha.
        pose proof (resume_findUp_effect db root w5) as Hb.
        rewrite Hf5, Hfolder, Huse in Hb.
        destruct (commit_root_effect db root w5)
          as (w6 & Hcb & He6 & Hr6 & Hf6).
        rewrite Hcb in Hb. cbn [snd] in Hb.
        exists (_configurations w4), (_configurations w5), w6.
        rewrite (schedule_cons _ _ _ [None; Some (AtFindUp db root)] _ w5)
          by (by apply (turn_continue 0 _ _ (AtFindUp da root) None)).
        rewrite (schedule_cons _ _ _ [None; None] _ w6)
          by (by apply (turn_continue 1 _ _ (AtFindUp db root) None)).
        rewrite schedule_idle.
        2: { repeat (apply Forall_cons; split; [first [by left | by right] |]).
             apply Forall_nil_2. }
        split; [reflexivity |]. split; [exact Hr6 |].
        rewrite He6, He5, <- app_assoc. reflexivity.
      - destruct (commit_root_effect da root w4)
          as (w5 & Hca & He5 & Hr5 & Hf5).
        rewrite Hca in Ha. cbn [snd] in Ha.
        pose proof (resume_findUp_effect db root w5) as Hb.
        rewrite Hf5, Hfolder in Hb.
        destruct (commit_root_effect db root w5)
          as (w6 & Hcb & He6 & Hr6 & Hf6).
        rewrite Hcb in Hb. cbn [snd] in Hb.
        exists (_configurations w4), (_configurations w5), w6.
        rewrite (schedule_cons _ _ _ [None; Some (AtFindUp db root)] _ w5)
          by (by apply (turn_continue 0 _ _ (AtFindUp da root) None)).
        rewrite (schedule_cons _ _ _ [None; None] _ w6)
          by (by apply (turn_continue 1 _ _ (AtFindUp db root) None)).
        rewrite schedule_idle.
        2: { repeat (apply Forall_cons; split; [first [by left | by right] |]).
             apply Forall_nil_2. }
        split; [reflexivity |]. split; [exact Hr6 |].
        rewrite He6, He5, <- app_assoc. reflexivity. }
    exists p1, p2, w6.
    split; [| split; [exact Hr6 | by rewrite He6, He4]].
    rewrite (bind_returned _ (λ _, ret tt) w w6 [None; None]);
      [reflexivity |].
    rewrite (schedule_cons _ _ _ _ _ _ (turn_begin nvim a [] w Hfree_a)).
    rewrite (schedule_cons _ _ _ _ _ _
               (turn_begin nvim b [Some (AtBufloaded nvim a)] w Hfree_b)).
    cbn [app].
    rewrite (schedule_cons _ _ _ [Some (AtInit nvim a);
                                  Some (AtBufloaded nvim b)] _ w1).
    2: { apply (turn_continue 0 _ _ (AtBufloaded nvim a) (Some (AtInit nvim a)));
           [reflexivity | | reflexivity].
         cbn [resume]. by rewrite resume_bufloaded_effect, Hloaded_a, Hnone_a. }
    rewrite (schedule_cons _ _ _ [Some (AtInit nvim a);
                                  Some (AtInit nvim b)] _ w2).
    2: { apply (turn_continue 1 _ _ (AtBufloaded nvim b) (Some (AtInit nvim b)));
           [reflexivity | | reflexivity].
         cbn [resume]. rewrite resume_bufloaded_effect, Hloaded_b.
         replace (buffers w1 !! b) with (buffers w !! b) by (by destruct w).
         by rewrite Hnone_b. }
    rewrite (schedule_cons _ _ _ [Some (AtFindUp da root);
                                  Some (AtInit nvim b)] _ w3).
    2: { apply (turn_continue 0 _ _ (AtInit nvim a) (Some (AtFindUp da root)));
           [reflexivity | | reflexivity].
         cbn [resume]. rewrite (resume_init_created _ _ _ _ _ _ _ _ Hinit_a).
         replace (serial w2) with (serial w) by (by destruct w).
         apply root_test_moves; [done | done | | done |].
         - cbn [doc_uri]. rewrite <- Hroot_a.
           apply resolveRoot_frame; by destruct w.
         - by destruct w. }
    rewrite (schedule_cons _ _ _ [Some (AtFindUp da root);
                                  Some (AtFindUp db root)] _ w4).
    2: { apply (turn_continue 1 _ _ (AtInit nvim b) (Some (AtFindUp db root)));
           [reflexivity | | reflexivity].
         cbn [resume]. rewrite (resume_init_created _ _ _ _ _ _ _ _ Hinit_b).
         replace (serial w3) with (S (serial w)) by (by destruct w).
         apply root_test_moves; [done | done | | done |].
         - cbn [doc_uri]. rewrite <- Hroot_b.
           apply resolveRoot_frame; by destruct w.
         - by destruct w. }
    exact Htail. }
  rewrite Hrun. cbn [fst snd].
  split; [reflexivity |]. split; [exact Hr6 |].
  rewrite He6, !count_events_app. split; reflexivity.
Qed.

End Properties.

(** * The properties on the sample inputs *)

Lemma readFile_foreign_scheme_witness :
  getDocument "untitled:///scratch" sample_workspace = None ∧
  @readFile sample_platform "untitled:///scratch" sample_workspace =
  (Returned "", sample_workspace).
Proof.
  split; [reflexivity |].
  apply readFile_foreign_scheme; [reflexivity | discriminate].
Defined.

Lemma deleteFile_missing_throws_witness :
  lookup_path (files sample_workspace) "/tmp/missing.txt" = None ∧
  @deleteFile sample_platform "/tmp/missing.txt" no_delete_options
    sample_workspace =
  (Thrown (TypeError "Cannot read property 'isDirectory' of null"),
   set_fs_trace [FsStat "/tmp/missing.txt"] sample_workspace).
Proof.
  split; [reflexivity |].
  apply (deleteFile_missing_throws "/tmp/missing.txt"). reflexivity.
Defined.

Lemma deleteFile_directory_kept_witness :
  let w' := (@deleteFile sample_platform "/tmp/dir/" no_delete_options
               sample_workspace).2 in
  files w' = files sample_workspace ∧
  messages w' = [(error, "Can't remove directory, recursive not set")].
Proof.
  destruct (@deleteFile_directory_kept sample_platform "/tmp/dir/"
              no_delete_options sample_workspace)
    as (_ & Hfiles & _ & _ & Hmessages); [reflexivity .. |].
  split; [exact Hfiles | exact Hmessages].
Defined.

(** C5 as stated fails while a prompt is open: the directory stays, but no
    error is echoed. *)
Lemma deleteFile_directory_silent_when_blocking :
  lookup_path (files prompting_workspace) "/tmp/dir" = Some Dir ∧
  has_entries (files prompting_workspace) "/tmp/dir/" = true ∧
  (@deleteFile sample_platform "/tmp/dir/" no_delete_options
     prompting_workspace).1 = Returned tt ∧
  messages (@deleteFile sample_platform "/tmp/dir/" no_delete_options
              prompting_workspace).2 = [].
Proof. repeat split. Qed.

Lemma createFile_existing_kept_witness :
  let w' := (@createFile sample_platform "/tmp/new.txt" no_create_options
               sample_workspace).2 in
  files w' = files sample_workspace ∧
  messages w' = [(error, "/tmp/new.txt already exists!")].
Proof.
  destruct (@createFile_existing_kept sample_platform "/tmp/new.txt"
              no_create_options "kept" sample_workspace)
    as (_ & Hfiles & _ & _ & Hmessages); [reflexivity .. |].
  split; [exact Hfiles | exact Hmessages].
Defined.

(** C6 as stated fails while a prompt is open: nothing is written, but no
    error is echoed. *)
Lemma createFile_existing_silent_when_blocking :
  lookup_path (files prompting_workspace) "/tmp/new.txt" = Some (File "kept") ∧
  (@createFile sample_platform "/tmp/new.txt" no_create_options
     prompting_workspace).1 = Returned tt ∧
  messages (@createFile sample_platform "/tmp/new.txt" no_create_options
              prompting_workspace).2 = [].
Proof. repeat split. Qed.

Lemma validate_createFile_file_scheme_witness :
  @validteDocumentChanges sample_platform
    (ChangeList [CreateFile "file:///tmp/fresh.txt" None]) sample_workspace =
  (Returned false,
   set_messages [(error, "scheme of file:///tmp/fresh.txt should be file")]
     sample_workspace).
Proof.
  apply (@validate_createFile_file_scheme sample_platform
           "file:///tmp/fresh.txt" None [] sample_workspace);
    reflexivity.
Defined.

Lemma applyEdit_null_version_throws_witness :
  @applyEdit sample_platform sample_nvim
    {| documentChanges :=
         ChangeList [TextDocumentEdit "file:///tmp/a.txt" None []];
       changes := None |} sample_workspace =
  (Thrown (TypeError "Cannot read property 'version' of null"),
   sample_workspace).
Proof.
  apply (@applyEdit_null_version_throws sample_platform sample_nvim
           "file:///tmp/a.txt" "one"); reflexivity.
Defined.

Lemma applyEdit_invalid_unchanged_witness :
  let edit :=
    {| documentChanges := ChangeList [DeleteFile "file:///tmp/missing.txt" None];
       changes := None |} in
  (@applyEdit sample_platform sample_nvim edit sample_workspace).1 =
    Returned false ∧
  files (@applyEdit sample_platform sample_nvim edit sample_workspace).2 =
    files sample_workspace.
Proof.
  intros edit.
  destruct (@applyEdit_invalid_unchanged sample_platform sample_nvim edit
              sample_workspace) as (Hres & _ & _ & Hfiles & _).
  { left. reflexivity. }
  split; [exact Hres | exact Hfiles].
Defined.

Lemma root_recomputation_idempotent_witness :
  let w' := @after sample_platform sample_workspace (BufCreate sample_nvim 1) in
  @resolveRoot sample_platform "file:///tmp/f1.txt" sample_workspace =
    Some (_root sample_workspace) ∧
  _root w' = _root sample_workspace ∧
  count_events is_config_event (emitted w') = 0 ∧
  count_events is_folder_event (emitted w') = 0.
Proof.
  split; [reflexivity |].
  destruct (@root_recomputation_idempotent sample_platform sample_nvim 1 []
              sample_workspace) as [Hsilent _].
  exact (Hsilent _ _ _ _ _ eq_refl eq_refl).
Defined.

(** Two documents of one project opened after a document of [/tmp]: the
    root moves once, and each event is fired once. *)
Example root_moves_once :
  let w := @run sample_platform
             [BufCreate sample_nvim 1; BufCreate project_nvim 2;
              BufCreate project_nvim 3] sample_workspace in
  _root w = "/tmp/project" ∧
  count_events is_config_event (emitted w) = 1 ∧
  count_events is_folder_event (emitted w) = 1 ∧
  dom (buffers w) = {[1; 2; 3]}.
Proof. vm_compute. repeat split. Qed.

(** Creating a buffer again unloads its document first. *)
Example recreate_closes_first :
  emitted (@run sample_platform
             [BufCreate sample_nvim 1; BufCreate sample_nvim 1]
             sample_workspace) =
  let d n := {| doc_serial := n; doc_bufnr := 1;
                doc_uri := "file:///tmp/f1.txt"; doc_version := 1;
                doc_content := "text"; doc_buftype := "";
                doc_schema := "file" |} in
  [DidOpenTextDocument (d 0); DidCloseTextDocument (d 0);
   DidOpenTextDocument (d 1)].
Proof. reflexivity. Qed.

(** A valid flat edit to a file that is not open rewrites the file and
    adds it to the argument list. *)
Example flat_edit_rewrites_file :
  let edit :=
    {| documentChanges := NoDocumentChanges;
       changes :=
         Some [("file:///tmp/a.txt",
                [{| range := {| range_start := {| line := 0; character := 0 |};
                                range_end := {| line := 0; character := 3 |} |};
                    newText := "hello" |}])] |} in
  let r := @applyEdit sample_platform sample_nvim edit sample_workspace in
  r.1 = Returned true ∧
  files r.2 !! "/tmp/a.txt" = Some (File "hello") ∧
  fs_trace r.2 = [FsExists "/tmp/a.txt"; FsRead "/tmp/a.txt";
                  FsWrite "/tmp/a.txt" "hello"] ∧
  editor r.2 = [Argadd ["file:///tmp/a.txt"]; Setpos [0; 1; 1; 0]%Z].
Proof. vm_compute. repeat split. Qed.

(** A versioned edit applies to the open document when the versions agree
    and is refused when they do not. *)
Example versioned_edit_guard :
  let w := @after sample_platform sample_workspace (BufCreate sample_nvim 1) in
  let edit v :=
    {| documentChanges := ChangeList [TextDocumentEdit "file:///tmp/f1.txt" v []];
       changes := None |} in
  (@applyEdit sample_platform sample_nvim (edit (Some 1%Z)) w).1 = Returned true ∧
  (@applyEdit sample_platform sample_nvim (edit (Some 2%Z)) w).1 = Returned false ∧
  messages (@applyEdit sample_platform sample_nvim (edit (Some 2%Z)) w).2 =
    [(error, "file:///tmp/f1.txt changed before apply edit")].
Proof. vm_compute. repeat split. Qed.

(** [deleteFile] removes a file, and reports what [rmdir] says about a
    directory that is not empty even when [recursive] is set. *)
Example deleteFile_samples :
  files (@deleteFile sample_platform "/tmp/a.txt" no_delete_options
           sample_workspace).2 !! "/tmp/a.txt" = None ∧
  messages (@deleteFile sample_platform "/tmp/dir/"
              {| df_recursive := true; df_ignoreIfNotExists := false |}
              sample_workspace).2 =
    [(error, "Error on delete /tmp/dir/: ENOTEMPTY: /tmp/dir/")].
Proof. vm_compute. repeat split. Qed.


Lemma applyEdit_false_unchanged_witness :
  let edit := {| documentChanges := NoDocumentChanges;
                 changes := Some [("file:///tmp/a.txt", [])] |} in
  let result := @applyEdit sample_platform declining_nvim edit sample_workspace in
  result.1 = Returned false ∧
  same_but_logs sample_workspace result.2 ∧
  List.filter is_mutation (fs_trace result.2) = [].
Proof.
  intros edit result.
  split; [reflexivity |].
  exact (@applyEdit_false_unchanged sample_platform declining_nvim edit
           sample_workspace eq_refl).
Defined.

Lemma renameFile_keeps_existing_target_witness :
  let w' := (@renameFile sample_platform sample_nvim "/tmp/a.txt"
               "/tmp/new.txt" no_rename_options sample_workspace).2 in
  files w' = files sample_workspace ∧
  messages w' = [(error, "/tmp/new.txt already exists")].
Proof.
  destruct (@renameFile_keeps_existing_target sample_platform sample_nvim
              "/tmp/a.txt" "/tmp/new.txt" no_rename_options (File "kept")
              sample_workspace eq_refl eq_refl)
    as (Hfiles & _ & _ & Hmessages).
  split; [exact Hfiles | exact Hmessages].
Defined.

Lemma createFile_writes_empty_witness :
  let result := @createFile sample_platform "/tmp/fresh.txt" no_create_options
                  sample_workspace in
  files result.2 = <["/tmp/fresh.txt" := File ""]> (files sample_workspace) ∧
  messages result.2 = [] ∧
  result.1 = Returned tt ∧
  editor result.2 = [Argadd ["fresh.txt"]].
Proof.
  destruct (@createFile_writes_empty sample_platform "/tmp/fresh.txt"
              no_create_options sample_workspace)
    as (Hfiles & Hmessages & _ & Hreturned & Heditor);
    [reflexivity | reflexivity | discriminate | left; reflexivity
    | reflexivity |].
  split; [exact Hfiles |]. split; [exact Hmessages |].
  split; [exact Hreturned | exact Heditor].
Defined.

Lemma createFile_missing_parent_throws_witness :
  parent_node (files sample_workspace) "/tmp/nodir/x.txt" = None ∧
  @createFile sample_platform "/tmp/nodir/x.txt" no_create_options
    sample_workspace =
  (Thrown (SystemError "ENOENT" "/tmp/nodir/x.txt"),
   set_fs_trace [FsStat "/tmp/nodir/x.txt"; FsWrite "/tmp/nodir/x.txt" ""]
     sample_workspace).
Proof.
  split; [reflexivity |].
  apply (@createFile_missing_parent_throws sample_platform "/tmp/nodir/x.txt");
    reflexivity.
Defined.

Lemma createFile_keeps_tree_witness :
  let opts := {| cf_overwrite := false; cf_ignoreIfExists := true |} in
  let w' := (@createFile sample_platform "/tmp/new.txt" opts
               sample_workspace).2 in
  files w' = files sample_workspace ∧
  fs_trace w' = [FsStat "/tmp/new.txt"].
Proof.
  intros opts.
  destruct (@createFile_keeps_tree sample_platform "/tmp/new.txt" opts
              sample_workspace)
    as (_ & Hfiles & Htrace & _).
  { left. split; [by exists (File "kept") | reflexivity]. }
  split; [exact Hfiles | exact Htrace].
Defined.

Lemma deleteFile_removes_file_witness :
  let w' := (@deleteFile strict_platform "/tmp/a.txt" no_delete_options
               strict_workspace).2 in
  files w' = delete "/tmp/a.txt" (files strict_workspace) ∧
  buffers w' = buffers strict_workspace ∧
  editor w' = editor strict_workspace ∧
  messages w' =
    [(error, "Error on delete /tmp/a.txt: E89: No write since last change")].
Proof.
  destruct (@deleteFile_removes_file strict_platform "/tmp/a.txt" "one"
              no_delete_options strict_workspace eq_refl eq_refl)
    as (_ & Hfiles & Hbuffers & Hrest).
  destruct (Hrest : editor _ = editor strict_workspace ∧ messages _ = _)
    as [Heditor Hmessages].
  split; [exact Hfiles |]. split; [exact Hbuffers |].
  split; [exact Heditor | exact Hmessages].
Defined.

Lemma deleteFile_recursive_is_rmdir_witness :
  let opts := {| df_recursive := true; df_ignoreIfNotExists := false |} in
  let w' := (@deleteFile sample_platform "/tmp/dir" opts sample_workspace).2 in
  files w' = files sample_workspace ∧
  messages w' =
    [(error, "Error on delete /tmp/dir: ENOTEMPTY: /tmp/dir")].
Proof.
  intros opts.
  destruct (@deleteFile_recursive_is_rmdir sample_platform "/tmp/dir" opts
              sample_workspace eq_refl eq_refl eq_refl)
    as (_ & Hfiles & _ & Hmessages).
  split; [exact Hfiles | exact Hmessages].
Defined.

Lemma lifecycle_is_calm_witness :
  let w' := @unfold_history sample_platform
              [Registry (BufCreate sample_nvim 1); FileType "text" 1;
               Detach [1]; Reload] sample_workspace in
  files w' = files sample_workspace ∧ messages w' = [] ∧ editor w' = [].
Proof.
  exact (@lifecycle_is_calm sample_platform
           [Registry (BufCreate sample_nvim 1); FileType "text" 1;
            Detach [1]; Reload] sample_workspace eq_refl).
Defined.

Lemma getConfigFile_workspace_after_reload_witness :
  @getConfigFile TargetWorkspace sample_workspace = None ∧
  @getConfigFile TargetWorkspace
    (@unfold_history sample_platform [Reload] sample_workspace) =
  Some "/opt/coc/settings.json".
Proof.
  exact (@getConfigFile_workspace_after_reload sample_platform [] "/tmp" []
           sample_tree eq_refl).
Defined.

Lemma root_never_empty_witness :
  truthy_string "/tmp" = true ∧
  truthy_string
    (_root (@unfold_history sample_platform
              [Registry (BufCreate project_nvim 2); Reload]
              sample_workspace)) = true.
Proof.
  split; [reflexivity |].
  exact (@root_never_empty sample_platform
           [Registry (BufCreate project_nvim 2); Reload] "/tmp" []
           sample_tree eq_refl).
Defined.

Lemma onBufCreate_registers_witness :
  let w' := (@onBufCreate sample_platform sample_nvim 1 sample_workspace).2 in
  getDocument_bufnr 1 w' =
    Some {| doc_serial := 0; doc_bufnr := 1; doc_uri := "file:///tmp/f1.txt";
            doc_version := 1; doc_content := "text"; doc_buftype := "";
            doc_schema := "file" |} ∧
  bufnr w' = Some 1.
Proof.
  destruct (@onBufCreate_registers sample_platform sample_nvim 1
              sample_workspace "file:///tmp/f1.txt" "" "file" "text" 1)
    as (_ & Hdoc & Hcurrent & _);
    [apply (bool_decide_unpack _); reflexivity | reflexivity | reflexivity |].
  split; [exact Hdoc | exact Hcurrent].
Defined.

Lemma onBufCreate_failure_unloads_witness :
  let w' := (@onBufCreate sample_platform refusing_nvim 1 open_workspace).2 in
  buffers w' = delete 1 (buffers open_workspace) ∧
  emitted w' = emitted open_workspace ++ closes open_workspace 1.
Proof.
  destruct (@onBufCreate_failure_unloads sample_platform refusing_nvim 1
              open_workspace)
    as (_ & Hbuffers & Hemitted & _);
    [apply (bool_decide_unpack _); reflexivity | reflexivity
    | left; reflexivity |].
  split; [exact Hbuffers | exact Hemitted].
Defined.

Lemma getLine_reads_line_witness :
  getDocument "file:///tmp/n.txt" lines_workspace = None ∧
  @getLine sample_platform (λ _ _, None) "file:///tmp/n.txt" 1
    lines_workspace =
  (Returned "two",
   set_fs_trace [FsRead "/tmp/n.txt"] lines_workspace).
Proof.
  split; [reflexivity |].
  apply (@getLine_reads_line sample_platform (λ _ _, None)
           "file:///tmp/n.txt" 1 lines_workspace ["one"; "two"]);
    [reflexivity | reflexivity | discriminate | by repeat constructor
    | reflexivity].
Defined.

Lemma applyEdit_documentChanges_no_prompt_witness :
  let edit :=
    {| documentChanges := ChangeList [DeleteFile "file:///tmp/a.txt" None];
       changes := None |} in
  (@validteDocumentChanges sample_platform (documentChanges edit)
     sample_workspace).1 = Returned true ∧
  @getChangedFiles edit sample_workspace = [] ∧
  (@applyEdit sample_platform sample_nvim edit sample_workspace).1 ≠
    Returned false.
Proof.
  intros edit. split; [reflexivity |].
  exact (@applyEdit_documentChanges_no_prompt sample_platform sample_nvim edit
           sample_workspace eq_refl eq_refl).
Defined.

Lemma renameFile_missing_source_witness :
  let w' := (@renameFile sample_platform sample_nvim "/tmp/missing.txt"
               "/tmp/fresh.txt" no_rename_options sample_workspace).2 in
  files w' = files sample_workspace ∧
  messages w' = [(error, "Rename error ENOENT: /tmp/missing.txt")].
Proof.
  destruct (@renameFile_missing_source sample_platform sample_nvim
              "/tmp/missing.txt" "/tmp/fresh.txt" no_rename_options
              sample_workspace eq_refl)
    as (Hfiles & _ & _ & _ & Hmessages); [left; reflexivity |].
  split; [exact Hfiles | exact Hmessages].
Defined.


Lemma onBufCreate_overlap_unclosed_witness :
  let document n :=
    {| doc_serial := n; doc_bufnr := 1; doc_uri := "file:///tmp/f1.txt";
       doc_version := 1; doc_content := "text"; doc_buftype := "";
       doc_schema := "file" |} in
  let w' := (@all_at_once sample_platform sample_nvim [1; 1]
               sample_workspace).2 in
  buffers w' = <[1 := document 1]> (buffers sample_workspace) ∧
  emitted w' = [DidOpenTextDocument (document 0);
                DidOpenTextDocument (document 1)] ∧
  ¬ tracks (emitted w') (buffers w').
Proof.
  destruct (@onBufCreate_overlap_unclosed sample_platform sample_nvim 1
              sample_workspace "file:///tmp/f1.txt" "" "file" "text" 1)
    as (_ & Hbuffers & Hemitted & Hbroken);
    [apply (bool_decide_unpack _); reflexivity | reflexivity | reflexivity
    | reflexivity | reflexivity |].
  split; [exact Hbuffers |]. split; [exact Hemitted | exact Hbroken].
Defined.

Lemma root_change_fires_twice_witness :
  let w' := (@all_at_once sample_platform project_nvim [2; 3]
               sample_workspace).2 in
  _root sample_workspace = "/tmp" ∧
  _root w' = "/tmp/project" ∧
  count_events is_config_event (emitted w') = 2 ∧
  count_events is_folder_event (emitted w') = 2.
Proof.
  destruct (@root_change_fires_twice sample_platform project_nvim 2 3
              sample_workspace "file:///tmp/project/g2.txt"
              "file:///tmp/project/g3.txt" "text" "text" "/tmp/project" 1 1)
    as (_ & Hroot & Hconfig & Hfolder);
    [apply (bool_decide_unpack _); reflexivity
    | apply (bool_decide_unpack _); reflexivity
    | reflexivity | reflexivity | reflexivity | reflexivity | reflexivity
    | reflexivity | reflexivity | reflexivity | reflexivity | discriminate |].
  split; [reflexivity |]. split; [exact Hroot |].
  split; [exact Hconfig | exact Hfolder].
Defined.

(** The same two buffers created one after the other: the root moves
    once and each event is fired once. *)
Example root_change_in_sequence :
  let w' := @run sample_platform
              [BufCreate project_nvim 2; BufCreate project_nvim 3]
              sample_workspace in
  _root w' = "/tmp/project" ∧
  count_events is_config_event (emitted w') = 1 ∧
  count_events is_folder_event (emitted w') = 1.
Proof. vm_compute. repeat split. Qed.

(** The editor rejects the new name of an open buffer: the file is
    renamed, the rejection echoed, the document not created again. *)
Example renameFile_rejected_name :
  let result := @renameFile strict_platform a_nvim "/tmp/a.txt" "/tmp/b.txt"
                  no_rename_options strict_workspace in
  result.1 = Returned tt ∧
  messages result.2 =
    [(error, "Rename error E95: Buffer with this name already exists")] ∧
  buffers result.2 = buffers strict_workspace ∧
  files result.2 !! "/tmp/b.txt" = Some (File "one") ∧
  files result.2 !! "/tmp/a.txt" = None.
Proof. vm_compute. repeat split. Qed.

(** The editor rejects [:bdelete] for the buffer of a deleted file: the
    file is gone and the rejection is echoed. *)
Example deleteFile_rejected_bdelete :
  let result := @deleteFile strict_platform "/tmp/a.txt" no_delete_options
                  strict_workspace in
  result.1 = Returned tt ∧
  files result.2 !! "/tmp/a.txt" = None ∧
  editor result.2 = [] ∧
  messages result.2 =
    [(error, "Error on delete /tmp/a.txt: E89: No write since last change")].
Proof. vm_compute. repeat split. Qed.

(** [detach] after buffers 2 and 1 were created in that order closes them
    in that order. *)
Example detach_in_insertion_order :
  let w := @run sample_platform
             [BufCreate sample_nvim 2; BufCreate sample_nvim 1]
             sample_workspace in
  let closed n :=
    DidCloseTextDocument
      {| doc_serial := n; doc_bufnr := 2 - n;
         doc_uri := "file:///tmp/f" +:+ pretty (2 - n) +:+ ".txt";
         doc_version := 1; doc_content := "text"; doc_buftype := "";
         doc_schema := "file" |} in
  emitted (detach [2; 1] w).2 =
  emitted w ++ [closed 0; closed 1].
Proof. reflexivity. Qed.

(** A reload after the user file was rewritten: the preference that
    changed is affected, as is every section above it; the preference the
    folder settings override is not; and a file that only writes its
    members in another order affects nothing. *)
Example affectsConfiguration_samples :
  let previous := _configurations layered_workspace in
  let asks content section :=
    @affectsConfiguration layered_platform previous
      (@onConfigurationChange layered_platform (rewritten content)).2
      section None in
  @getConfiguration layered_platform previous (Some "coc.preferences") None =
    Some (JObj [("a", JNum 1); ("b", JNum 7)]) ∧
  asks "second" "coc.preferences.a" = true ∧
  asks "second" "coc.preferences" = true ∧
  asks "second" "coc" = true ∧
  asks "second" "coc.preferences.b" = false ∧
  asks "second" "elsewhere" = false ∧
  asks "swapped" "coc.preferences" = false ∧
  asks "swapped" "coc" = false ∧
  asks "first" "coc" = false.
Proof. vm_compute. repeat split. Qed.
